(** * prysk: the command line front end (src/prysk/cli.py)

    A shallow embedding of [prysk.cli]: configuration loading, the pre-flight
    checks of [main], the interactive prompt, the per-test CLI wrapper built
    by [runcli] and the aggregation of the test results into the exit status.

    Conventions.
    - Python [str] and [bytes] values are Rocq strings; a character is a code
      point below 256.
    - Code that touches the outside world is written in the monad [M]: a
      function from the [State] (file system, standard input, the counters of
      the running [runcli] generator) to a result that carries the new state
      and the list of [Event]s performed, in program order.  A computation may
      return, raise a Python exception, or loop for ever.
    - What [cli.py] imports from elsewhere ([prysk.run.runtests],
      [prysk.process.execute], [prysk.settings], [configparser], ...) is
      collected in the record [Platform].  [argparse] is not modelled: [main]
      starts from the parsed command line.
    - A call into a library that can raise on the input of the user gives an
      [Attempt]: the methods of the [configparser] parser, [shlex.split], and
      the look-up of PATH in [os.environ].  [load] lets every exception out
      that is not a [ValueError]; [main] catches [ValueError] around [load]
      only.
    - The file system [fs] is a map from the text of a path to a content.  It
      follows the file operations of [cli.py] itself: the [.err] files it
      writes and removes.  What the test scripts, the [patch] process and the
      report writer of [prysk.xunit] do to files is not part of the state;
      the events [Call], [Exec] and [Xunit] stand for them.  Statements about
      files are therefore made about what [cli.py] does, and about all files
      only for runs in which [patch] is not executed and for paths other than
      the report.  A test callable returns its result or raises.  The file
      operations of [cli.py] itself succeed, except [os.remove] on a path that
      does not exist. *)

From Stdlib Require Import ZArith Ascii String List Bool.
From stdpp Require Import base tactics option list strings gmap pretty.

Local Open Scope string_scope.
Local Open Scope Z_scope.
Local Open Scope list_scope.

(** ** Python strings *)

Module PyStr.

Definition LF : string := String (ascii_of_nat 10) "".

Definition code (c : ascii) : nat := nat_of_ascii c.

(** [c.isupper()] for a single character: A-Z and the Latin-1 capitals. *)
Definition isupper (c : ascii) : bool :=
  let n := code c in
  ((65 <=? n) && (n <=? 90))%nat
  || ((192 <=? n) && (n <=? 222) && negb (n =? 215))%nat.

Definition lower_char (c : ascii) : ascii :=
  if isupper c then ascii_of_nat (code c + 32) else c.

(** [s.lower()] *)
Fixpoint lower (s : string) : string :=
  match s with
  | EmptyString => EmptyString
  | String c s' => String (lower_char c) (lower s')
  end.

(** [c.isspace()] *)
Definition isspace (c : ascii) : bool :=
  let n := code c in
  ((9 <=? n) && (n <=? 13) || (28 <=? n) && (n <=? 32)
   || (n =? 133) || (n =? 160))%nat.

Fixpoint lstrip (s : string) : string :=
  match s with
  | EmptyString => EmptyString
  | String c s' => if isspace c then lstrip s' else s
  end.

Fixpoint rstrip (s : string) : string :=
  match s with
  | EmptyString => EmptyString
  | String c s' =>
      match rstrip s' with
      | EmptyString => if isspace c then EmptyString else String c EmptyString
      | r => String c r
      end
  end.

(** [s.strip()] *)
Definition strip (s : string) : string := rstrip (lstrip s).

(** Truth value of a string: non-empty. *)
Definition truthy (s : string) : bool :=
  match s with EmptyString => false | String _ _ => true end.

(** Truth value of an optional string: neither [None] nor empty. *)
Definition truthy_opt (o : option string) : bool :=
  match o with None => false | Some s => truthy s end.

(** [sub in s] *)
Fixpoint contains (s sub : string) : bool :=
  String.prefix sub s
  || match s with
     | EmptyString => false
     | String _ s' => contains s' sub
     end.

(** [[c for c in s if c.isupper()]] *)
Fixpoint uppers (s : string) : list ascii :=
  match s with
  | EmptyString => []
  | String c s' => if isupper c then c :: uppers s' else uppers s'
  end.

Definition of_char (c : ascii) : string := String c EmptyString.

(** [sep.join(l)] *)
Fixpoint join (sep : string) (l : list string) : string :=
  match l with
  | [] => ""
  | [x] => x
  | x :: l' => x +:+ sep +:+ join sep l'
  end.

(** [s.split(sep)] for a one-character separator. *)
Fixpoint split (sep : ascii) (s : string) : list string :=
  match s with
  | EmptyString => [""]
  | String c s' =>
      if Ascii.eqb c sep then "" :: split sep s'
      else match split sep s' with
           | [] => [of_char c]
           | x :: r => String c x :: r
           end
  end.

Definition startswith (s pre : string) : bool := String.prefix pre s.

Fixpoint endswith_char (s : string) (c : ascii) : bool :=
  match s with
  | EmptyString => false
  | String d EmptyString => Ascii.eqb d c
  | String _ s' => endswith_char s' c
  end.

End PyStr.

(** ** pathlib paths *)

(** A [pathlib.PurePosixPath]: its root (empty for a relative path) and its
    components. *)
Record Path := mkPath { root : string; parts : list string }.

Module PurePath.

(** [str(p)] *)
Definition str (p : Path) : string :=
  match parts p with
  | [] => if PyStr.truthy (root p) then root p else "."
  | _ => root p +:+ PyStr.join "/" (parts p)
  end.

(** [p.name] *)
Definition name (p : Path) : string := List.last (parts p) "".

(** [p.parent] *)
Definition parent (p : Path) : Path :=
  mkPath (root p) (List.removelast (parts p)).

(** [Path(a, b)] for two names (each a single component or empty). *)
Definition of_names (a b : string) : Path :=
  mkPath "" (List.filter PyStr.truthy [a; b]).

End PurePath.

(** ** Calls that may raise *)

(** What a call into a library gives: its value, a [ValueError] with its
    message, or an exception of another class, named by that class. *)
Inductive Attempt (A : Type) :=
| Got (a : A)
| ValueError (msg : string)
| Raised (e : string).
Arguments Got {A} a.
Arguments ValueError {A} msg.
Arguments Raised {A} e.

#[global] Instance Attempt_fmap : FMap Attempt :=
  fun A B f a =>
    match a with
    | Got x => Got (f x)
    | ValueError msg => ValueError msg
    | Raised e => Raised e
    end.

(** The value of a call that returned, [d] otherwise. *)
Definition got {A} (d : A) (a : Attempt A) : A :=
  match a with Got x => x | _ => d end.

(** ** The world: state, events and the monad of effects *)

Inductive Event :=
| Stdout (s : string)            (* a write to sys.stdout or its buffer *)
| Stderr (s : string)            (* a write to sys.stderr or its buffer *)
| Readline                       (* sys.stdin.readline() *)
| Setenv (var value : string)    (* os.environ[var] = value *)
| Mkdtemp (dir : string)         (* tempfile.mkdtemp *)
| Mkdir (dir : string)           (* os.mkdir *)
| Rmtree (dir : string)          (* shutil.rmtree *)
| Call (test : Path)             (* the test callable of runtests is invoked *)
| WriteFile (file : string) (lines : list string)  (* open(file, "wb") and writes *)
| Remove (file : string)         (* os.remove *)
| Exec (cmd : list string) (input : string)        (* prysk.process.execute *)
| Xunit (file : string).         (* the report written by runxunit *)

(** The counters [total[0]], [skipped[0]], [failed[0]] of a [runcli] generator. *)
Record Counters := mkCounters { total : nat; skipped : nat; failed : nat }.

Record State := mkState {
  fs : gmap string string;   (* existing paths outside the sandbox, with content *)
  stdin : list string;       (* the lines sys.stdin.readline() will return *)
  counters : Counters
}.

Inductive Res (A : Type) :=
| Ret (a : A) (s : State) (t : list Event)     (* normal completion *)
| Exc (e : string) (s : State) (t : list Event) (* a Python exception propagates *)
| Hang.                                         (* the code never returns *)
Arguments Ret {A} a s t.
Arguments Exc {A} e s t.
Arguments Hang {A}.

Definition M (A : Type) : Type := State -> Res A.

(** [t] happened before the outcome [r]. *)
Definition after {A} (t : list Event) (r : Res A) : Res A :=
  match r with
  | Ret a s t' => Ret a s (t ++ t')
  | Exc e s t' => Exc e s (t ++ t')
  | Hang => Hang
  end.

Definition ret {A} (a : A) : M A := fun s => Ret a s [].
Definition raise {A} (e : string) : M A := fun s => Exc e s [].
Definition bind {A B} (m : M A) (f : A -> M B) : M B :=
  fun s =>
    match m s with
    | Ret a s' t => after t (f a s')
    | Exc e s' t => Exc e s' t
    | Hang => Hang
    end.

#[global] Instance M_ret : MRet M := @ret.
#[global] Instance M_bind : MBind M := fun A B f m => bind m f.

(** [try: body finally: handler] *)
Definition try_finally {A} (body : M A) (handler : M unit) : M A :=
  fun s =>
    match body s with
    | Ret a s' t =>
        match handler s' with
        | Ret _ s'' t' => Ret a s'' (t ++ t')
        | Exc e s'' t' => Exc e s'' (t ++ t')
        | Hang => Hang
        end
    | Exc e s' t =>
        match handler s' with
        | Ret _ s'' t' => Exc e s'' (t ++ t')
        | Exc e' s'' t' => Exc e' s'' (t ++ t')
        | Hang => Hang
        end
    | Hang => Hang
    end.

(** A call that may raise, made by code that does not catch: the exception
    propagates. *)
Definition attempt {A} (a : Attempt A) : M A :=
  match a with
  | Got x => ret x
  | ValueError _ => raise "ValueError"
  | Raised e => raise e
  end.

Definition emit (e : Event) : M unit := fun s => Ret tt s [e].
Definition when (b : bool) (m : M unit) : M unit := if b then m else ret tt.

Definition stdout_write (s : string) : M unit := emit (Stdout s).
Definition stderr_write (s : string) : M unit := emit (Stderr s).

(** [Path(p).exists()] *)
Definition path_exists (p : string) : M bool :=
  fun s => Ret (bool_decide (is_Some (fs s !! p))) s [].

(** [os.remove(p)] *)
Definition os_remove (p : string) : M unit :=
  fun s =>
    match fs s !! p with
    | Some _ => Ret tt (mkState (delete p (fs s)) (stdin s) (counters s)) [Remove p]
    | None => Exc "FileNotFoundError" s []
    end.

(** [with open(p, "wb") as f: for line in lines: f.write(line)] *)
Definition write_lines (p : string) (lines : list string) : M unit :=
  fun s =>
    Ret tt (mkState (<[p := PyStr.join "" lines]> (fs s)) (stdin s) (counters s))
        [WriteFile p lines].

Definition get_counters : M Counters := fun s => Ret (counters s) s [].
Definition set_counters (c : Counters) : M unit :=
  fun s => Ret tt (mkState (fs s) (stdin s) c) [].

(** ** Settings and what cli.py imports *)

(** The settings object of [prysk.settings], with the attributes [cli.py] reads. *)
Record Settings := mkSettings {
  tests : list Path;
  quiet : bool;
  verbose : bool;
  interactive : bool;
  debug : bool;
  yes : bool;
  no : bool;
  preserve_env : bool;
  keep_tmpdir : bool;
  shell : string;
  shell_opts : option string;
  indent : Z;
  xunit_file : option string
}.

(** The 3-tuple a test callable returns: [(refout, postout, diff)]. *)
Record Outcome := mkOutcome {
  refout : option (list string);
  postout : option (list string);
  diff : list string
}.

(** What calling a test callable of [runtests] does: return its 3-tuple or
    raise. *)
Inductive Behaviour :=
| Returns (o : Outcome)
| Raises (e : string).

(** A value stored in the dictionary built by [load]. *)
Inductive Value := VBool (b : bool) | VInt (n : Z) | VStr (s : string).

(** The [_type] component of [ArgumentParser.options]: [bool], [int], or
    anything else ([None], [Path]). *)
Inductive OptType := TBool | TInt | TOther.

(** A [configparser.ConfigParser] over the configuration file.  [read] is
    [parser.read(config)]: it returns, or raises on a file it cannot parse
    or decode.  [get], [getboolean] and [getint] return the value of an
    option, raise [ValueError] on a value they cannot convert, or raise an
    error of [configparser] (a failed interpolation, say), which is no
    [ValueError]. *)
Record ConfigParser := mkConfigParser {
  read : Attempt unit;
  has_section : string -> bool;
  has_option : string -> string -> bool;
  get : string -> string -> Attempt string;
  getboolean : string -> string -> Attempt bool;
  getint : string -> string -> Attempt Z
}.

(** Everything [cli.py] takes from other modules and from the process
    environment. *)
Record Platform := mkPlatform {
  (* prysk.run.runtests(paths, tmpdir, shell, indent, cleanenv, debug): the
     tests it yields, each with what its callable does *)
  runtests : list Path -> string -> list string -> Z -> bool -> bool ->
             list (Path * Behaviour);
  (* prysk.process.execute(args, stdin): output and return code *)
  execute : list string -> string -> string * Z;
  (* prysk.settings *)
  settings_from : gmap string Value -> Settings;
  merge_settings : Settings -> Settings -> Settings;
  (* the parser over the file named by PRYSKRC *)
  pryskrc : ConfigParser;
  (* repr(), parser.format_usage(), os.path.abspath *)
  repr : string -> string;
  format_usage : string;
  abspath : string -> string;
  (* shlex.split: the words, or ValueError (no closing quotation, ...) *)
  shlex_split : string -> Attempt (list string);
  (* os.environ.get("PATH"): None when PATH is not set;
     os.path.isfile(p) and os.access(p, os.X_OK) *)
  environ_PATH : option string;
  is_executable_file : string -> bool;
  (* the directory tempfile.mkdtemp creates *)
  mkdtemp : string
}.

(** ** ArgumentParser.options *)

(** The list [add_argument] accumulates for the parser of [create_parser]. *)
Definition options : list (OptType * string) :=
  [ (TOther, "tests"); (TOther, "version"); (TBool, "quiet"); (TBool, "verbose");
    (TBool, "interactive"); (TBool, "debug"); (TBool, "yes"); (TBool, "no");
    (TBool, "preserve_env"); (TBool, "keep_tmpdir"); (TOther, "shell");
    (TOther, "shell_opts"); (TInt, "indent"); (TOther, "xunit_file") ].

(** ** load *)

Section Load.
Variable repr_ : string -> string.
Variable parser : ConfigParser.
Variable section : string.

(** [dispatcher[_type]]: the method that fetches the value and the text of
    the error message, between the name of the option and the value. *)
Definition dispatcher (_type : OptType)
  : (string -> string -> Attempt Value) * string :=
  match _type with
  | TBool => (fun s o => VBool <$> getboolean parser s o, ": invalid boolean value: ")
  | TInt => (fun s o => VInt <$> getint parser s o, ": invalid integer value: ")
  | TOther => (fun s o => VStr <$> get parser s o, ": invalid value: ")
  end.

(** One pass of the loop body of [load].  A [ValueError] of the fetch is
    caught and replaced by one with the message of the dispatcher; whatever
    [parser.get] raises in the handler, and any other exception of the
    fetch, gets out. *)
Definition load_option (config : gmap string Value) (o : OptType * string)
  : Attempt (gmap string Value) :=
  let '(_type, option) := o in
  if negb (has_option parser section option) then Got config
  else
    let '(fetch, error_msg) := dispatcher _type in
    match fetch section option with
    | Got v => Got (<[option := v]> config)
    | ValueError _ =>
        match get parser section option with
        | Got value => ValueError ("--" +:+ option +:+ error_msg +:+ repr_ value)
        | ValueError msg => ValueError msg
        | Raised e => Raised e
        end
    | Raised e => Raised e
    end.

Fixpoint load_options (config : gmap string Value)
         (supported_options : list (OptType * string))
  : Attempt (gmap string Value) :=
  match supported_options with
  | [] => Got config
  | o :: rest =>
      match load_option config o with
      | Got config' => load_options config' rest
      | ValueError msg => ValueError msg
      | Raised e => Raised e
      end
  end.

Definition load (supported_options : list (OptType * string))
  : Attempt (gmap string Value) :=
  match read parser with
  | Got _ =>
      if negb (has_section parser section) then Got ∅
      else load_options ∅ supported_options
  | ValueError msg => ValueError msg
  | Raised e => Raised e
  end.
End Load.

(** What the fetch of [load] gives for an option of a given type. *)
Definition loaded (parser : ConfigParser) (section : string) (ty : OptType)
           (name : string) : Attempt Value :=
  fst (dispatcher parser ty) section name.

(** The fetch rejects the value of an option: it raises [ValueError]. *)
Definition Rejects (parser : ConfigParser) (section : string) (ty : OptType)
           (name : string) : Prop :=
  exists msg, loaded parser section ty name = ValueError msg.

(** The message of the [ValueError] [load] raises for an option whose raw
    value is [value]. *)
Definition load_error (repr_ : string -> string) (parser : ConfigParser)
           (ty : OptType) (name value : string) : string :=
  "--" +:+ name +:+ snd (dispatcher parser ty) +:+ repr_ value.

(** Every supported option of the list that is present is fetched. *)
Definition Fetched (parser : ConfigParser) (section : string)
           (opts : list (OptType * string)) : Prop :=
  Forall (fun o => has_option parser section (snd o) = true ->
                   exists v, loaded parser section (fst o) (snd o) = Got v) opts.

(** ** _which and _conflicts *)

(** [os.path.join(a, b)] on POSIX. *)
Definition os_path_join (a b : string) : string :=
  if PyStr.startswith b "/" then b
  else if negb (PyStr.truthy a) || PyStr.endswith_char a "/" then a +:+ b
  else a +:+ "/" +:+ b.

Section Which.
Variable P : Platform.

Fixpoint _which_in (dirs : list string) (cmd : string) : option string :=
  match dirs with
  | [] => None
  | p :: rest =>
      let path := os_path_join p cmd in
      if is_executable_file P path then Some (abspath P path)
      else _which_in rest cmd
  end.

(** [os.environ["PATH"]] raises [KeyError] when PATH is not set. *)
Definition _which (cmd : string) : Attempt (option string) :=
  match environ_PATH P with
  | Some path => Got (_which_in (PyStr.split ":" path) cmd)
  | None => Raised "KeyError"
  end.
End Which.

Fixpoint first_conflict (conflicts : list (string * bool * string * bool))
  : option (string * string) :=
  match conflicts with
  | [] => None
  | (s1, o1, s2, o2) :: rest =>
      if o1 && o2 then Some (s1, s2) else first_conflict rest
  end.

Definition _conflicts (settings : Settings) : option (string * string) :=
  first_conflict
    [ ("--yes", yes settings, "--no", no settings);
      ("--quiet", quiet settings, "--interactive", interactive settings);
      ("--debug", debug settings, "--quiet", quiet settings);
      ("--debug", debug settings, "--interactive", interactive settings);
      ("--debug", debug settings, "--verbose", verbose settings);
      ("--debug", debug settings, "--xunit-file",
        PyStr.truthy_opt (xunit_file settings)) ].

(** ** _prompt, _log, _patch *)

Definition prompt_text (question answers : string) : string :=
  question +:+ " [" +:+ answers +:+ "] ".

(** The [while True] loop of [_prompt], by recursion on the lines standard
    input still holds: the answer, the lines left and the events, or [None]
    when the loop never ends.  At end of file [readline] returns the empty
    string for ever: the loop then returns the default, or goes on for ever
    when there is none. *)
Fixpoint _prompt_loop (question answers : string) (auto : option string)
         (lines : list string) : option (string * list string * list Event) :=
  let default := PyStr.uppers answers in
  let asked := Stdout (prompt_text question answers) in
  match auto with
  | Some a => Some (a, lines, [asked; Stdout (a +:+ PyStr.LF)])
  | None =>
      match lines with
      | [] =>
          match default with
          | d :: _ => Some (PyStr.of_char d, [], [asked; Readline])
          | [] => None
          end
      | line :: rest =>
          let answer := PyStr.lower (PyStr.strip line) in
          match (if negb (PyStr.truthy answer) then head default else None) with
          | Some d => Some (PyStr.of_char d, rest, [asked; Readline])
          | None =>
              if PyStr.truthy answer
                 && PyStr.contains (PyStr.lower answers) answer then
                Some (answer, rest, [asked; Readline])
              else
                match _prompt_loop question answers auto rest with
                | Some (a, rest', t) => Some (a, rest', asked :: Readline :: t)
                | None => None
                end
          end
      end
  end.

Definition _prompt (question answers : string) (auto : option string) : M string :=
  fun s =>
    match _prompt_loop question answers auto (stdin s) with
    | Some (a, rest, t) => Ret a (mkState (fs s) rest (counters s)) t
    | None => Hang
    end.

Definition _log (msg verbosemsg : option string) (verbose : bool) : M unit :=
  let msg := if verbose then verbosemsg else msg in
  match msg with
  | Some m => if PyStr.truthy m then stdout_write m else mret tt
  | None => mret tt
  end.

(** The event [Exec] stands for the process: what [patch] does to the files
    it patches is not recorded in [fs]. *)
Definition _patch (P : Platform) (cmd : string) (diff : list string) : M bool :=
  let input := PyStr.join "" diff in
  emit (Exec [cmd; "-p0"] input);;
  mret (snd (execute P [cmd; "-p0"] input) =? 0).

(** ** Generators of tests *)

(** A generator of [(path, test)] pairs: the code run when it is started, the
    pairs it yields, and the code run when it is exhausted. *)
Record Gen := mkGen {
  gen_start : M unit;
  gen_items : list (Path * M Outcome);
  gen_finish : M unit
}.

(** Calling a test callable of [runtests]. *)
Definition call_test (path : Path) (b : Behaviour) : M Outcome :=
  emit (Call path);;
  match b with
  | Returns o => mret o
  | Raises e => raise e
  end.

Definition tests_of (ts : list (Path * Behaviour)) : Gen :=
  mkGen (mret tt) (map (fun pb => (fst pb, call_test (fst pb) (snd pb))) ts) (mret tt).

(** ** runcli *)

Definition incr_total : M unit :=
  c ← get_counters; set_counters (mkCounters (S (total c)) (skipped c) (failed c)).
Definition incr_skipped : M unit :=
  c ← get_counters; set_counters (mkCounters (total c) (S (skipped c)) (failed c)).
Definition incr_failed : M unit :=
  c ← get_counters; set_counters (mkCounters (total c) (skipped c) (S (failed c))).

(** [for line in origdiff: sys.stdout.buffer.write(line); diff.append(line)] *)
Fixpoint print_diff (origdiff : list string) : M (list string) :=
  match origdiff with
  | [] => mret ([] : list string)
  | line :: rest =>
      stdout_write line;;
      d ← print_diff rest;
      mret (line :: d)
  end.

Section Runcli.
Variable P : Platform.
Variables (quiet_ verbose_ : bool) (patchcmd answer : option string).

(** [Path(path.parent.name, path.name)] as printed. *)
Definition short_name (path : Path) : string :=
  PurePath.str
    (PurePath.of_names (PurePath.name (PurePath.parent path)) (PurePath.name path)).

Definition errpath_of (path : Path) : string := PurePath.str path +:+ ".err".

(** The interactive merge at the end of the failing branch. *)
Definition merge (path : Path) (errpath : string) (diff : list string) : M unit :=
  match patchcmd with
  | Some cmd =>
      if PyStr.truthy cmd then
        a ← _prompt "Accept this change?" "yN" answer;
        if String.eqb a "y" then
          ok ← _patch P cmd diff;
          if (ok : bool) then
            (_log None (Some (PurePath.str path +:+ ": merged output" +:+ PyStr.LF))
                  verbose_;;
             os_remove errpath)
          else
            _log (Some (PurePath.str path +:+ ": merge failed" +:+ PyStr.LF)) None false
        else mret tt
      else mret tt
  | None => mret tt
  end.

Definition testwrapper (path : Path) (test : M Outcome) : M Outcome :=
  incr_total;;
  _log None (Some (short_name path +:+ ": ")) verbose_;;
  o ← test;
  match refout o with
  | None =>
      incr_skipped;;
      _log (Some "s") (Some ("empty" +:+ PyStr.LF)) verbose_;;
      mret o
  | Some _ =>
      let errpath := errpath_of path in
      match postout o with
      | None =>
          incr_skipped;;
          _log (Some "s") (Some ("skipped" +:+ PyStr.LF)) verbose_;;
          mret o
      | Some post =>
          match diff o with
          | [] =>
              _log (Some ".") (Some ("passed" +:+ PyStr.LF)) verbose_;;
              b ← path_exists errpath;
              when b (os_remove errpath);;
              mret o
          | _ :: _ =>
              incr_failed;;
              _log (Some "!") (Some ("failed" +:+ PyStr.LF)) verbose_;;
              when (negb quiet_) (_log (Some PyStr.LF) None verbose_);;
              write_lines errpath post;;
              if negb quiet_ then
                d ← print_diff (diff o);
                merge path errpath d;;
                mret (mkOutcome (refout o) (postout o) d)
              else mret o
          end
      end
  end.

(** The code after the loop of [runcli]. *)
Definition summary : M unit :=
  c ← get_counters;
  when (bool_decide (0 < total c)%nat)
    (_log (Some PyStr.LF) None verbose_;;
     _log (Some ("# Ran " +:+ pretty (total c) +:+ " tests, "
                 +:+ pretty (skipped c) +:+ " skipped, "
                 +:+ pretty (failed c) +:+ " failed." +:+ PyStr.LF))
          None false).

Definition runcli (g : Gen) : Gen :=
  mkGen (set_counters (mkCounters 0 0 0);; gen_start g)
        (map (fun pt => (fst pt, testwrapper (fst pt) (snd pt))) (gen_items g))
        (gen_finish g;; summary).
End Runcli.

(** Modelled from the spec: [prysk.xunit.runxunit] is not part of the source
    at hand.  The structured-report exporter "consumes the same per-file
    TestOutcome stream": every test and its result pass through unchanged,
    and the report is written when the stream is exhausted.  The event
    [Xunit file] stands for that write: the content of the report is not
    modelled and [fs] does not record it. *)
Definition runxunit (g : Gen) (file : string) : Gen :=
  mkGen (gen_start g) (gen_items g) (gen_finish g;; emit (Xunit file)).

(** ** main *)

(** The [for path, test in tests] loop of [main]. *)
Fixpoint main_loop (items : list (Path * M Outcome)) (hastests failed_ : bool)
  : M (bool * bool) :=
  match items with
  | [] => mret (hastests, failed_)
  | (_, test) :: rest =>
      o ← test;
      main_loop rest true (if diff o is [] then failed_ else true)
  end.

(** Running a generator to exhaustion under that loop. *)
Definition iterate (g : Gen) : M (bool * bool) :=
  gen_start g;;
  r ← main_loop (gen_items g) false false;
  gen_finish g;;
  mret r.

(** [[path for path in settings.tests if not path.exists()]] *)
Definition badpaths (paths : list Path) : M (list Path) :=
  fun s =>
    Ret (List.filter
           (fun p => negb (bool_decide (is_Some (fs s !! PurePath.str p)))) paths)
        s [].

Section Main.
Variable P : Platform.

(** The body of the [try] statement of [main]. *)
Definition main_try (settings : Settings) (shell_ : list string)
           (patchcmd answer : option string) : M Z :=
  let tmpdir := mkdtemp P in
  let tests0 :=
    tests_of (runtests P (tests settings) tmpdir shell_ (indent settings)
                       (negb (preserve_env settings)) (debug settings)) in
  let tests1 :=
    if negb (debug settings) then
      let wrapped :=
        runcli P (quiet settings) (verbose settings) patchcmd answer tests0 in
      match xunit_file settings with
      | Some file => runxunit wrapped file
      | None => wrapped
      end
    else tests0 in
  r ← iterate tests1;
  let hastests : bool := fst r in
  let failed_ : bool := snd r in
  if negb hastests then
    (stderr_write ("no tests found" +:+ PyStr.LF);;
     mret 2)
  else mret (if failed_ then 1 else 0).

(** Its [finally] clause. *)
Definition main_finally (settings : Settings) : M unit :=
  let tmpdir := mkdtemp P in
  if keep_tmpdir settings then
    stdout_write ("# Kept temporary directory: " +:+ tmpdir +:+ PyStr.LF)
  else emit (Rmtree tmpdir).

(** [main] from the creation of the sandbox on. *)
Definition main_run (settings : Settings) (shell_ : list string)
           (patchcmd answer : option string) : M Z :=
  let tmpdir := mkdtemp P in
  emit (Mkdtemp tmpdir);;
  emit (Setenv "PRYSK_TEMP" tmpdir);;
  (* f"{Path(tmpdir, 'tmp')}" *)
let proctmp := os_path_join tmpdir "tmp" in
  emit (Setenv "TMPDIR" proctmp);;
  emit (Setenv "TEMP" proctmp);;
  emit (Setenv "TMP" proctmp);;
  emit (Mkdir proctmp);;
  try_finally (main_try settings shell_ patchcmd answer) (main_finally settings).

(** [main], after [parser.parse_args]: [argument_settings] is
    [settings_from(args)].  Only [load] is inside the [try] that catches
    [ValueError]; the exceptions of the look-ups along PATH and of
    [shlex.split] leave [main]. *)
Definition main (argument_settings : Settings) : M Z :=
  match load (repr P) (pryskrc P) "prysk" options with
  | ValueError ex =>
      stderr_write (format_usage P +:+ PyStr.LF);;
      stderr_write ("prysk: error: " +:+ ex +:+ PyStr.LF);;
      mret 2
  | Raised e => raise e
  | Got config =>
      let configuration_settings := settings_from P config in
      let settings := merge_settings P argument_settings configuration_settings in
      match _conflicts settings with
      | Some (arg1, arg2) =>
          stderr_write ("options " +:+ arg1 +:+ " and " +:+ arg2
                        +:+ " are mutually exclusive" +:+ PyStr.LF);;
          mret 2
      | None =>
          shellcmd ← attempt (_which P (shell settings));
          if negb (PyStr.truthy_opt shellcmd) then
            (stderr_write ("shell not found: " +:+ shell settings +:+ PyStr.LF);;
             mret 2)
          else
            opts ← (if PyStr.truthy_opt (shell_opts settings)
                    then attempt (shlex_split P (default "" (shell_opts settings)))
                    else mret ([] : list string));
            let shell_ := default "" shellcmd :: opts in
            patchcmd ← (if interactive settings then attempt (_which P "patch")
                        else mret (None : option string));
            if interactive settings && negb (PyStr.truthy_opt patchcmd) then
              (stderr_write ("patch(1) required for -i" +:+ PyStr.LF);;
               mret 2)
            else
              bad ← badpaths (tests settings);
              match bad with
              | p :: _ =>
                  stderr_write ("no such file: " +:+ PurePath.str p +:+ PyStr.LF);;
                  mret 2
              | [] =>
                  let answer :=
                    if yes settings then Some "y"
                    else if no settings then Some "n"
                    else None in
                  main_run settings shell_ patchcmd answer
              end
      end
  end.
End Main.

(** ** Vocabulary of the statements *)

(** The events [_log] performs for a message: none for [None] or an empty
    string. *)
Definition shown (msg : option string) : list Event :=
  match msg with
  | Some m => if PyStr.truthy m then [Stdout m] else []
  | None => []
  end.

(** The test callables invoked in a trace, in order. *)
Fixpoint calls (t : list Event) : list Path :=
  match t with
  | [] => []
  | Call p :: t' => p :: calls t'
  | _ :: t' => calls t'
  end.

(** Creation or removal of a sandbox directory. *)
Definition is_sandbox (e : Event) : bool :=
  match e with
  | Mkdtemp _ | Rmtree _ => true
  | _ => false
  end.

(** What the wrapper of [runcli] itself does around the call of the test. *)
Definition is_cli (e : Event) : bool :=
  match e with
  | Stdout _ | Readline | WriteFile _ _ | Remove _ | Exec _ _ => true
  | _ => false
  end.

Definition is_stderr (e : Event) : bool :=
  match e with Stderr _ => true | _ => false end.

Definition is_write (e : Event) : bool :=
  match e with WriteFile _ _ => true | _ => false end.

Definition is_remove (e : Event) : bool :=
  match e with Remove _ => true | _ => false end.

(** The state after the wrapper counted a test. *)
Definition counted (dt ds df : nat) (s : State) : State :=
  mkState (fs s) (stdin s)
          (mkCounters (dt + total (counters s)) (ds + skipped (counters s))
                      (df + failed (counters s))).

(** The state once the wrapper has counted a failure and written the
    [.err] file. *)
Definition recorded (path : Path) (post : list string) (s : State) : State :=
  mkState (<[errpath_of path := PyStr.join "" post]> (fs s)) (stdin s)
          (counters (counted 1 0 1 s)).

(** What the wrapper does for a failing test when [quiet] is off, up to the
    merge: it names the test if verbose, calls it, logs the failure, writes
    the [.err] file and prints the diff. *)
Definition failure_report (v : bool) (path : Path) (post d : list string)
  : list Event :=
  shown (if v then Some (short_name path +:+ ": ") else None)
  ++ [Call path; Stdout (if v then "failed" +:+ PyStr.LF else "!")]
  ++ (if v then [] else [Stdout PyStr.LF])
  ++ WriteFile (errpath_of path) post :: map Stdout d.

(** A test callable that returns. *)
Definition returning (po : Path * Outcome) : Path * Behaviour :=
  (fst po, Returns (snd po)).

Definition has_diff (o : Outcome) : bool :=
  match diff o with [] => false | _ :: _ => true end.

Section Vocabulary.
Variable P : Platform.

(** A value of the configuration file is malformed: the file is read, and
    the first supported option of the [prysk] section that is not fetched is
    rejected with [ValueError]; [msg] is the message of [load] for it. *)
Definition Malformed (msg : string) : Prop :=
  read (pryskrc P) = Got tt /\
  has_section (pryskrc P) "prysk" = true /\
  exists before ty option later value,
    options = before ++ (ty, option) :: later /\
    Fetched (pryskrc P) "prysk" before /\
    has_option (pryskrc P) "prysk" option = true /\
    Rejects (pryskrc P) "prysk" ty option /\
    get (pryskrc P) "prysk" option = Got value /\
    msg = load_error (repr P) (pryskrc P) ty option value.

(** [_which] finds the command: PATH is set and the look-up gives a path. *)
Definition Found (cmd : string) : Prop :=
  exists path, _which P cmd = Got (Some path) /\ PyStr.truthy path = true.

(** [shlex.split] accepts the shell options, when some are given. *)
Definition Opts_split (st : Settings) : Prop :=
  PyStr.truthy_opt (shell_opts st) = true ->
  exists words, shlex_split P (default "" (shell_opts st)) = Got words.

(** The list [shell] of [main]. *)
Definition shell_of (st : Settings) : list string :=
  default "" (got None (_which P (shell st)))
  :: (if PyStr.truthy_opt (shell_opts st)
      then got [] (shlex_split P (default "" (shell_opts st))) else []).

Definition patchcmd_of (st : Settings) : option string :=
  if interactive st then got None (_which P "patch") else None.

Definition answer_of (st : Settings) : option string :=
  if yes st then Some "y" else if no st then Some "n" else None.

(** The tests [runtests] yields in the run of [main]. *)
Definition discovered (st : Settings) : list (Path * Behaviour) :=
  runtests P (tests st) (mkdtemp P) (shell_of st) (indent st)
           (negb (preserve_env st)) (debug st).

(** [st] are the merged settings of the invocation: the configuration file
    is loaded without an exception. *)
Definition Settings_of (args st : Settings) : Prop :=
  exists config,
    load (repr P) (pryskrc P) "prysk" options = Got config /\
    st = merge_settings P args (settings_from P config).

(** The invocation passes every check [main] makes before it creates the
    sandbox, and no call made for these checks raises. *)
Definition Checks_pass (args : Settings) (s : State) (st : Settings) : Prop :=
  Settings_of args st /\
  _conflicts st = None /\
  Found (shell st) /\
  Opts_split st /\
  (interactive st = true -> Found "patch") /\
  Forall (fun p => is_Some (fs s !! PurePath.str p)) (tests st).

(** No call made for the checks of [main] raises an exception that [main]
    does not catch: [load] raises nothing but [ValueError]; when the settings
    load without a clash, PATH is set and, if the shell is found, the shell
    options can be split. *)
Definition Calls_return (args : Settings) : Prop :=
  (forall e, load (repr P) (pryskrc P) "prysk" options <> Raised e) /\
  (forall st,
     Settings_of args st -> _conflicts st = None ->
     environ_PATH P <> None /\ (Found (shell st) -> Opts_split st)).

(** The events of [main] before the [try] statement. *)
Definition sandbox_setup : list Event :=
  [ Mkdtemp (mkdtemp P); Setenv "PRYSK_TEMP" (mkdtemp P);
    Setenv "TMPDIR" (os_path_join (mkdtemp P) "tmp");
    Setenv "TEMP" (os_path_join (mkdtemp P) "tmp");
    Setenv "TMP" (os_path_join (mkdtemp P) "tmp");
    Mkdir (os_path_join (mkdtemp P) "tmp") ].

(** The event of the [finally] clause of [main]. *)
Definition sandbox_teardown (st : Settings) : Event :=
  if keep_tmpdir st
  then Stdout ("# Kept temporary directory: " +:+ mkdtemp P +:+ PyStr.LF)
  else Rmtree (mkdtemp P).
End Vocabulary.

(** A result that is not a hang and whose trace leaves the sandbox alone. *)
Definition settled {A} (r : Res A) : Prop :=
  match r with
  | Hang => False
  | Ret _ _ t | Exc _ _ t => forallb (fun e => negb (is_sandbox e)) t = true
  end.

(** The exit status [main] computes from the outcomes of the tests. *)
Definition status_of (os : list (Path * Outcome)) : Z :=
  if bool_decide (os = []) then 2
  else if existsb (fun po => has_diff (snd po)) os then 1 else 0.

(** The tests named on the command line that do not exist. *)
Definition missing (s : State) (paths : list Path) : list Path :=
  List.filter (fun p => negb (bool_decide (is_Some (fs s !! PurePath.str p)))) paths.

(** What the prompt does: it asks and reads. *)
Definition is_talk (e : Event) : bool :=
  match e with Stdout _ | Readline => true | _ => false end.

(** ** _env_args *)

Section EnvArgs.
(* shlex.split, with whatever it gives: the words, or an exception, which
   leaves [_env_args] as it is *)
Context {R : Type}.
Variable shlex_split_ : string -> R.
Variable os_environ : gmap string string.         (* os.environ *)

(** [env] is [None] when the caller gives none; an empty dictionary is
    false in Python, so it too gives way to [os.environ]. *)
Definition _env_args (var : string) (env : option (gmap string string)) : R :=
  let env :=
    match env with
    | Some e => if bool_decide (e = ∅) then os_environ else e
    | None => os_environ
    end in
  let args := PyStr.strip (default "" (env !! var)) in
  shlex_split_ args.
End EnvArgs.

(** ** Vocabulary of the further properties *)

(** A line the prompt accepts as an answer. *)
Definition acceptable (answers line : string) : bool :=
  PyStr.truthy (PyStr.lower (PyStr.strip line))
  && PyStr.contains (PyStr.lower answers) (PyStr.lower (PyStr.strip line)).

(** The result of a test, as the wrapper of [runcli] sorts it. *)
Definition is_skip (o : Outcome) : bool :=
  match refout o, postout o with
  | Some _, Some _ => false
  | _, _ => true
  end.

Definition is_fail (o : Outcome) : bool := negb (is_skip o) && has_diff o.

(** The counters after the wrappers of these tests have run. *)
Definition tally (os : list (Path * Outcome)) : Counters :=
  mkCounters (length os)
             (length (List.filter (fun po => is_skip (snd po)) os))
             (length (List.filter (fun po => is_fail (snd po)) os)).

(** The last line [runcli] writes. *)
Definition summary_line (c : Counters) : string :=
  "# Ran " +:+ pretty (total c) +:+ " tests, " +:+ pretty (skipped c)
  +:+ " skipped, " +:+ pretty (failed c) +:+ " failed." +:+ PyStr.LF.

(** What the wrapper of a test does to the files when no merge is offered:
    it writes the [.err] file of a failing test, removes that of a passing
    one, and leaves the others alone. *)
Definition file_effect (m : gmap string string) (po : Path * Outcome)
  : gmap string string :=
  let '(path, o) := po in
  match refout o, postout o with
  | Some _, Some post =>
      if has_diff o then <[errpath_of path := PyStr.join "" post]> m
      else delete (errpath_of path) m
  | _, _ => m
  end.

(** The status [main] returns after its loop. *)
Definition verdict (r : bool * bool) : Z :=
  if negb (fst r) then 2 else if snd r then 1 else 0.

(** Everything that can happen between the set-up of the sandbox and its
    removal. *)
Definition is_body (e : Event) : bool :=
  match e with
  | Stdout _ | Stderr _ | Readline | Call _ | WriteFile _ _ | Remove _
  | Exec _ _ | Xunit _ => true
  | _ => false
  end.

Definition is_readline (e : Event) : bool :=
  match e with Readline => true | _ => false end.

Definition is_exec (e : Event) : bool :=
  match e with Exec _ _ => true | _ => false end.

Definition is_setenv (e : Event) : bool :=
  match e with Setenv _ _ => true | _ => false end.

(** The events of the code after the loop of [runcli]. *)
Definition summary_events (v : bool) (c : Counters) : list Event :=
  if bool_decide (0 < total c)%nat
  then shown (if v then None else Some PyStr.LF) ++ [Stdout (summary_line c)]
  else [].

(** The event of [runxunit] at the end of the run. *)
Definition xunit_events (st : Settings) : list Event :=
  match xunit_file st with Some file => [Xunit file] | None => [] end.

(** What [main] writes after its loop when it saw no test. *)
Definition no_tests_events (hastests : bool) : list Event :=
  if hastests then [] else [Stderr ("no tests found" +:+ PyStr.LF)].

(** The state in which the generator of [runcli] starts. *)
Definition reset (s : State) : State := mkState (fs s) (stdin s) (mkCounters 0 0 0).

(** What the wrapper does without a merge: it writes to the standard
    output, calls the test, writes or removes the [.err] file. *)
Definition is_plain (e : Event) : bool :=
  match e with
  | Stdout _ | Call _ | WriteFile _ _ | Remove _ => true
  | _ => false
  end.

(** The state after the wrapper of a test has run without a merge. *)
Definition wrapped_state (path : Path) (o : Outcome) (s : State) : State :=
  mkState (file_effect (fs s) (path, o)) (stdin s)
          (counters (counted 1 (if is_skip o then 1 else 0)
                             (if is_fail o then 1 else 0) s)).

(** A result that is not a hang, whose events all satisfy [Q] and whose
    state is related to the initial one by [R]. *)
Definition kept {A} (Q : Event -> bool) (R : State -> State -> Prop)
           (s : State) (r : Res A) : Prop :=
  match r with
  | Hang => False
  | Ret _ s' t | Exc _ s' t => forallb Q t = true /\ R s s'
  end.

(** What a run shows from outside: its status or exception, the counters
    and the trace. *)
Definition observe {A} (r : Res A) : option (A + string) * option Counters * list Event :=
  match r with
  | Ret a s t => (Some (inl a), Some (counters s), t)
  | Exc e s t => (Some (inr e), Some (counters s), t)
  | Hang => (None, None, [])
  end.

(** ** Concrete data for the examples *)

Module Demo.
(** No configuration file. *)
Definition rc : ConfigParser :=
  mkConfigParser (Got tt) (fun _ => false) (fun _ _ => false)
                 (fun _ _ => Raised "NoSectionError")
                 (fun _ _ => Raised "NoSectionError")
                 (fun _ _ => Raised "NoSectionError").

(** A configuration file with [indent = two] in its [prysk] section. *)
Definition bad_rc : ConfigParser :=
  mkConfigParser (Got tt) (fun sec => String.eqb sec "prysk")
                 (fun _ o => String.eqb o "indent")
                 (fun _ o => if String.eqb o "indent" then Got "two"
                             else Raised "NoOptionError")
                 (fun _ o => if String.eqb o "indent"
                             then ValueError "Not a boolean: two"
                             else Raised "NoOptionError")
                 (fun _ o => if String.eqb o "indent"
                             then ValueError "invalid literal for int() with base 10: 'two'"
                             else Raised "NoOptionError").

Definition defaults : Settings :=
  mkSettings [] false false false false false false false false "/bin/sh" None 2 None.

(** A stand-in for [shlex.split] on the few strings of the examples: one
    word, or a quotation that is not closed. *)
Definition split_words (s : string) : Attempt (list string) :=
  if PyStr.contains s "'" then ValueError "No closing quotation"
  else if PyStr.truthy s then Got [s] else Got [].

(** A platform with [/bin/sh] and [/usr/bin/patch], where [runtests] finds
    [found] and [patch] exits with [status]; the settings are those of the
    command line. *)
Definition platform (cp : ConfigParser) (found : list (Path * Behaviour))
           (status : Z) : Platform :=
  mkPlatform (fun _ _ _ _ _ _ => found) (fun _ _ => ("", status))
             (fun _ => defaults) (fun args _ => args) cp
             (fun s => "'" +:+ s +:+ "'") "usage: prysk [OPTIONS] TESTS..."
             (fun s => s) split_words (Some "/usr/bin:/bin")
             (fun p => String.eqb p "/bin/sh" || String.eqb p "/usr/bin/patch")
             "/tmp/prysk-tests-0".

Definition a_t : Path := mkPath "" ["tests"; "a.t"].
Definition b_t : Path := mkPath "" ["tests"; "b.t"].
Definition gone_t : Path := mkPath "" ["tests"; "gone.t"].

Definition state (lines : list string) : State :=
  mkState (<["tests/a.t" := "a"]> (<["tests/b.t" := "b"]> ∅)) lines (mkCounters 0 0 0).

Definition failing : Outcome := mkOutcome (Some ["x"]) (Some ["y"]) ["-x"; "+y"].
Definition passing : Outcome := mkOutcome (Some ["x"]) (Some ["x"]) [].
Definition skipping : Outcome := mkOutcome (Some ["x"]) None [].
Definition empty : Outcome := mkOutcome None None [].

(** The command line [prysk tests/a.t tests/b.t] with some flags. *)
Definition args (quiet_ verbose_ interactive_ keep : bool) : Settings :=
  mkSettings [a_t; b_t] quiet_ verbose_ interactive_ false false false false keep
             "/bin/sh" None 2 None.


(** [prysk --shell zsh tests/a.t] *)
Definition no_shell : Settings :=
  mkSettings [a_t] false false false false false false false false
             "zsh" None 2 None.


(** A configuration file with [quiet = %(nope)s] in its [prysk] section:
    the interpolation of the value fails in every method. *)
Definition interpolated_rc : ConfigParser :=
  mkConfigParser (Got tt) (fun sec => String.eqb sec "prysk")
                 (fun _ o => String.eqb o "quiet")
                 (fun _ o => if String.eqb o "quiet"
                             then Raised "InterpolationMissingOptionError"
                             else Raised "NoOptionError")
                 (fun _ o => if String.eqb o "quiet"
                             then Raised "InterpolationMissingOptionError"
                             else Raised "NoOptionError")
                 (fun _ o => if String.eqb o "quiet"
                             then Raised "InterpolationMissingOptionError"
                             else Raised "NoOptionError").

(** [prysk --shell-opts "-e 'x" tests/a.t tests/gone.t]: the quotation of
    the shell options is not closed. *)
Definition open_quote : Settings :=
  mkSettings [a_t; gone_t] false false false false false false false false
             "/bin/sh" (Some "-e 'x") 2 None.

(** The platform of [platform Demo.rc [] 0] in a process where PATH is not
    set. *)
Definition no_PATH : Platform :=
  mkPlatform (fun _ _ _ _ _ _ => []) (fun _ _ => ("", 0))
             (fun _ => defaults) (fun args _ => args) rc
             (fun s => "'" +:+ s +:+ "'") "usage: prysk [OPTIONS] TESTS..."
             (fun s => s) split_words None
             (fun p => String.eqb p "/bin/sh" || String.eqb p "/usr/bin/patch")
             "/tmp/prysk-tests-0".
End Demo.

(** ** Concrete data for the further examples *)

Module Sample.
(** A configuration file
<<
[prysk]
verbose = yes
indent = 4
shell = /bin/bash
color = auto
>> *)
Definition raw (o : string) : Attempt string :=
  if String.eqb o "verbose" then Got "yes"
  else if String.eqb o "indent" then Got "4"
  else if String.eqb o "shell" then Got "/bin/bash"
  else if String.eqb o "color" then Got "auto"
  else Raised "NoOptionError".

Definition rc : ConfigParser :=
  mkConfigParser
    (Got tt)
    (fun sec => String.eqb sec "prysk")
    (fun _ o => String.eqb o "verbose" || String.eqb o "indent"
                || String.eqb o "shell" || String.eqb o "color")
    (fun _ o => raw o)
    (fun _ o => if String.eqb o "verbose" then Got true
                else match raw o with
                     | Got v => ValueError ("Not a boolean: " +:+ v)
                     | _ => Raised "NoOptionError"
                     end)
    (fun _ o => if String.eqb o "indent" then Got 4
                else match raw o with
                     | Got v => ValueError "invalid literal for int() with base 10"
                     | _ => Raised "NoOptionError"
                     end).

(** The dictionary [load] builds from it. *)
Definition config : gmap string Value :=
  <["verbose" := VBool true]> (<["indent" := VInt 4]>
    (<["shell" := VStr "/bin/bash"]> ∅)).

(** A configuration file with [quiet = maybe] and [indent = two]. *)
Definition two_bad_rc : ConfigParser :=
  mkConfigParser
    (Got tt)
    (fun sec => String.eqb sec "prysk")
    (fun _ o => String.eqb o "quiet" || String.eqb o "indent")
    (fun _ o => if String.eqb o "quiet" then Got "maybe" else Got "two")
    (fun _ _ => ValueError "Not a boolean")
    (fun _ _ => ValueError "invalid literal for int() with base 10").

(** A configuration file with [shell = %(nope)s] and [indent = two]: the
    interpolation of the first fails. *)
Definition interpolated_rc : ConfigParser :=
  mkConfigParser
    (Got tt)
    (fun sec => String.eqb sec "prysk")
    (fun _ o => String.eqb o "shell" || String.eqb o "indent")
    (fun _ o => if String.eqb o "shell" then Raised "InterpolationMissingOptionError"
                else Got "two")
    (fun _ o => if String.eqb o "shell" then Raised "InterpolationMissingOptionError"
                else ValueError "Not a boolean: two")
    (fun _ o => if String.eqb o "shell" then Raised "InterpolationMissingOptionError"
                else ValueError "invalid literal for int() with base 10: 'two'").

Definition c_t : Path := mkPath "" ["tests"; "c.t"].

(** [prysk --debug tests/a.t tests/b.t] *)
Definition debug_args : Settings :=
  mkSettings [Demo.a_t; Demo.b_t] false false false true false false false false
             "/bin/sh" None 2 None.

(** [prysk -i --no tests/a.t tests/b.t] *)
Definition no_args : Settings :=
  mkSettings [Demo.a_t; Demo.b_t] false false true false false true false false
             "/bin/sh" None 2 None.

(** [prysk -i --shell-opts "-e 'x" tests/a.t] *)
Definition open_quote_i : Settings :=
  mkSettings [Demo.a_t] false false true false false false false false
             "/bin/sh" (Some "-e 'x") 2 None.

(** [prysk --xunit-file report.xml tests/a.t tests/b.t] *)
Definition xunit_args : Settings :=
  mkSettings [Demo.a_t; Demo.b_t] false false false false false false false false
             "/bin/sh" None 2 (Some "report.xml").

(** A platform like that of [Demo] but without [patch]. *)
Definition no_patch : Platform :=
  mkPlatform (fun _ _ _ _ _ _ => []) (fun _ _ => ("", 0))
             (fun _ => Demo.defaults) (fun args _ => args) Demo.rc
             (fun s => s) "usage: prysk [OPTIONS] TESTS..."
             (fun s => s) Demo.split_words (Some "/usr/bin:/bin")
             (fun p => String.eqb p "/bin/sh") "/tmp/prysk-tests-0".
End Sample.

(** * Properties *)

(** ** Concrete runs *)

(** [prysk tests/a.t tests/b.t]: the first test fails, the second passes. *)
Example run_one_failure :
  observe (main (Demo.platform Demo.rc [(Demo.a_t, Returns Demo.failing);
                                        (Demo.b_t, Returns Demo.passing)] 0)
                (Demo.args false false false false) (Demo.state []))
  = (Some (inl 1), Some (mkCounters 2 0 1),
     [Mkdtemp "/tmp/prysk-tests-0"; Setenv "PRYSK_TEMP" "/tmp/prysk-tests-0";
      Setenv "TMPDIR" "/tmp/prysk-tests-0/tmp"; Setenv "TEMP" "/tmp/prysk-tests-0/tmp";
      Setenv "TMP" "/tmp/prysk-tests-0/tmp"; Mkdir "/tmp/prysk-tests-0/tmp";
      Call Demo.a_t; Stdout "!"; Stdout PyStr.LF;
      WriteFile "tests/a.t.err" ["y"]; Stdout "-x"; Stdout "+y";
      Call Demo.b_t; Stdout "."; Stdout PyStr.LF;
      Stdout ("# Ran 2 tests, 0 skipped, 1 failed." +:+ PyStr.LF);
      Rmtree "/tmp/prysk-tests-0"]).
Proof. by vm_compute. Qed.

(** [prysk -i -v --keep-tmpdir tests/a.t tests/b.t]: the user first types
    "maybe", then " Y"; patch succeeds; the second test raises. *)
Example run_merge_then_exception :
  observe (main (Demo.platform Demo.rc [(Demo.a_t, Returns Demo.failing);
                                        (Demo.b_t, Raises "OSError")] 0)
                (Demo.args false true true true)
                (Demo.state ["maybe" +:+ PyStr.LF; " Y" +:+ PyStr.LF]))
  = (Some (inr "OSError"), Some (mkCounters 2 0 1),
     [Mkdtemp "/tmp/prysk-tests-0"; Setenv "PRYSK_TEMP" "/tmp/prysk-tests-0";
      Setenv "TMPDIR" "/tmp/prysk-tests-0/tmp"; Setenv "TEMP" "/tmp/prysk-tests-0/tmp";
      Setenv "TMP" "/tmp/prysk-tests-0/tmp"; Mkdir "/tmp/prysk-tests-0/tmp";
      Stdout "tests/a.t: "; Call Demo.a_t; Stdout ("failed" +:+ PyStr.LF);
      WriteFile "tests/a.t.err" ["y"]; Stdout "-x"; Stdout "+y";
      Stdout "Accept this change? [yN] "; Readline;
      Stdout "Accept this change? [yN] "; Readline;
      Exec ["/usr/bin/patch"; "-p0"] "-x+y";
      Stdout ("tests/a.t: merged output" +:+ PyStr.LF); Remove "tests/a.t.err";
      Stdout "tests/b.t: "; Call Demo.b_t;
      Stdout ("# Kept temporary directory: /tmp/prysk-tests-0" +:+ PyStr.LF)]).
Proof. by vm_compute. Qed.

(** A prompt without a default never returns once the input is exhausted. *)
Example prompt_without_default_hangs :
  _prompt "Again?" "yn" None (mkState ∅ ["maybe"] (mkCounters 0 0 0)) = Hang.
Proof. reflexivity. Qed.

(** [pathlib] names. *)
Example short_name_examples :
  short_name (mkPath "/" ["home"; "u"; "tests"; "a.t"]) = "tests/a.t"
  /\ short_name (mkPath "" ["a.t"]) = "a.t"
  /\ errpath_of (mkPath "" ["tests"; "a.t"]) = "tests/a.t.err".
Proof. by vm_compute. Qed.

(** [_which] looks along PATH. *)
Example which_examples :
  _which (Demo.platform Demo.rc [] 0) "patch" = Got (Some "/usr/bin/patch")
  /\ _which (Demo.platform Demo.rc [] 0) "/bin/sh" = Got (Some "/bin/sh")
  /\ _which (Demo.platform Demo.rc [] 0) "zsh" = Got None
  /\ _which Demo.no_PATH "/bin/sh" = Raised "KeyError".
Proof. by vm_compute. Qed.

(** ** The monad *)

Lemma after_nil {A} (r : Res A) : after [] r = r.
Proof. by destruct r. Qed.

Lemma bind_run {A B} (m : M A) (f : A -> M B) s :
  (m ≫= f) s =
  match m s with
  | Ret a s' t => after t (f a s')
  | Exc e s' t => Exc e s' t
  | Hang => Hang
  end.
Proof. reflexivity. Qed.

Lemma calls_app t1 t2 : calls (t1 ++ t2) = calls t1 ++ calls t2.
Proof.
  induction t1 as [|e t1 IH]; simpl; [done|].
  destruct e; simpl; by rewrite ?IH.
Qed.

Lemma calls_cli t : forallb is_cli t = true -> calls t = [].
Proof.
  induction t as [|e t IH]; simpl; [done|].
  destruct e; simpl; try done; auto.
Qed.

Lemma cli_not_sandbox t :
  forallb is_cli t = true -> forallb (fun e => negb (is_sandbox e)) t = true.
Proof.
  induction t as [|e t IH]; simpl; [done|].
  destruct e; simpl; try done; auto.
Qed.

Lemma talk_cli t : forallb is_talk t = true -> forallb is_cli t = true.
Proof.
  induction t as [|e t IH]; simpl; [done|].
  destruct e; simpl; try done; auto.
Qed.

Lemma shown_cli msg : forallb is_cli (shown msg) = true.
Proof. destruct msg as [m|]; simpl; [|done]. by destruct (PyStr.truthy m). Qed.

Lemma truthy_app_r a b : PyStr.truthy b = true -> PyStr.truthy (a +:+ b) = true.
Proof. destruct a; simpl; auto. Qed.

(** ** _log, print_diff, _prompt *)

Lemma log_run msg vmsg v s :
  _log msg vmsg v s = Ret tt s (shown (if v then vmsg else msg)).
Proof.
  unfold _log, shown.
  destruct v, vmsg as [m|], msg as [m'|]; try done;
    match goal with |- context [PyStr.truthy ?x] => by destruct (PyStr.truthy x) end.
Qed.

Lemma print_diff_run d s : print_diff d s = Ret d s (map Stdout d).
Proof.
  induction d as [|l d IH]; [done|].
  simpl. rewrite !bind_run. simpl. rewrite bind_run, IH. simpl.
  by rewrite app_nil_r.
Qed.

Lemma map_Stdout_cli d : forallb is_cli (map Stdout d) = true.
Proof. by induction d. Qed.

Lemma prompt_loop_auto question answers a lines :
  _prompt_loop question answers (Some a) lines
  = Some (a, lines, [Stdout (prompt_text question answers); Stdout (a +:+ PyStr.LF)]).
Proof. by destruct lines. Qed.

Lemma prompt_loop_line question answers line rest :
  _prompt_loop question answers None (line :: rest)
  = let answer := PyStr.lower (PyStr.strip line) in
    let asked := Stdout (prompt_text question answers) in
    match (if negb (PyStr.truthy answer) then head (PyStr.uppers answers) else None) with
    | Some d => Some (PyStr.of_char d, rest, [asked; Readline])
    | None =>
        if PyStr.truthy answer && PyStr.contains (PyStr.lower answers) answer then
          Some (answer, rest, [asked; Readline])
        else
          match _prompt_loop question answers None rest with
          | Some (a, rest', t) => Some (a, rest', asked :: Readline :: t)
          | None => None
          end
    end.
Proof. reflexivity. Qed.

(** With the answers of [runcli] the prompt always ends: "N" is the default. *)
Lemma prompt_yN_ends question auto lines :
  exists a rest t,
    _prompt_loop question "yN" auto lines = Some (a, rest, t) /\
    forallb is_talk t = true.
Proof.
  destruct auto as [a|].
  { rewrite prompt_loop_auto. by eexists _, _, _. }
  induction lines as [|line rest IH].
  { eexists _, _, _. split; [reflexivity|done]. }
  rewrite prompt_loop_line. cbv zeta.
  change (PyStr.uppers "yN") with ["N"%char].
  destruct (PyStr.truthy (PyStr.lower (PyStr.strip line))) eqn:Ht; cbn [negb head andb].
  - destruct (PyStr.contains _ _).
    { eexists _, _, _. split; [reflexivity|done]. }
    destruct IH as (a & r & t & -> & Hcli).
    eexists _, _, _. split; [reflexivity|done].
  - eexists _, _, _. split; [reflexivity|done].
Qed.

(** ** The wrapper of runcli *)

Ltac unfold_m :=
  unfold incr_total, incr_skipped, incr_failed, get_counters, set_counters,
    emit, when, write_lines, stdout_write, stderr_write, path_exists, call_test, raise;
  unfold mbind, M_bind, bind, mret, M_ret, ret.

Ltac tidy := simpl; rewrite ?app_nil_r, <- ?app_assoc; simpl; try done.

Section Wrapper.
Variable P : Platform.
Variables (q v : bool) (pc ans : option string).
Variable path : Path.

Local Abbreviation wrapper b := (testwrapper P q v pc ans path (call_test path b)).
Local Abbreviation named := (shown (if v then Some (short_name path +:+ ": ") else None)).
Local Abbreviation errpath := (errpath_of path).

Lemma wrapper_raises e s :
  wrapper (Raises e) s = Exc e (counted 1 0 0 s) (named ++ [Call path]).
Proof.
  unfold testwrapper. unfold_m. simpl.
  by rewrite !log_run.
Qed.

Lemma wrapper_empty o s :
  refout o = None ->
  wrapper (Returns o) s
  = Ret o (counted 1 1 0 s)
        (named ++ [Call path; Stdout (if v then "empty" +:+ PyStr.LF else "s")]).
Proof.
  intros Hr. unfold testwrapper. unfold_m. simpl.
  rewrite !log_run. simpl. rewrite Hr. simpl. rewrite !log_run. simpl.
  by destruct v.
Qed.

Lemma wrapper_skipped o r s :
  refout o = Some r -> postout o = None ->
  wrapper (Returns o) s
  = Ret o (counted 1 1 0 s)
        (named ++ [Call path; Stdout (if v then "skipped" +:+ PyStr.LF else "s")]).
Proof.
  intros Hr Hp. unfold testwrapper. unfold_m. simpl.
  rewrite !log_run. simpl. rewrite Hr, Hp. simpl. rewrite !log_run. simpl.
  by destruct v.
Qed.

Lemma wrapper_passed o r post s :
  refout o = Some r -> postout o = Some post -> diff o = [] ->
  wrapper (Returns o) s
  = Ret o (mkState (delete errpath (fs s)) (stdin s) (counters (counted 1 0 0 s)))
        (named ++ [Call path; Stdout (if v then "passed" +:+ PyStr.LF else ".")]
         ++ (if bool_decide (is_Some (fs s !! errpath)) then [Remove errpath] else [])).
Proof.
  intros Hr Hp Hd. unfold testwrapper. unfold_m. simpl.
  rewrite !log_run. simpl. rewrite Hr, Hp, Hd. simpl. rewrite !log_run. simpl.
  unfold os_remove. simpl.
  destruct (fs s !! errpath_of path) as [c|] eqn:He.
  - rewrite bool_decide_true by eauto. simpl. rewrite He. by destruct v.
  - rewrite bool_decide_false by (by intros [? ?]). simpl.
    rewrite delete_id by done. by destruct v.
Qed.

Lemma wrapper_failed_quiet o r post s :
  q = true ->
  refout o = Some r -> postout o = Some post -> diff o <> [] ->
  wrapper (Returns o) s
  = Ret o (recorded path post s)
        (named ++ [Call path; Stdout (if v then "failed" +:+ PyStr.LF else "!");
                   WriteFile errpath post]).
Proof.
  intros -> Hr Hp Hd. unfold testwrapper. unfold_m. simpl.
  rewrite !log_run. simpl. rewrite Hr, Hp. destruct (diff o) as [|d ds]; [done|].
  simpl. rewrite !log_run. simpl. by destruct v.
Qed.

Lemma wrapper_failed_loud o r post s :
  q = false ->
  refout o = Some r -> postout o = Some post -> diff o <> [] ->
  wrapper (Returns o) s
  = after (named ++ [Call path; Stdout (if v then "failed" +:+ PyStr.LF else "!")]
           ++ (if v then [] else [Stdout PyStr.LF])
           ++ WriteFile errpath post :: map Stdout (diff o))
      ((merge P v pc ans path errpath (diff o);; mret o) (recorded path post s)).
Proof.
  intros -> Hr Hp Hd. unfold testwrapper. unfold_m. simpl.
  rewrite !log_run. simpl. rewrite Hr, Hp.
  destruct o as [ro po dd]. simpl in *. subst.
  destruct dd as [|d ds]; [done|].
  cbn -[print_diff]. rewrite !log_run. cbn -[print_diff].
  rewrite print_diff_run. cbn -[print_diff].
  destruct (merge _ _ _ _ _ _ _ _) as [[] s2 t2| |]; destruct v; simpl; tidy.
Qed.

Lemma merge_run errpath_ d s c :
  fs s !! errpath_ = Some c ->
  merge P v pc ans path errpath_ d s
  = if PyStr.truthy_opt pc then
      match _prompt_loop "Accept this change?" "yN" ans (stdin s) with
      | Some (a, rest, tp) =>
          if String.eqb a "y" then
            if snd (execute P [default "" pc; "-p0"] (PyStr.join "" d)) =? 0 then
              Ret tt (mkState (delete errpath_ (fs s)) rest (counters s))
                  (tp ++ Exec [default "" pc; "-p0"] (PyStr.join "" d)
                      :: shown (if v then Some (PurePath.str path +:+ ": merged output"
                                                +:+ PyStr.LF) else None)
                      ++ [Remove errpath_])
            else
              Ret tt (mkState (fs s) rest (counters s))
                  (tp ++ [Exec [default "" pc; "-p0"] (PyStr.join "" d);
                          Stdout (PurePath.str path +:+ ": merge failed" +:+ PyStr.LF)])
          else Ret tt (mkState (fs s) rest (counters s)) tp
      | None => Hang
      end
    else Ret tt s [].
Proof.
  intros He. unfold merge. destruct pc as [cmd|]; [|done]. simpl.
  destruct (PyStr.truthy cmd); [|done].
  rewrite bind_run. unfold _prompt.
  destruct (_prompt_loop _ _ _ _) as [[[a rest] tp]|]; [|done].
  simpl. destruct (String.eqb a "y"); [|by tidy].
  unfold _patch. unfold_m. simpl.
  destruct (snd _ =? 0).
  - rewrite log_run. simpl. unfold os_remove. simpl. rewrite He. simpl. by tidy.
  - rewrite log_run. simpl. unfold shown.
    rewrite truthy_app_r by done. by tidy.
Qed.

Lemma merge_returns errpath_ d s c :
  fs s !! errpath_ = Some c ->
  exists s' t, merge P v pc ans path errpath_ d s = Ret tt s' t
               /\ forallb is_cli t = true.
Proof.
  intros He. rewrite (merge_run _ _ _ _ He).
  destruct (PyStr.truthy_opt pc); [|by eexists _, _].
  destruct (prompt_yN_ends "Accept this change?" ans (stdin s))
    as (a & rest & tp & -> & Hcli%talk_cli).
  destruct (String.eqb a "y"); [|by eexists _, _].
  destruct (snd _ =? 0); eexists _, _; (split; [reflexivity|]);
    rewrite forallb_app, Hcli; simpl; [|done].
  by rewrite forallb_app, shown_cli.
Qed.

Lemma wrapper_returns o s :
  exists s' t,
    wrapper (Returns o) s = Ret o s' (named ++ Call path :: t)
    /\ forallb is_cli t = true.
Proof.
  destruct (refout o) as [r|] eqn:Hr; [|by rewrite wrapper_empty; eauto].
  destruct (postout o) as [post|] eqn:Hp;
    [|by erewrite wrapper_skipped; eauto].
  destruct (diff o) as [|d ds] eqn:Hd.
  { erewrite wrapper_passed by eauto. eexists _, _. split; [reflexivity|].
    simpl. by destruct (bool_decide _). }
  assert (q = true \/ q = false) as [Hq|Hq] by (destruct q; auto).
  { erewrite wrapper_failed_quiet by (eauto; by rewrite Hd). by eexists _, _. }
  erewrite wrapper_failed_loud by (eauto; by rewrite Hd).
  rewrite bind_run.
  destruct (merge_returns (errpath_of path) (diff o) (recorded path post s)
              (PyStr.join "" post)) as (s' & t & -> & Hcli).
  { unfold recorded. simpl. apply lookup_insert_eq. }
  unfold mret, M_ret, ret. cbn [after]. eexists _, _. rewrite <- !app_assoc. split; [reflexivity|].
  rewrite app_nil_r. cbn [forallb is_cli andb].
  rewrite !forallb_app, Hcli. cbn [forallb is_cli andb].
  rewrite map_Stdout_cli. by destruct v.
Qed.
End Wrapper.

(** ** The loop of main *)

Lemma settled_after {A} t (r : Res A) :
  forallb (fun e => negb (is_sandbox e)) t = true -> settled r -> settled (after t r).
Proof. destruct r; simpl; try done; intros Ht Hr; by rewrite forallb_app, Ht, Hr. Qed.

Lemma settled_bind {A B} (m : M A) (f : A -> M B) s :
  settled (m s) -> (forall a s', settled (f a s')) -> settled ((m ≫= f) s).
Proof.
  intros Hm Hf. rewrite bind_run. destruct (m s) as [a s' t| |]; try done.
  by apply settled_after.
Qed.

Lemma summary_run v s :
  exists t, summary v s = Ret tt s t /\ forallb is_cli t = true.
Proof.
  unfold summary. rewrite bind_run. unfold get_counters, when. cbn [after app].
  destruct (bool_decide _); [|by eexists].
  rewrite bind_run, !log_run. cbn [after].
  eexists. split; [reflexivity|].
  rewrite app_nil_l, forallb_app, !shown_cli. done.
Qed.

Section Loop.
Variable P : Platform.
Variables (q v : bool) (pc ans : option string).

Local Abbreviation wrapped ds := (gen_items (runcli P q v pc ans (tests_of ds))).

Lemma wrapped_cons pb ds :
  wrapped (pb :: ds)
  = (fst pb, testwrapper P q v pc ans (fst pb) (call_test (fst pb) (snd pb)))
      :: wrapped ds.
Proof. reflexivity. Qed.

Lemma loop_wrapped_settled ds : forall h f s, settled (main_loop (wrapped ds) h f s).
Proof.
  induction ds as [|[path b] ds IH]; intros h f s; [done|].
  rewrite wrapped_cons. cbn [main_loop fst snd].
  apply settled_bind; [|by intros; apply IH].
  destruct b as [o|e].
  - destruct (wrapper_returns P q v pc ans path o s) as (s' & t & -> & Hcli).
    simpl. rewrite forallb_app. cbn [forallb is_sandbox negb andb].
    rewrite (cli_not_sandbox _ Hcli), (cli_not_sandbox _ (shown_cli _)). done.
  - rewrite wrapper_raises. simpl. rewrite forallb_app.
    by rewrite (cli_not_sandbox _ (shown_cli _)).
Qed.

Lemma loop_wrapped_returns os : forall h f s,
  exists s' t,
    main_loop (wrapped (map returning os)) h f s
    = Ret (h || bool_decide (os <> []), f || existsb (fun po => has_diff (snd po)) os) s' t
    /\ calls t = map fst os.
Proof.
  induction os as [|[path o] os IH]; intros h f s.
  { eexists _, _. simpl. rewrite !orb_false_r. by split. }
  cbn [map]. rewrite wrapped_cons. cbn [main_loop fst snd returning].
  rewrite bind_run.
  destruct (wrapper_returns P q v pc ans path o s) as (s' & t & -> & Hcli).
  destruct (IH true (if diff o is [] then f else true) s') as (s'' & t' & -> & Hc).
  cbn [after]. eexists _, _. split.
  - f_equal. f_equal.
    + by rewrite orb_true_r.
    + unfold has_diff at 2. cbn [existsb snd]. destruct (diff o), f; done.
  - rewrite !calls_app. cbn [calls]. rewrite Hc, (calls_cli _ Hcli).
    by rewrite (calls_cli _ (shown_cli _)).
Qed.
End Loop.

Lemma loop_raw_settled ds : forall h f s,
  settled (main_loop (gen_items (tests_of ds)) h f s).
Proof.
  induction ds as [|[path b] ds IH]; intros h f s; [done|].
  cbn [tests_of gen_items map main_loop fst snd].
  apply settled_bind; [|by intros; apply IH].
  by destruct b.
Qed.

Lemma loop_raw_returns os : forall h f s,
  main_loop (gen_items (tests_of (map returning os))) h f s
  = Ret (h || bool_decide (os <> []), f || existsb (fun po => has_diff (snd po)) os) s
        (map Call (map fst os)).
Proof.
  induction os as [|[path o] os IH]; intros h f s.
  { simpl. by rewrite !orb_false_r. }
  cbn [map tests_of gen_items main_loop fst snd returning].
  rewrite bind_run. unfold call_test at 1. unfold_m. cbn [after app].
  change (map _ (map returning os)) with (gen_items (tests_of (map returning os))).
  rewrite IH. cbn [after app]. f_equal. f_equal.
  - by rewrite orb_true_r.
  - unfold has_diff at 2. cbn [existsb snd]. destruct (diff o), f; done.
Qed.

(** ** The try statement of main *)

Lemma mret_run {A} (a : A) s : (mret a : M A) s = Ret a s [].
Proof. reflexivity. Qed.

Ltac steps :=
  repeat progress (rewrite ?bind_run, ?mret_run, ?after_nil; cbn [after]).

Section Try.
Variable P : Platform.
Variables (st : Settings) (sh : list string) (pc ans : option string).

Local Abbreviation found :=
  (runtests P (tests st) (mkdtemp P) sh (indent st) (negb (preserve_env st)) (debug st)).

Lemma try_settled s : settled (main_try P st sh pc ans s).
Proof.
  unfold main_try. cbv zeta.
  apply settled_bind.
  2:{ intros [h f] s'. cbn [fst snd]. by destruct h, f. }
  unfold iterate.
  destruct (debug st); cbn [negb].
  - apply settled_bind; [done|]. intros _ s1.
    apply settled_bind; [apply loop_raw_settled|]. by intros.
  - destruct (xunit_file st) as [file|].
    + apply settled_bind; [done|]. intros _ s1.
      apply settled_bind; [apply loop_wrapped_settled|]. intros r s2.
      apply settled_bind; [|by intros].
      cbn [runxunit gen_finish runcli tests_of].
      apply settled_bind; [|by intros].
      apply settled_bind; [done|]. intros _ s3.
      destruct (summary_run (verbose st) s3) as (t & -> & Hcli).
      simpl. by apply cli_not_sandbox.
    + apply settled_bind; [done|]. intros _ s1.
      apply settled_bind; [apply loop_wrapped_settled|]. intros r s2.
      apply settled_bind; [|by intros].
      cbn [gen_finish runcli tests_of].
      apply settled_bind; [done|]. intros _ s3.
      destruct (summary_run (verbose st) s3) as (t & -> & Hcli).
      simpl. by apply cli_not_sandbox.
Qed.

(** The statements of [main] after its loop. *)
Lemma verdict_run (h f : bool) s :
  (if negb h
   then (stderr_write ("no tests found" +:+ PyStr.LF);; mret 2 : M Z)
   else mret (if f then 1 else 0)) s
  = Ret (if negb h then 2 else if f then 1 else 0) s
        (if h then [] else [Stderr ("no tests found" +:+ PyStr.LF)]).
Proof. by destruct h. Qed.

Lemma status_of_loop os :
  (if negb (false || bool_decide (os <> []))
   then 2 else if false || existsb (fun po => has_diff (snd po)) os then 1 else 0)
  = status_of os.
Proof.
  unfold status_of. destruct os; [done|].
  rewrite bool_decide_true by done. by rewrite bool_decide_false by done.
Qed.

Lemma try_no_tests s :
  found = [] ->
  main_try P st sh pc ans s
  = Ret 2 (if debug st then s else mkState (fs s) (stdin s) (mkCounters 0 0 0))
        ((if debug st then []
          else match xunit_file st with Some file => [Xunit file] | None => [] end)
         ++ [Stderr ("no tests found" +:+ PyStr.LF)]).
Proof.
  intros Hf. unfold main_try. cbv zeta. rewrite Hf.
  destruct (debug st); [by destruct s|].
  by destruct (xunit_file st).
Qed.

Lemma try_returns os s :
  found = map returning os ->
  exists s' t,
    main_try P st sh pc ans s = Ret (status_of os) s' t /\ calls t = map fst os.
Proof.
  intros Hf. destruct os as [|po os].
  { rewrite try_no_tests by done. eexists _, _. split; [reflexivity|].
    rewrite calls_app. destruct (debug st); [done|]. by destruct (xunit_file st). }
  unfold main_try. cbv zeta. rewrite Hf.
  rewrite bind_run. unfold iterate.
  destruct (debug st); cbn [negb].
  - change (gen_start (tests_of ?x)) with (mret tt : M unit).
    change (gen_finish (tests_of ?x)) with (mret tt : M unit).
    steps. rewrite loop_raw_returns. steps.
    cbn [fst snd]. rewrite verdict_run, status_of_loop. cbn [after].
    eexists _, _. split; [reflexivity|].
    rewrite bool_decide_true by done. cbn [orb]. rewrite !app_nil_r, ?app_nil_l.
    clear. generalize (po :: os). intros l. induction l; simpl; congruence.
  - set (q := quiet st). set (v := verbose st).
    assert (exists s1 t1 s2 t2 s3 t3,
      forall file : option string,
        let g := runcli P q v pc ans (tests_of (map returning (po :: os))) in
        let g' := match file with Some f => runxunit g f | None => g end in
        gen_start g' s = Ret tt s1 t1 /\ calls t1 = [] /\
        main_loop (gen_items g') false false s1
        = Ret (false || bool_decide (po :: os <> []),
               false || existsb (fun po => has_diff (snd po)) (po :: os)) s2 t2 /\
        calls t2 = map fst (po :: os) /\
        gen_finish g s2 = Ret tt s3 t3 /\ calls t3 = []) as Hg.
    { destruct (loop_wrapped_returns P q v pc ans (po :: os) false false
                  (mkState (fs s) (stdin s) (mkCounters 0 0 0)))
        as (s2 & t2 & Hloop & Hcalls).
      destruct (summary_run v s2) as (t3 & Hsum & Hcli).
      exists (mkState (fs s) (stdin s) (mkCounters 0 0 0)), [], s2, t2, s2, t3.
      intros file g g'.
      assert (gen_start g' = gen_start g) as -> by (by destruct file).
      assert (gen_items g' = gen_items g) as -> by (by destruct file).
      split; [done|]. split; [done|]. split; [exact Hloop|]. split; [exact Hcalls|].
      split; [|by apply calls_cli].
      subst g. cbn [runcli gen_finish tests_of]. steps. by rewrite Hsum. }
    destruct Hg as (s1 & t1 & s2 & t2 & s3 & t3 & Hg).
    destruct (Hg (xunit_file st)) as (Hstart & Hc1 & Hloop & Hc2 & Hfin & Hc3).
    cbv zeta in Hstart, Hloop, Hfin. steps. rewrite Hstart. steps. rewrite Hloop. steps.
    assert (exists t4,
      gen_finish match xunit_file st with
                 | Some file => runxunit
                     (runcli P q v pc ans (tests_of (map returning (po :: os)))) file
                 | None => runcli P q v pc ans (tests_of (map returning (po :: os)))
                 end s2 = Ret tt s3 t4 /\ calls t4 = []) as (t4 & -> & Hc4).
    { destruct (xunit_file st) as [file|]; [|by eexists].
      cbn [runxunit gen_finish]. steps. rewrite Hfin. steps.
      eexists. split; [reflexivity|]. by rewrite calls_app, Hc3. }
    steps. cbn [fst snd]. rewrite verdict_run, status_of_loop. cbn [after].
    eexists _, _. split; [reflexivity|].
    rewrite bool_decide_true by done. cbn [orb].
    rewrite !calls_app, Hc1, Hc2, Hc4. cbn [calls app]. by rewrite !app_nil_r.
Qed.
End Try.

(** ** The structure of main *)

Section MainShape.
Variable P : Platform.

Lemma finally_run st s : main_finally P st s = Ret tt s [sandbox_teardown P st].
Proof. unfold main_finally, sandbox_teardown. by destruct (keep_tmpdir st). Qed.

Lemma main_run_shape st sh pc ans s :
  main_run P st sh pc ans s
  = after (sandbox_setup P)
      (try_finally (main_try P st sh pc ans) (main_finally P st) s).
Proof.
  unfold main_run, emit. cbv zeta. steps.
  by destruct (try_finally _ _ s).
Qed.

Lemma main_run_returns st sh pc ans os s :
  runtests P (tests st) (mkdtemp P) sh (indent st) (negb (preserve_env st)) (debug st)
  = map returning os ->
  exists s' t,
    main_run P st sh pc ans s
    = Ret (status_of os) s' (sandbox_setup P ++ t ++ [sandbox_teardown P st])
    /\ calls t = map fst os
    /\ (os = [] -> fs s' = fs s /\ In (Stderr ("no tests found" +:+ PyStr.LF)) t).
Proof.
  intros Hf. rewrite main_run_shape. unfold try_finally.
  destruct (try_returns P st sh pc ans os s Hf) as (s' & t & Ht & Hc).
  pose proof (try_no_tests P st sh pc ans s) as Hn.
  rewrite Ht, finally_run. cbn [after]. eexists _, _.
  split; [reflexivity|]. split; [done|].
  intros ->. rewrite Hn in Ht by done. inversion Ht; subst.
  split; [by destruct (debug st)|]. apply in_or_app. right. by left.
Qed.

Lemma main_run_settled st sh pc ans s :
  exists t,
    forallb (fun e => negb (is_sandbox e)) t = true /\
    ((exists code s',
        main_run P st sh pc ans s
        = Ret code s' (sandbox_setup P ++ t ++ [sandbox_teardown P st]))
     \/ (exists e s',
        main_run P st sh pc ans s
        = Exc e s' (sandbox_setup P ++ t ++ [sandbox_teardown P st]))).
Proof.
  rewrite main_run_shape. unfold try_finally.
  pose proof (try_settled P st sh pc ans s) as Hs.
  destruct (main_try P st sh pc ans s) as [code s' t|e s' t|]; [| |done];
    rewrite finally_run; cbn [after]; exists t; (split; [exact Hs|]); eauto.
Qed.

Lemma attempt_run {A} (a : Attempt A) s :
  attempt a s
  = match a with
    | Got x => Ret x s []
    | ValueError _ => Exc "ValueError" s []
    | Raised e => Exc e s []
    end.
Proof. by destruct a. Qed.

(** Once a look-up along PATH has returned, PATH is set: any other look-up
    returns too. *)
Lemma which_returns a x b :
  _which P a = Got x -> _which P b = Got (got None (_which P b)).
Proof. unfold _which. by destruct (environ_PATH P). Qed.

Lemma main_cases args s :
  main P args s
  = match load (repr P) (pryskrc P) "prysk" options with
    | ValueError ex =>
        Ret 2 s [Stderr (format_usage P +:+ PyStr.LF);
                 Stderr ("prysk: error: " +:+ ex +:+ PyStr.LF)]
    | Raised e => Exc e s []
    | Got config =>
        let st := merge_settings P args (settings_from P config) in
        match _conflicts st with
        | Some (arg1, arg2) =>
            Ret 2 s [Stderr ("options " +:+ arg1 +:+ " and " +:+ arg2
                             +:+ " are mutually exclusive" +:+ PyStr.LF)]
        | None =>
            match _which P (shell st) with
            | ValueError _ => Exc "ValueError" s []
            | Raised e => Exc e s []
            | Got shellcmd =>
                if negb (PyStr.truthy_opt shellcmd) then
                  Ret 2 s [Stderr ("shell not found: " +:+ shell st +:+ PyStr.LF)]
                else
                  match (if PyStr.truthy_opt (shell_opts st)
                         then shlex_split P (default "" (shell_opts st))
                         else Got []) with
                  | ValueError _ => Exc "ValueError" s []
                  | Raised e => Exc e s []
                  | Got _ =>
                      if interactive st
                         && negb (PyStr.truthy_opt (got None (_which P "patch"))) then
                        Ret 2 s [Stderr ("patch(1) required for -i" +:+ PyStr.LF)]
                      else
                        match missing s (tests st) with
                        | p :: _ =>
                            Ret 2 s [Stderr ("no such file: " +:+ PurePath.str p
                                             +:+ PyStr.LF)]
                        | [] =>
                            main_run P st (shell_of P st) (patchcmd_of P st)
                                     (answer_of st) s
                        end
                  end
            end
        end
    end.
Proof.
  unfold main. destruct (load _ _ _ _) as [config|ex|e]; [|done|done]. cbv zeta.
  set (st := merge_settings P args (settings_from P config)).
  destruct (_conflicts st) as [[arg1 arg2]|]; [done|].
  rewrite bind_run, attempt_run.
  destruct (_which P (shell st)) as [shellcmd| |] eqn:Hw; [|done|done].
  cbn [after]. destruct (negb (PyStr.truthy_opt shellcmd)); [done|].
  rewrite bind_run.
  assert (forall pc ans sh,
    (bad ← badpaths (tests st);
     match bad with
     | p :: _ =>
         stderr_write ("no such file: " +:+ PurePath.str p +:+ PyStr.LF);; mret 2
     | [] => main_run P st sh pc ans
     end) s
    = match missing s (tests st) with
      | p :: _ => Ret 2 s [Stderr ("no such file: " +:+ PurePath.str p +:+ PyStr.LF)]
      | [] => main_run P st sh pc ans s
      end) as Hbad.
  { intros pc ans sh. rewrite bind_run. unfold badpaths. fold (missing s (tests st)).
    cbn [after]. destruct (missing s (tests st)); [by rewrite after_nil|done]. }
  assert (forall words,
    (if PyStr.truthy_opt (shell_opts st)
     then shlex_split P (default "" (shell_opts st)) else Got []) = Got words ->
    (patchcmd ← (if interactive st then attempt (_which P "patch")
                 else mret (None : option string));
     if interactive st && negb (PyStr.truthy_opt patchcmd) then
       (stderr_write ("patch(1) required for -i" +:+ PyStr.LF);; mret 2)
     else
       bad ← badpaths (tests st);
       match bad with
       | p :: _ =>
           stderr_write ("no such file: " +:+ PurePath.str p +:+ PyStr.LF);; mret 2
       | [] =>
           main_run P st (default "" shellcmd :: words)
                    patchcmd
                    (if yes st then Some "y" else if no st then Some "n" else None)
       end) s
    = if interactive st && negb (PyStr.truthy_opt (got None (_which P "patch"))) then
        Ret 2 s [Stderr ("patch(1) required for -i" +:+ PyStr.LF)]
      else
        match missing s (tests st) with
        | p :: _ => Ret 2 s [Stderr ("no such file: " +:+ PurePath.str p +:+ PyStr.LF)]
        | [] => main_run P st (shell_of P st) (patchcmd_of P st) (answer_of st) s
        end) as Hrest.
  { intros words Hwords.
    assert (shell_of P st = default "" shellcmd :: words) as ->.
    { unfold shell_of. rewrite Hw. cbn [got].
      destruct (PyStr.truthy_opt (shell_opts st)); [by rewrite Hwords|].
      by injection Hwords as <-. }
    rewrite bind_run. unfold patchcmd_of.
    destruct (interactive st); cbn [andb].
    - rewrite (which_returns _ _ "patch" Hw), attempt_run. cbn [after got].
      destruct (negb (PyStr.truthy_opt (got None (_which P "patch")))); [done|].
      rewrite after_nil. apply Hbad.
    - rewrite mret_run. cbn [after]. rewrite after_nil. apply Hbad. }
  destruct (PyStr.truthy_opt (shell_opts st)) eqn:Hopts.
  - rewrite attempt_run.
    destruct (shlex_split P (default "" (shell_opts st))) as [words| |] eqn:Hs;
      [|done|done].
    cbn [after]. rewrite !after_nil. exact (Hrest words eq_refl).
  - rewrite mret_run. cbn [after]. rewrite !after_nil. exact (Hrest [] eq_refl).
Qed.
End MainShape.

(** * The claims *)

(** ** The prompt *)

(** C10. The answer policy of [_prompt].  (1) With an automatic answer the
    prompt returns that answer as it is, whatever the accepted answers are,
    and reads nothing: the state is unchanged and no [Readline] happens.
    (2) Without one, when the line entered is empty once stripped, the prompt
    returns the first upper-case character of the answers, as it stands.
    (3) With the answers "yN" of [runcli] that default is "N", which differs
    from "y": the merge is declined, nothing is executed.  (4) An input that
    is not empty once stripped is lower-cased; it is returned when it occurs
    in the lower-cased answers, and otherwise the prompt asks again. *)
Theorem prompt_answer_policy :
  (forall question answers a s,
      _prompt question answers (Some a) s
      = Ret a s [Stdout (prompt_text question answers); Stdout (a +:+ PyStr.LF)])
  /\ (forall question answers line rest f c d ds,
      PyStr.strip line = "" ->
      PyStr.uppers answers = d :: ds ->
      _prompt question answers None (mkState f (line :: rest) c)
      = Ret (PyStr.of_char d) (mkState f rest c)
            [Stdout (prompt_text question answers); Readline]
      /\ PyStr.isupper d = true)
  /\ (forall P v cmd path errpath_ d line rest f c,
      PyStr.strip line = "" ->
      PyStr.truthy cmd = true ->
      _prompt "Accept this change?" "yN" None (mkState f (line :: rest) c)
      = Ret "N" (mkState f rest c)
            [Stdout (prompt_text "Accept this change?" "yN"); Readline]
      /\ String.eqb "N" "y" = false
      /\ merge P v (Some cmd) None path errpath_ d (mkState f (line :: rest) c)
         = Ret tt (mkState f rest c)
               [Stdout (prompt_text "Accept this change?" "yN"); Readline])
  /\ (forall question answers line rest f c,
      PyStr.truthy (PyStr.lower (PyStr.strip line)) = true ->
      (PyStr.contains (PyStr.lower answers) (PyStr.lower (PyStr.strip line)) = true ->
       _prompt question answers None (mkState f (line :: rest) c)
       = Ret (PyStr.lower (PyStr.strip line)) (mkState f rest c)
             [Stdout (prompt_text question answers); Readline])
      /\ (PyStr.contains (PyStr.lower answers) (PyStr.lower (PyStr.strip line)) = false ->
          _prompt question answers None (mkState f (line :: rest) c)
          = after [Stdout (prompt_text question answers); Readline]
              (_prompt question answers None (mkState f rest c)))).
Proof.
  assert (forall question answers line rest f c d ds,
      PyStr.strip line = "" ->
      PyStr.uppers answers = d :: ds ->
      _prompt question answers None (mkState f (line :: rest) c)
      = Ret (PyStr.of_char d) (mkState f rest c)
            [Stdout (prompt_text question answers); Readline]) as Hdefault.
  { intros question answers line rest f c d ds Hs Hu.
    unfold _prompt. cbn [stdin fs counters]. rewrite prompt_loop_line. cbv zeta.
    by rewrite Hs, Hu. }
  split; [|split; [|split]].
  - intros question answers a s. unfold _prompt. rewrite prompt_loop_auto.
    by destruct s.
  - intros question answers line rest f c d ds Hs Hu. split; [by apply (Hdefault _ _ _ _ _ _ d ds)|].
    clear -Hu. revert Hu. induction answers as [|x answers IH]; [done|].
    simpl. destruct (PyStr.isupper x) eqn:Hx; [|done]. by intros [= <- _].
  - intros P v cmd path errpath_ d line rest f c Hs Hc.
    pose proof (Hdefault "Accept this change?" "yN" line rest f c "N"%char [] Hs eq_refl)
      as Hp.
    split; [exact Hp|]. split; [done|].
    unfold merge. rewrite Hc, bind_run, Hp. reflexivity.
  - intros question answers line rest f c Ht. split; intros Hc.
    + unfold _prompt. cbn [stdin fs counters]. rewrite prompt_loop_line. cbv zeta.
      by rewrite Ht, Hc.
    + unfold _prompt. cbn [stdin fs counters]. rewrite prompt_loop_line. cbv zeta.
      rewrite Ht, Hc. cbn [negb andb].
      by destruct (_prompt_loop question answers None rest) as [[[a r] t]|].
Qed.

Lemma prompt_answer_policy_witness :
  _prompt "Accept this change?" "yN" (Some "maybe") (mkState ∅ ["y"] (mkCounters 0 0 0))
  = Ret "maybe" (mkState ∅ ["y"] (mkCounters 0 0 0))
        [Stdout "Accept this change? [yN] "; Stdout ("maybe" +:+ PyStr.LF)]
  /\ _prompt "Overwrite?" "aBc" None (mkState ∅ [" " +:+ PyStr.LF; "a"] (mkCounters 0 0 0))
     = Ret "B" (mkState ∅ ["a"] (mkCounters 0 0 0)) [Stdout "Overwrite? [aBc] "; Readline]
  /\ _prompt "Accept this change?" "yN" None (mkState ∅ [" Y" +:+ PyStr.LF] (mkCounters 0 0 0))
     = Ret "y" (mkState ∅ [] (mkCounters 0 0 0)) [Stdout "Accept this change? [yN] "; Readline].
Proof.
  destruct prompt_answer_policy as (H1 & H2 & _ & H4).
  split; [apply H1|]. split.
  - apply (H2 "Overwrite?" "aBc" (" " +:+ PyStr.LF) ["a"] ∅ (mkCounters 0 0 0) "B"%char []);
      reflexivity.
  - apply (H4 "Accept this change?" "yN" (" Y" +:+ PyStr.LF) [] ∅ (mkCounters 0 0 0));
      reflexivity.
Defined.

(** ** The wrapper of runcli and the .err file *)

Lemma talk_no_write t : forallb is_talk t = true -> List.filter is_write t = [].
Proof.
  induction t as [|e t IH]; simpl; [done|].
  destruct e; simpl; try done; auto.
Qed.

Lemma shown_no_write msg : List.filter is_write (shown msg) = [].
Proof. destruct msg as [m|]; simpl; [|done]. by destruct (PyStr.truthy m). Qed.

Lemma map_Stdout_no_write d : List.filter is_write (map Stdout d) = [].
Proof. by induction d. Qed.

(** What a merge does to the files: nothing, or it removes the [.err] file;
    it writes none. *)
Lemma merge_effects P v pc ans path errpath_ d s c :
  fs s !! errpath_ = Some c ->
  exists s' t,
    merge P v pc ans path errpath_ d s = Ret tt s' t
    /\ List.filter is_write t = []
    /\ ((fs s' = fs s /\ List.filter is_remove t = [])
        \/ (fs s' = delete errpath_ (fs s) /\ In (Remove errpath_) t)).
Proof.
  intros He. rewrite (merge_run _ _ _ _ _ _ _ _ _ He).
  destruct (PyStr.truthy_opt pc); [|eexists _, _; split; [reflexivity|]; by auto].
  destruct (prompt_yN_ends "Accept this change?" ans (stdin s))
    as (a & rest & tp & -> & Htalk).
  assert (List.filter is_remove tp = []) as Hrm.
  { clear -Htalk. induction tp as [|e tp IH]; simpl; [done|].
    destruct e; simpl in *; try done; auto. }
  destruct (String.eqb a "y").
  2:{ eexists _, _. split; [reflexivity|]. split; [by apply talk_no_write|]. by left. }
  destruct (snd _ =? 0); eexists _, _; (split; [reflexivity|]).
  - split.
    + rewrite List.filter_app, (talk_no_write _ Htalk). cbn [List.filter is_write app].
      by rewrite List.filter_app, shown_no_write.
    + right. split; [done|]. apply in_or_app. right. right.
      apply in_or_app. right. by left.
  - split.
    + by rewrite List.filter_app, (talk_no_write _ Htalk).
    + left. split; [done|]. by rewrite List.filter_app, Hrm.
Qed.

(** C4. For every test wrapped by [runcli] whose callable returns, the
    wrapper returns the same result and touches no path but the sibling
    [<test path>.err].  When the test fails (reference and actual output
    present, diff not empty) the only file it writes is that sibling, with
    the lines of the actual output, and the file then holds them unless a
    merge removed it again.  When the test passes (diff empty) it writes
    nothing and the sibling is gone afterwards: removed if it existed.  For an
    empty or skipped test it writes nothing and leaves every file as it
    was. *)
Theorem err_file_policy P q v pc ans path o s :
  exists s' t,
    testwrapper P q v pc ans path (call_test path (Returns o)) s = Ret o s' t
    /\ (forall p, p <> errpath_of path -> fs s' !! p = fs s !! p)
    /\ (forall r post,
          refout o = Some r -> postout o = Some post -> diff o <> [] ->
          List.filter is_write t = [WriteFile (errpath_of path) post]
          /\ (fs s' !! errpath_of path = Some (PyStr.join "" post)
              \/ In (Remove (errpath_of path)) t))
    /\ (forall r post,
          refout o = Some r -> postout o = Some post -> diff o = [] ->
          List.filter is_write t = []
          /\ fs s' !! errpath_of path = None
          /\ (is_Some (fs s !! errpath_of path) -> In (Remove (errpath_of path)) t))
    /\ (refout o = None \/ postout o = None ->
          List.filter is_write t = [] /\ fs s' = fs s).
Proof.
  destruct (refout o) as [r|] eqn:Hr.
  2:{ rewrite wrapper_empty by done. eexists _, _. split; [reflexivity|].
      split; [done|]. split; [done|]. split; [done|]. intros _.
      split; [|done]. by rewrite List.filter_app, shown_no_write. }
  destruct (postout o) as [post|] eqn:Hp.
  2:{ erewrite wrapper_skipped by done. eexists _, _. split; [reflexivity|].
      split; [done|]. split; [done|]. split; [done|]. intros _.
      split; [|done]. by rewrite List.filter_app, shown_no_write. }
  destruct (diff o) as [|d ds] eqn:Hd.
  { erewrite wrapper_passed by done. eexists _, _. split; [reflexivity|].
    split; [by intros p Hne; apply lookup_delete_ne|].
    split; [done|]. split; [|by intros [|]].
    intros _ _ _ _ _. split; [|split].
    - rewrite List.filter_app, shown_no_write. cbn [List.filter is_write app].
      by destruct (bool_decide _).
    - apply lookup_delete_eq.
    - intros He. rewrite bool_decide_true by done.
      apply in_or_app. right. right. right. by left. }
  assert (diff o <> []) as Hne by (by rewrite Hd).
  assert (q = true \/ q = false) as [Hq|Hq] by (destruct q; auto).
  { erewrite wrapper_failed_quiet by done. eexists _, _. split; [reflexivity|].
    split; [by intros p Hp'; apply lookup_insert_ne|].
    split; [|split; [done|by intros [|]]].
    intros r' post' _ [= <-] _. split.
    - by rewrite List.filter_app, shown_no_write.
    - left. apply lookup_insert_eq. }
  erewrite wrapper_failed_loud by done. rewrite bind_run.
  destruct (merge_effects P v pc ans path (errpath_of path) (diff o)
              (recorded path post s) (PyStr.join "" post))
    as (s' & t & -> & Hw & Hfs); [apply lookup_insert_eq|].
  rewrite mret_run. cbn [after]. eexists _, _. split; [reflexivity|].
  split.
  { intros p Hp'. destruct Hfs as [[-> _]|[-> _]].
    - by apply lookup_insert_ne.
    - rewrite lookup_delete_ne by done. by apply lookup_insert_ne. }
  split; [|split; [done|by intros [|]]].
  intros r' post' _ [= <-] _. split.
  - rewrite !List.filter_app, shown_no_write, app_nil_r, Hw.
    cbn [List.filter is_write app].
    rewrite map_Stdout_no_write. by destruct v.
  - destruct Hfs as [[-> _]|[_ Hin]].
    + left. apply lookup_insert_eq.
    + right. apply in_or_app. right. apply in_or_app. by left.
Qed.

Lemma err_file_policy_witness :
  exists s' t,
    testwrapper (Demo.platform Demo.rc [] 0) false false None None Demo.a_t
      (call_test Demo.a_t (Returns Demo.failing)) (Demo.state [])
    = Ret Demo.failing s' t
    /\ List.filter is_write t = [WriteFile "tests/a.t.err" ["y"]]
    /\ (fs s' !! "tests/a.t.err" = Some "y" \/ In (Remove "tests/a.t.err") t).
Proof.
  destruct (err_file_policy (Demo.platform Demo.rc [] 0) false false None None Demo.a_t
              Demo.failing (Demo.state [])) as (s' & t & Hrun & _ & Hfail & _).
  exists s', t. split; [exact Hrun|]. by apply (Hfail ["x"] ["y"]).
Defined.

(** C8, as stated, fails when [verbose] is off: the wrapper writes the same
    marker "s" for an empty test and for a skipped one, and neither "empty"
    nor "skipped"; state and trace are the same in both cases. *)
Lemma empty_and_skipped_alike_when_terse :
  testwrapper (Demo.platform Demo.rc [] 0) false false None None Demo.a_t
    (call_test Demo.a_t (Returns Demo.empty)) (Demo.state [])
  = Ret Demo.empty (counted 1 1 0 (Demo.state [])) [Call Demo.a_t; Stdout "s"]
  /\ testwrapper (Demo.platform Demo.rc [] 0) false false None None Demo.a_t
       (call_test Demo.a_t (Returns Demo.skipping)) (Demo.state [])
     = Ret Demo.skipping (counted 1 1 0 (Demo.state [])) [Call Demo.a_t; Stdout "s"].
Proof. split; reflexivity. Qed.

(** C8, amended.  For a test whose reference output is absent the wrapper
    logs "empty" when [verbose] is set and the marker "s" otherwise; for a
    test whose reference output is present and whose actual output is absent
    it logs "skipped" when [verbose] is set and the same marker "s"
    otherwise.  In both cases the test is counted once in the total and once
    as skipped, not as failed, the result is handed on unchanged, and no file
    is written or removed: the files are as before. *)
Theorem empty_and_skipped_logged P q v pc ans path o s :
  (refout o = None ->
   testwrapper P q v pc ans path (call_test path (Returns o)) s
   = Ret o (counted 1 1 0 s)
         (shown (if v then Some (short_name path +:+ ": ") else None)
          ++ [Call path; Stdout (if v then "empty" +:+ PyStr.LF else "s")]))
  /\ (forall r, refout o = Some r -> postout o = None ->
      testwrapper P q v pc ans path (call_test path (Returns o)) s
      = Ret o (counted 1 1 0 s)
            (shown (if v then Some (short_name path +:+ ": ") else None)
             ++ [Call path; Stdout (if v then "skipped" +:+ PyStr.LF else "s")]))
  /\ total (counters (counted 1 1 0 s)) = S (total (counters s))
  /\ skipped (counters (counted 1 1 0 s)) = S (skipped (counters s))
  /\ failed (counters (counted 1 1 0 s)) = failed (counters s)
  /\ fs (counted 1 1 0 s) = fs s.
Proof.
  split; [by apply wrapper_empty|].
  split; [by intros r; apply wrapper_skipped|]. done.
Qed.

Lemma empty_and_skipped_logged_witness :
  testwrapper (Demo.platform Demo.rc [] 0) false true None None Demo.a_t
    (call_test Demo.a_t (Returns Demo.empty)) (Demo.state [])
  = Ret Demo.empty (counted 1 1 0 (Demo.state []))
        [Stdout "tests/a.t: "; Call Demo.a_t; Stdout ("empty" +:+ PyStr.LF)]
  /\ testwrapper (Demo.platform Demo.rc [] 0) false true None None Demo.a_t
       (call_test Demo.a_t (Returns Demo.skipping)) (Demo.state [])
     = Ret Demo.skipping (counted 1 1 0 (Demo.state []))
           [Stdout "tests/a.t: "; Call Demo.a_t; Stdout ("skipped" +:+ PyStr.LF)].
Proof.
  destruct (empty_and_skipped_logged (Demo.platform Demo.rc [] 0) false true None None
              Demo.a_t Demo.empty (Demo.state [])) as (He & _).
  destruct (empty_and_skipped_logged (Demo.platform Demo.rc [] 0) false true None None
              Demo.a_t Demo.skipping (Demo.state [])) as (_ & Hs & _).
  split; [by apply He|]. by apply (Hs ["x"]).
Defined.

(** ** The checks of main *)

Lemma no_sandbox_filter t :
  forallb (fun e => negb (is_sandbox e)) t = true -> List.filter is_sandbox t = [].
Proof.
  induction t as [|e t IH]; simpl; [done|].
  destruct (is_sandbox e); simpl; [done|]. exact IH.
Qed.

Section Checks.
Variable P : Platform.

Lemma missing_nil s paths :
  missing s paths = [] <-> Forall (fun p => is_Some (fs s !! PurePath.str p)) paths.
Proof.
  unfold missing. induction paths as [|p paths IH]; simpl.
  { split; [by constructor|done]. }
  destruct (bool_decide (is_Some (fs s !! PurePath.str p))) eqn:Hb; simpl.
  - apply bool_decide_eq_true in Hb. rewrite IH. split.
    + by constructor.
    + by inversion 1.
  - apply bool_decide_eq_false in Hb. split; [done|]. by inversion 1.
Qed.


Lemma main_ready args s st :
  Checks_pass P args s st ->
  main P args s = main_run P st (shell_of P st) (patchcmd_of P st) (answer_of st) s.
Proof.
  intros ((config & Hload & ->) & Hc & (sh & Hsh & Ht) & Hopts & Hpatch & Hex).
  rewrite main_cases, Hload. cbv zeta. rewrite Hc, Hsh. cbn [PyStr.truthy_opt].
  rewrite Ht. cbn [negb].
  apply missing_nil in Hex. rewrite Hex.
  assert (interactive (merge_settings P args (settings_from P config))
          && negb (PyStr.truthy_opt (got None (_which P "patch"))) = false) as ->.
  { destruct (interactive _); [|done].
    destruct (Hpatch eq_refl) as (pp & -> & Hp). cbn. by rewrite Hp. }
  unfold Opts_split in Hopts. destruct (PyStr.truthy_opt (shell_opts _)); [|done].
  by destruct (Hopts eq_refl) as [words ->].
Qed.

(** Whatever check fails, [main] only writes to the standard error and
    returns 2; where a call made for a check raises, [main] ends by that
    exception, having done nothing. *)
Lemma main_early args s :
  ~ (exists st, Checks_pass P args s st) ->
  (exists t, main P args s = Ret 2 s t /\ t <> [] /\ forallb is_stderr t = true)
  \/ (exists e, main P args s = Exc e s []).
Proof.
  intros Hno. rewrite main_cases.
  destruct (load _ _ _ _) as [config|ex|e] eqn:Hload;
    [|by left; eexists|by right; eexists].
  cbv zeta. set (st := merge_settings P args (settings_from P config)).
  destruct (_conflicts st) as [[a1 a2]|] eqn:Hc; [by left; eexists|].
  destruct (_which P (shell st)) as [shellcmd| |] eqn:Hw;
    [|by right; eexists|by right; eexists].
  destruct (PyStr.truthy_opt shellcmd) eqn:Hsh; [|by left; eexists].
  cbn [negb].
  destruct (if PyStr.truthy_opt (shell_opts st)
            then shlex_split P (default "" (shell_opts st)) else Got [])
    as [words| |] eqn:Hopts; [|by right; eexists|by right; eexists].
  destruct (interactive st && negb (PyStr.truthy_opt (got None (_which P "patch"))))
    eqn:Hi; [by left; eexists|].
  destruct (missing s (tests st)) as [|p rest] eqn:Hm; [|by left; eexists].
  destruct Hno. exists st. split; [by exists config|].
  apply missing_nil in Hm.
  split; [done|]. split; [|split; [|split; [|exact Hm]]].
  - destruct shellcmd as [sh|]; [|done]. by exists sh.
  - intros Ho. rewrite Ho in Hopts. by exists words.
  - intros Hint. rewrite Hint in Hi. cbn [andb] in Hi.
    pose proof (which_returns P _ _ "patch" Hw) as Hp.
    destruct (got None (_which P "patch")) as [pp|]; [|done].
    exists pp. split; [done|]. cbn in Hi. by destruct (PyStr.truthy pp).
Qed.

(** When no call raises, a failed check makes [main] return 2. *)
Lemma main_early_ret args s :
  Calls_return P args ->
  ~ (exists st, Checks_pass P args s st) ->
  exists t, main P args s = Ret 2 s t /\ t <> [] /\ forallb is_stderr t = true.
Proof.
  intros [Hload Hcalls] Hno.
  destruct (main_early args s Hno) as [H|[e He]]; [done|]. exfalso.
  rewrite main_cases in He.
  destruct (load _ _ _ _) as [config|ex|e'] eqn:Hl; [|done|by apply (Hload e')].
  cbv zeta in He. set (st := merge_settings P args (settings_from P config)) in *.
  destruct (_conflicts st) as [[a1 a2]|] eqn:Hc; [done|].
  destruct (Hcalls st) as [Hpath Hopts]; [by exists config|done|].
  destruct (_which P (shell st)) as [shellcmd|m|e'] eqn:Hw.
  - destruct shellcmd as [sh|]; [|done]. cbn [PyStr.truthy_opt] in He.
    destruct (PyStr.truthy sh) eqn:Ht; [|done]. cbn [negb] in He.
    assert (exists words,
      (if PyStr.truthy_opt (shell_opts st)
       then shlex_split P (default "" (shell_opts st)) else Got []) = Got words)
      as [words Hwords].
    { assert (Opts_split P st) as Ho by (apply Hopts; by exists sh).
      unfold Opts_split in Ho. destruct (PyStr.truthy_opt (shell_opts st)); [|by eexists].
      by apply Ho. }
    rewrite Hwords in He.
    destruct (interactive st && _); [done|].
    destruct (missing s (tests st)); [|done].
    rewrite main_run_shape in He. unfold try_finally in He.
    destruct (main_try _ _ _ _ _ s) as [c s1 t1|e1 s1 t1|]; [| |done];
      rewrite finally_run in He; cbn [after] in He; first [done|by injection He].
  - unfold _which in Hw. by destruct (environ_PATH P).
  - unfold _which in Hw. by destruct (environ_PATH P).
Qed.

Lemma load_option_cases repr_ parser section config ty name :
  load_option repr_ parser section config (ty, name)
  = if has_option parser section name then
      match loaded parser section ty name with
      | Got v => Got (<[name := v]> config)
      | ValueError _ =>
          match get parser section name with
          | Got value => ValueError (load_error repr_ parser ty name value)
          | ValueError msg => ValueError msg
          | Raised e => Raised e
          end
      | Raised e => Raised e
      end
    else Got config.
Proof.
  unfold load_option, loaded, load_error.
  destruct (has_option parser section name); [|done]. cbn [negb]. by destruct ty.
Qed.

(** The options before the first one that is rejected are fetched; [load]
    raises for that one and reads no further. *)
Lemma load_options_rejected repr_ parser section before ty name later value :
  Fetched parser section before ->
  has_option parser section name = true ->
  Rejects parser section ty name ->
  get parser section name = Got value ->
  forall config,
    load_options repr_ parser section config (before ++ (ty, name) :: later)
    = ValueError (load_error repr_ parser ty name value).
Proof.
  intros Hb Hp [m Hr] Hg.
  induction Hb as [|[ty' n] before Hok Hb IH]; intros config.
  - cbn [app load_options]. by rewrite load_option_cases, Hp, Hr, Hg.
  - cbn [app load_options]. rewrite load_option_cases.
    destruct (has_option parser section n) eqn:Hn; [|apply IH].
    destruct (Hok Hn) as [v Hv]. cbn [fst snd] in Hv. rewrite Hv. apply IH.
Qed.

Lemma load_malformed msg :
  Malformed P msg ->
  load (repr P) (pryskrc P) "prysk" options = ValueError msg.
Proof.
  intros (Hread & Hsec & before & ty & option & later & value
          & Hopts & Hb & Hp & Hr & Hg & ->).
  unfold load. rewrite Hread, Hsec, Hopts. cbn [negb].
  by apply load_options_rejected.
Qed.

Lemma stderr_only t :
  forallb is_stderr t = true ->
  calls t = [] /\ forallb (fun e => negb (is_sandbox e)) t = true.
Proof.
  induction t as [|e t IH]; [done|]. by destruct e.
Qed.
End Checks.

(** ** Errors before the run *)

(** C2.  The claim fails on three inputs the code can receive: an error
    of the configuration is not always reported.  (1) With
    [quiet = %(nope)s] in the configuration file the parser raises an
    interpolation error, which is no [ValueError]: [load] lets it out, and so
    does [main], whose [except] clause catches [ValueError] only.  (2) With
    shell options whose quotation is not closed, [shlex.split] raises
    [ValueError] outside the [try] statement of [main].  (3) When PATH is not
    set, the look-up of the shell raises [KeyError] instead of answering "not
    found".  In each case [main] ends by the exception: it writes nothing
    and returns no status. *)
Theorem configuration_errors_may_raise :
  main (Demo.platform Demo.interpolated_rc [] 0) (Demo.args false false false false)
       (Demo.state [])
  = Exc "InterpolationMissingOptionError" (Demo.state []) []
  /\ main (Demo.platform Demo.rc [] 0) Demo.open_quote (Demo.state [])
     = Exc "ValueError" (Demo.state []) []
  /\ main Demo.no_PATH Demo.no_shell (Demo.state [])
     = Exc "KeyError" (Demo.state []) [].
Proof. repeat split; reflexivity. Qed.




(** ** The exit status *)

(** The test paths of a concrete command line exist in a concrete state. *)
Ltac demo_files :=
  unfold Demo.args; cbn [tests];
  repeat (apply List.Forall_cons; [eexists; by vm_compute|]);
  apply List.Forall_nil.

(** A concrete invocation passes the checks. *)
Ltac demo_checks :=
  split; [by exists ∅|]; split; [reflexivity|];
  split; [by exists "/bin/sh"|];
  split; [discriminate|];
  split; [first [discriminate | intros _; by exists "/usr/bin/patch"]|];
  cbn [tests Demo.args Sample.debug_args Sample.no_args Sample.xunit_args];
  repeat (apply List.Forall_cons; [eexists; by vm_compute|]);
  apply List.Forall_nil.

Lemma status_of_cases os :
  (status_of os = 0 <-> os <> [] /\ Forall (fun po => diff (snd po) = []) os)
  /\ (status_of os = 1 <-> Exists (fun po => diff (snd po) <> []) os)
  /\ (status_of os = 2 <-> os = []).
Proof.
  unfold status_of. destruct os as [|po os].
  { rewrite bool_decide_true by done. split; [|split].
    - split; [done|]. by intros [? _].
    - split; [done|]. by inversion 1.
    - done. }
  rewrite bool_decide_false by done.
  destruct (existsb _ _) eqn:He.
  - apply List.existsb_exists in He as (x & Hin & Hx).
    assert (Exists (fun po => diff (snd po) <> []) (po :: os)) as Hex.
    { apply List.Exists_exists. exists x. split; [done|].
      unfold has_diff in Hx. by destruct (diff (snd x)). }
    split; [|split]; [|done|done].
    split; [done|]. intros [_ Hall]. exfalso.
    apply List.Exists_exists in Hex as (y & Hy & Hd).
    rewrite List.Forall_forall in Hall. by apply Hd, Hall.
  - assert (Forall (fun po => diff (snd po) = []) (po :: os)) as Hall.
    { apply List.Forall_forall. intros x Hin.
      destruct (diff (snd x)) as [|d ds] eqn:Hd; [done|]. exfalso.
      assert (existsb (fun po => has_diff (snd po)) (po :: os) = true) as Ht.
      { apply List.existsb_exists. exists x. split; [done|].
        unfold has_diff. by rewrite Hd. }
      by rewrite Ht in He. }
    split; [|split]; [done| |done].
    split; [done|]. intros Hex. exfalso.
    apply List.Exists_exists in Hex as (y & Hy & Hd).
    rewrite List.Forall_forall in Hall. by apply Hd, Hall.
Qed.

(** C1. The exit status of [main].  When a check before the run fails
    (configuration, clash of options, shell or patch not found, test path
    not found), [main] returns 2 whenever no call made for the checks
    raises; where one raises, [main] ends by that exception and returns no
    status.  When the checks pass and every test callable returns, [main]
    returns, and its status is 0 exactly when tests ran and every diff is
    empty, 1 exactly when some diff is not empty, and 2 exactly when no test
    was found. *)
Theorem exit_status_aggregates P args s :
  (~ (exists st, Checks_pass P args s st) ->
   (Calls_return P args ->
    exists t, main P args s = Ret 2 s t /\ forallb is_stderr t = true)
   /\ ((exists t, main P args s = Ret 2 s t /\ forallb is_stderr t = true)
       \/ (exists e, main P args s = Exc e s [])))
  /\ (forall st os,
        Checks_pass P args s st ->
        discovered P st = map returning os ->
        exists code s' t,
          main P args s = Ret code s' t
          /\ (code = 0 <-> os <> [] /\ Forall (fun po => diff (snd po) = []) os)
          /\ (code = 1 <-> Exists (fun po => diff (snd po) <> []) os)
          /\ (code = 2 <-> os = [])).
Proof.
  split.
  - intros Hno. split.
    + intros Hcalls. destruct (main_early_ret P args s Hcalls Hno) as (t & Hm & _ & Ht).
      by exists t.
    + destruct (main_early P args s Hno) as [(t & Hm & _ & Ht)|He];
        [left; by exists t|by right].
  - intros st os Hok Hd. rewrite (main_ready P args s st Hok).
    destruct (main_run_returns P st (shell_of P st) (patchcmd_of P st) (answer_of st)
                os s Hd) as (s' & t & -> & _).
    eexists _, _, _. split; [reflexivity|]. apply status_of_cases.
Qed.

Lemma exit_status_aggregates_witness :
  (exists code s' t,
     main (Demo.platform Demo.rc [(Demo.a_t, Returns Demo.failing);
                                  (Demo.b_t, Returns Demo.passing)] 0)
          (Demo.args false false false false) (Demo.state [])
     = Ret code s' t /\ code = 1)
  /\ (exists code s' t,
     main (Demo.platform Demo.rc [(Demo.a_t, Returns Demo.passing);
                                  (Demo.b_t, Returns Demo.skipping)] 0)
          (Demo.args false false false false) (Demo.state [])
     = Ret code s' t /\ code = 0).
Proof.
  assert (forall found,
    Checks_pass (Demo.platform Demo.rc found 0) (Demo.args false false false false)
      (Demo.state []) (Demo.args false false false false)) as Hok.
  { intros found. demo_checks. }
  split.
  - destruct (exit_status_aggregates
                (Demo.platform Demo.rc [(Demo.a_t, Returns Demo.failing);
                                        (Demo.b_t, Returns Demo.passing)] 0)
                (Demo.args false false false false) (Demo.state [])) as (_ & H).
    destruct (H (Demo.args false false false false)
                [(Demo.a_t, Demo.failing); (Demo.b_t, Demo.passing)]
                (Hok _) eq_refl) as (code & s' & t & Hm & _ & H1 & _).
    exists code, s', t. split; [exact Hm|]. apply H1. by left.
  - destruct (exit_status_aggregates
                (Demo.platform Demo.rc [(Demo.a_t, Returns Demo.passing);
                                        (Demo.b_t, Returns Demo.skipping)] 0)
                (Demo.args false false false false) (Demo.state [])) as (_ & H).
    destruct (H (Demo.args false false false false)
                [(Demo.a_t, Demo.passing); (Demo.b_t, Demo.skipping)]
                (Hok _) eq_refl) as (code & s' & t & Hm & H0 & _).
    exists code, s', t. split; [exact Hm|]. apply H0.
    split; [done|]. by repeat constructor.
Defined.

(** C9. When the checks pass and [runtests] yields no test at all, [main]
    writes "no tests found" to the standard error and returns 2: it calls no
    test and leaves the files as they were. *)
Theorem no_tests_found P args s st :
  Checks_pass P args s st ->
  discovered P st = [] ->
  exists s' t,
    main P args s
    = Ret 2 s' (sandbox_setup P ++ t ++ [sandbox_teardown P st])
    /\ In (Stderr ("no tests found" +:+ PyStr.LF)) t
    /\ calls t = []
    /\ fs s' = fs s.
Proof.
  intros Hok Hd. rewrite (main_ready P args s st Hok).
  destruct (main_run_returns P st (shell_of P st) (patchcmd_of P st) (answer_of st)
              [] s Hd) as (s' & t & -> & Hc & Hn).
  destruct (Hn eq_refl) as [Hfs Hin]. by eexists _, _.
Qed.

Lemma no_tests_found_witness :
  exists s' t,
    main (Demo.platform Demo.rc [] 0) (Demo.args false false false false) (Demo.state [])
    = Ret 2 s' (sandbox_setup (Demo.platform Demo.rc [] 0) ++ t
                ++ [Rmtree "/tmp/prysk-tests-0"])
    /\ In (Stderr ("no tests found" +:+ PyStr.LF)) t
    /\ calls t = []
    /\ fs s' = fs (Demo.state []).
Proof.
  apply (no_tests_found (Demo.platform Demo.rc [] 0) (Demo.args false false false false)
           (Demo.state []) (Demo.args false false false false)); [|reflexivity].
  demo_checks.
Defined.

(** ** The sandbox *)

(** C6.  An invocation that fails a check before the run creates no
    sandbox directory: it returns 2 whenever no call made for the checks
    raises and, where one raises, ends by that exception with an empty
    trace.  An invocation that passes them ends, by
    a return or by an exception of a test, and in its trace the sandbox
    directory is created exactly once, by the first event; unless
    [keep_tmpdir] is set it is removed exactly once, by the last event of the
    run; when [keep_tmpdir] is set it is never removed and the last event
    announces its path. *)
Theorem sandbox_lifecycle P args s :
  (~ (exists st, Checks_pass P args s st) ->
   (Calls_return P args ->
    exists t, main P args s = Ret 2 s t /\ List.filter is_sandbox t = [])
   /\ (exists t,
        (main P args s = Ret 2 s t \/ exists e, main P args s = Exc e s t)
        /\ List.filter is_sandbox t = []))
  /\ (forall st,
        Checks_pass P args s st ->
        exists T,
          ((exists code s', main P args s = Ret code s' T)
           \/ (exists e s', main P args s = Exc e s' T))
          /\ head T = Some (Mkdtemp (mkdtemp P))
          /\ List.filter is_sandbox T
             = Mkdtemp (mkdtemp P)
                 :: (if keep_tmpdir st then [] else [Rmtree (mkdtemp P)])
          /\ last T
             = Some (if keep_tmpdir st
                     then Stdout ("# Kept temporary directory: " +:+ mkdtemp P
                                  +:+ PyStr.LF)
                     else Rmtree (mkdtemp P))).
Proof.
  split.
  - intros Hno. split.
    + intros Hcalls. destruct (main_early_ret P args s Hcalls Hno) as (t & Hm & _ & Ht).
      exists t. split; [done|]. apply no_sandbox_filter. by apply stderr_only.
    + destruct (main_early P args s Hno) as [(t & Hm & _ & Ht)|[e He]].
      * exists t. split; [by left|]. apply no_sandbox_filter. by apply stderr_only.
      * exists []. split; [right; by exists e|done].
  - intros st Hok. rewrite (main_ready P args s st Hok).
    destruct (main_run_settled P st (shell_of P st) (patchcmd_of P st) (answer_of st) s)
      as (t & Ht & Hrun).
    exists (sandbox_setup P ++ t ++ [sandbox_teardown P st]).
    split; [exact Hrun|]. split; [done|]. split.
    + rewrite !List.filter_app, (no_sandbox_filter _ Ht).
      unfold sandbox_teardown. by destruct (keep_tmpdir st).
    + rewrite app_assoc, last_snoc. unfold sandbox_teardown.
      by destruct (keep_tmpdir st).
Qed.

Lemma sandbox_lifecycle_witness :
  exists T,
    ((exists code s',
        main (Demo.platform Demo.rc [(Demo.a_t, Returns Demo.failing);
                                     (Demo.b_t, Raises "KeyboardInterrupt")] 0)
             (Demo.args false false false false) (Demo.state [])
        = Ret code s' T)
     \/ (exists e s',
        main (Demo.platform Demo.rc [(Demo.a_t, Returns Demo.failing);
                                     (Demo.b_t, Raises "KeyboardInterrupt")] 0)
             (Demo.args false false false false) (Demo.state [])
        = Exc e s' T))
    /\ head T = Some (Mkdtemp "/tmp/prysk-tests-0")
    /\ List.filter is_sandbox T
       = [Mkdtemp "/tmp/prysk-tests-0"; Rmtree "/tmp/prysk-tests-0"]
    /\ last T = Some (Rmtree "/tmp/prysk-tests-0").
Proof.
  destruct (sandbox_lifecycle
              (Demo.platform Demo.rc [(Demo.a_t, Returns Demo.failing);
                                      (Demo.b_t, Raises "KeyboardInterrupt")] 0)
              (Demo.args false false false false) (Demo.state [])) as (_ & H).
  apply (H (Demo.args false false false false)).
  demo_checks.
Defined.

(** ** Failing tests *)

Lemma main_goes_on P args s st os :
  Checks_pass P args s st ->
  discovered P st = map returning os ->
  exists s' t, main P args s = Ret (status_of os) s' t /\ calls t = map fst os.
Proof.
  intros Hok Hd. rewrite (main_ready P args s st Hok).
  destruct (main_run_returns P st (shell_of P st) (patchcmd_of P st) (answer_of st)
              os s Hd) as (s' & t & -> & Hc & _).
  eexists _, _. split; [reflexivity|].
  rewrite !calls_app, Hc. unfold sandbox_teardown.
  by destruct (keep_tmpdir st); cbn; rewrite app_nil_r.
Qed.

(** C5.  For a failing test (reference and actual output present, diff not
    empty): (1) with [quiet] set the wrapper names the test if verbose,
    calls it, logs the failure and writes the [.err] file, and that is all:
    no line of the diff is printed; (2) the failure is counted; (3) with
    [quiet] off the lines of the diff are printed, in order, after the
    [.err] file is written; (4) in a run of [main] that passes the checks
    and whose test callables return, such a test makes the exit status 1,
    and every test found is called, in order. *)
Theorem quiet_hides_diff_only P v pc ans path o r post :
  refout o = Some r ->
  postout o = Some post ->
  diff o <> [] ->
  (forall s,
      testwrapper P true v pc ans path (call_test path (Returns o)) s
      = Ret o (recorded path post s)
            (shown (if v then Some (short_name path +:+ ": ") else None)
             ++ [Call path; Stdout (if v then "failed" +:+ PyStr.LF else "!");
                 WriteFile (errpath_of path) post]))
  /\ (forall s, failed (counters (recorded path post s)) = S (failed (counters s)))
  /\ (forall s,
      exists s' t,
        testwrapper P false v pc ans path (call_test path (Returns o)) s
        = Ret o s' (failure_report v path post (diff o) ++ t)
        /\ failed (counters s') = S (failed (counters s)))
  /\ (forall args s st os,
      Checks_pass P args s st ->
      discovered P st = map returning os ->
      In (path, o) os ->
      exists s' t, main P args s = Ret 1 s' t /\ calls t = map fst os).
Proof.
  intros Hr Hp Hd. split; [|split; [|split]].
  - intros s. by apply (wrapper_failed_quiet P true v pc ans path o r post s).
  - done.
  - intros s. erewrite wrapper_failed_loud by done. rewrite bind_run.
    pose proof (merge_run P v pc ans path (errpath_of path) (diff o)
                  (recorded path post s) (PyStr.join "" post)) as Hm.
    rewrite Hm by apply lookup_insert_eq. clear Hm.
    unfold failure_report.
    destruct (PyStr.truthy_opt pc).
    2:{ rewrite mret_run. cbn [after]. eexists _, _. rewrite <- !app_assoc.
        split; [reflexivity|done]. }
    destruct (prompt_yN_ends "Accept this change?" ans (stdin (recorded path post s)))
      as (a & rest & tp & -> & _).
    destruct (String.eqb a "y"); [destruct (snd _ =? 0)|];
      rewrite mret_run; cbn [after]; eexists _, _; rewrite <- !app_assoc;
      (split; [reflexivity|done]).
  - intros args s st os Hok Hdisc Hin.
    destruct (main_goes_on P args s st os Hok Hdisc) as (s' & t & Hm & Hc).
    exists s', t. split; [|exact Hc]. rewrite Hm. f_equal.
    apply status_of_cases. apply List.Exists_exists. by exists (path, o).
Qed.

Lemma quiet_hides_diff_only_witness :
  testwrapper (Demo.platform Demo.rc [] 0) true false None None Demo.a_t
    (call_test Demo.a_t (Returns Demo.failing)) (Demo.state [])
  = Ret Demo.failing (recorded Demo.a_t ["y"] (Demo.state []))
        [Call Demo.a_t; Stdout "!"; WriteFile "tests/a.t.err" ["y"]]
  /\ (exists s' t,
        testwrapper (Demo.platform Demo.rc [] 0) false false None None Demo.a_t
          (call_test Demo.a_t (Returns Demo.failing)) (Demo.state [])
        = Ret Demo.failing s'
              ([Call Demo.a_t; Stdout "!"; Stdout PyStr.LF;
                WriteFile "tests/a.t.err" ["y"]; Stdout "-x"; Stdout "+y"] ++ t)
        /\ failed (counters s') = 1%nat)
  /\ (exists s' t,
        main (Demo.platform Demo.rc [(Demo.a_t, Returns Demo.failing);
                                     (Demo.b_t, Returns Demo.passing)] 0)
             (Demo.args true false false false) (Demo.state [])
        = Ret 1 s' t /\ calls t = [Demo.a_t; Demo.b_t]).
Proof.
  destruct (quiet_hides_diff_only
              (Demo.platform Demo.rc [(Demo.a_t, Returns Demo.failing);
                                      (Demo.b_t, Returns Demo.passing)] 0)
              false None None Demo.a_t Demo.failing ["x"] ["y"] eq_refl eq_refl)
    as (_ & _ & _ & Hmain); [discriminate|].
  destruct (quiet_hides_diff_only (Demo.platform Demo.rc [] 0)
              false None None Demo.a_t Demo.failing ["x"] ["y"] eq_refl eq_refl)
    as (Hquiet & _ & Hloud & _); [discriminate|].
  split; [apply Hquiet|]. split; [apply Hloud|].
  apply (Hmain (Demo.args true false false false) (Demo.state [])
           (Demo.args true false false false)
           [(Demo.a_t, Demo.failing); (Demo.b_t, Demo.passing)]).
  - demo_checks.
  - reflexivity.
  - by left.
Defined.

(** ** The interactive merge *)

(** C7.  For a failing test with [quiet] off and a patch command, once the
    answer to the prompt is "y" the wrapper runs the command on the diff.
    (1) When it exits with a status other than 0 the wrapper reports "merge
    failed" for the file, removes nothing, and the [.err] file still holds
    the actual output.  (2) When it exits with status 0 the wrapper removes
    the [.err] file (saying "merged output" if verbose).  In both cases the
    wrapper returns the result of the test.  (3) A run of [main] whose test
    callables return goes on to the end whatever patch does: every test
    found is called, in order. *)
Theorem failed_patch_keeps_err P v cmd ans path o r post rest tp s :
  refout o = Some r ->
  postout o = Some post ->
  diff o <> [] ->
  PyStr.truthy cmd = true ->
  _prompt_loop "Accept this change?" "yN" ans (stdin s) = Some ("y", rest, tp) ->
  (snd (execute P [cmd; "-p0"] (PyStr.join "" (diff o))) <> 0 ->
   testwrapper P false v (Some cmd) ans path (call_test path (Returns o)) s
   = Ret o (mkState (<[errpath_of path := PyStr.join "" post]> (fs s)) rest
                    (counters (counted 1 0 1 s)))
         (failure_report v path post (diff o) ++ tp
          ++ [Exec [cmd; "-p0"] (PyStr.join "" (diff o));
              Stdout (PurePath.str path +:+ ": merge failed" +:+ PyStr.LF)]))
  /\ (snd (execute P [cmd; "-p0"] (PyStr.join "" (diff o))) = 0 ->
      testwrapper P false v (Some cmd) ans path (call_test path (Returns o)) s
      = Ret o (mkState (delete (errpath_of path) (fs s)) rest
                       (counters (counted 1 0 1 s)))
            (failure_report v path post (diff o) ++ tp
             ++ Exec [cmd; "-p0"] (PyStr.join "" (diff o))
                :: shown (if v then Some (PurePath.str path +:+ ": merged output"
                                          +:+ PyStr.LF) else None)
                ++ [Remove (errpath_of path)]))
  /\ (forall args s0 st os,
      Checks_pass P args s0 st ->
      discovered P st = map returning os ->
      exists code s' t, main P args s0 = Ret code s' t /\ calls t = map fst os).
Proof.
  intros Hr Hp Hd Hc Hy.
  assert (forall b,
    (snd (execute P [cmd; "-p0"] (PyStr.join "" (diff o))) =? 0) = b ->
    testwrapper P false v (Some cmd) ans path (call_test path (Returns o)) s
    = if b
      then Ret o (mkState (delete (errpath_of path) (fs s)) rest
                          (counters (counted 1 0 1 s)))
               (failure_report v path post (diff o) ++ tp
                ++ Exec [cmd; "-p0"] (PyStr.join "" (diff o))
                   :: shown (if v then Some (PurePath.str path +:+ ": merged output"
                                             +:+ PyStr.LF) else None)
                   ++ [Remove (errpath_of path)])
      else Ret o (mkState (<[errpath_of path := PyStr.join "" post]> (fs s)) rest
                          (counters (counted 1 0 1 s)))
               (failure_report v path post (diff o) ++ tp
                ++ [Exec [cmd; "-p0"] (PyStr.join "" (diff o));
                    Stdout (PurePath.str path +:+ ": merge failed" +:+ PyStr.LF)]))
    as Hrun.
  { intros b Hb. erewrite wrapper_failed_loud by done. rewrite bind_run.
    pose proof (merge_run P v (Some cmd) ans path (errpath_of path) (diff o)
                  (recorded path post s) (PyStr.join "" post)) as Hm.
    rewrite Hm by apply lookup_insert_eq. clear Hm.
    change (default "" (Some cmd)) with cmd.
    cbn [PyStr.truthy_opt]. rewrite Hc.
    change (stdin (recorded path post s)) with (stdin s). rewrite Hy.
    cbn [String.eqb Ascii.eqb Bool.eqb]. rewrite Hb.
    destruct b; rewrite mret_run; cbn [after]; unfold failure_report, recorded;
      cbn [fs stdin counters]; rewrite ?delete_insert_eq, <- ?app_assoc, ?app_nil_r;
      reflexivity. }
  split; [|split].
  - intros Hne. apply (Hrun false). by apply Z.eqb_neq.
  - intros He. apply (Hrun true). by apply Z.eqb_eq.
  - intros args s0 st os Hok Hdisc.
    destruct (main_goes_on P args s0 st os Hok Hdisc) as (s' & t & Hm & Hcalls).
    by eexists _, _, _.
Qed.

Lemma failed_patch_keeps_err_witness :
  testwrapper (Demo.platform Demo.rc [] 1) false false (Some "/usr/bin/patch") (Some "y")
    Demo.a_t (call_test Demo.a_t (Returns Demo.failing)) (Demo.state [])
  = Ret Demo.failing
        (mkState (<["tests/a.t.err" := "y"]> (fs (Demo.state []))) []
                 (mkCounters 1 0 1))
        [Call Demo.a_t; Stdout "!"; Stdout PyStr.LF;
         WriteFile "tests/a.t.err" ["y"]; Stdout "-x"; Stdout "+y";
         Stdout "Accept this change? [yN] "; Stdout ("y" +:+ PyStr.LF);
         Exec ["/usr/bin/patch"; "-p0"] "-x+y";
         Stdout ("tests/a.t: merge failed" +:+ PyStr.LF)]
  /\ testwrapper (Demo.platform Demo.rc [] 0) false false (Some "/usr/bin/patch") (Some "y")
       Demo.a_t (call_test Demo.a_t (Returns Demo.failing)) (Demo.state [])
     = Ret Demo.failing
           (mkState (delete "tests/a.t.err" (fs (Demo.state []))) []
                    (mkCounters 1 0 1))
           [Call Demo.a_t; Stdout "!"; Stdout PyStr.LF;
            WriteFile "tests/a.t.err" ["y"]; Stdout "-x"; Stdout "+y";
            Stdout "Accept this change? [yN] "; Stdout ("y" +:+ PyStr.LF);
            Exec ["/usr/bin/patch"; "-p0"] "-x+y"; Remove "tests/a.t.err"].
Proof.
  split.
  - apply (failed_patch_keeps_err (Demo.platform Demo.rc [] 1) false "/usr/bin/patch"
             (Some "y") Demo.a_t Demo.failing ["x"] ["y"] []
             [Stdout "Accept this change? [yN] "; Stdout ("y" +:+ PyStr.LF)]
             (Demo.state []));
      try reflexivity; discriminate.
  - apply (failed_patch_keeps_err (Demo.platform Demo.rc [] 0) false "/usr/bin/patch"
             (Some "y") Demo.a_t Demo.failing ["x"] ["y"] []
             [Stdout "Accept this change? [yN] "; Stdout ("y" +:+ PyStr.LF)]
             (Demo.state []));
      try reflexivity; discriminate.
Defined.

(** * Further properties *)

(** ** load *)

Section LoadFacts.
Variable repr_ : string -> string.
Variable parser : ConfigParser.
Variable section : string.

Local Abbreviation present name := (has_option parser section name = true).

Lemma load_options_returns config opts :
  (exists config', load_options repr_ parser section config opts = Got config')
  <-> Fetched parser section opts.
Proof.
  unfold Fetched. revert config. induction opts as [|[ty name] opts IH]; intros config.
  { cbn. split; [by constructor|by eexists]. }
  cbn [load_options]. rewrite load_option_cases, List.Forall_cons_iff. cbn [fst snd].
  destruct (has_option parser section name) eqn:Hp.
  - destruct (loaded parser section ty name) as [v|m|e] eqn:Hv.
    + rewrite IH. split; [|by intros [_ ?]]. intros ?. split; [|done]. by eexists.
    + split.
      * intros [c Hc]. by destruct (get parser section name).
      * intros [Hh _]. by destruct (Hh eq_refl).
    + split; [by intros [? ?]|]. intros [Hh _]. by destruct (Hh eq_refl).
  - rewrite IH. split; [|by intros [_ ?]]. intros ?. by split.
Qed.

Lemma load_options_raises config opts e :
  load_options repr_ parser section config opts = Raised e ->
  exists ty name,
    In (ty, name) opts /\ present name
    /\ (loaded parser section ty name = Raised e
        \/ (Rejects parser section ty name /\ get parser section name = Raised e)).
Proof.
  revert config. induction opts as [|[ty name] opts IH]; intros config; [done|].
  cbn [load_options]. rewrite load_option_cases.
  assert (forall c, load_options repr_ parser section c opts = Raised e ->
          exists ty' n', In (ty', n') ((ty, name) :: opts) /\ present n'
            /\ (loaded parser section ty' n' = Raised e
                \/ (Rejects parser section ty' n' /\ get parser section n' = Raised e)))
    as Hrest.
  { intros c Hc. destruct (IH c Hc) as (ty' & n' & Hin & H).
    exists ty', n'. split; [by right|done]. }
  destruct (has_option parser section name) eqn:Hp; [|apply Hrest].
  destruct (loaded parser section ty name) as [v|m|e'] eqn:Hv; [apply Hrest| |].
  - destruct (get parser section name) as [value|m'|e'] eqn:Hg; [done|done|].
    intros [= ->]. exists ty, name. split; [by left|]. split; [done|].
    right. split; [by exists m|done].
  - intros [= ->]. exists ty, name. split; [by left|]. split; [done|]. by left.
Qed.

Lemma load_options_invalid config opts msg :
  load_options repr_ parser section config opts = ValueError msg ->
  exists ty name,
    In (ty, name) opts /\ present name /\ Rejects parser section ty name
    /\ (get parser section name = ValueError msg
        \/ exists value,
             get parser section name = Got value
             /\ msg = load_error repr_ parser ty name value).
Proof.
  revert config. induction opts as [|[ty name] opts IH]; intros config; [done|].
  cbn [load_options]. rewrite load_option_cases.
  assert (forall c, load_options repr_ parser section c opts = ValueError msg ->
          exists ty' n', In (ty', n') ((ty, name) :: opts) /\ present n'
            /\ Rejects parser section ty' n'
            /\ (get parser section n' = ValueError msg
                \/ exists value,
                     get parser section n' = Got value
                     /\ msg = load_error repr_ parser ty' n' value))
    as Hrest.
  { intros c Hc. destruct (IH c Hc) as (ty' & n' & Hin & H).
    exists ty', n'. split; [by right|done]. }
  destruct (has_option parser section name) eqn:Hp; [|apply Hrest].
  destruct (loaded parser section ty name) as [v|m|e'] eqn:Hv; [apply Hrest| |done].
  destruct (get parser section name) as [value|m'|e'] eqn:Hg; [| |done].
  - intros [= <-]. exists ty, name. split; [by left|]. split; [done|].
    split; [by exists m|]. right. by exists value.
  - intros [= ->]. exists ty, name. split; [by left|]. split; [done|].
    split; [by exists m|]. by left.
Qed.

(** X1. When [load] returns and when it raises.  (1) It returns a
    dictionary exactly when the file is read and, if it has the section,
    every supported option present in it is fetched by the method of its
    type.  (2) An exception it raises that is not a [ValueError] is one the
    parser raised: in reading the file, in fetching a supported option that
    is present, or in getting the raw value of a rejected option for the
    message; [load] lets it out as it is.  (3) A [ValueError] it raises
    comes from reading the file or from a supported option that is present
    and rejected; its message is that of [load] for this option, made of the
    name and the raw value, unless getting the raw value raises itself. *)
Theorem load_fails_iff opts :
  ((exists config, load repr_ parser section opts = Got config)
   <-> read parser = Got tt
       /\ (has_section parser section = true -> Fetched parser section opts))
  /\ (forall e,
        load repr_ parser section opts = Raised e ->
        read parser = Raised e
        \/ (has_section parser section = true
            /\ exists ty name,
                 In (ty, name) opts /\ present name
                 /\ (loaded parser section ty name = Raised e
                     \/ (Rejects parser section ty name
                         /\ get parser section name = Raised e))))
  /\ (forall msg,
        load repr_ parser section opts = ValueError msg ->
        read parser = ValueError msg
        \/ (has_section parser section = true
            /\ exists ty name,
                 In (ty, name) opts /\ present name
                 /\ Rejects parser section ty name
                 /\ (get parser section name = ValueError msg
                     \/ exists value,
                          get parser section name = Got value
                          /\ msg = load_error repr_ parser ty name value))).
Proof.
  unfold load. destruct (read parser) as [[]|m|e'].
  2:{ split; [split; [by intros [? ?]|by intros [? _]]|].
      split; [done|]. intros msg [= ->]. by left. }
  2:{ split; [split; [by intros [? ?]|by intros [? _]]|].
      split; [|done]. intros e [= ->]. by left. }
  destruct (has_section parser section); cbn [negb].
  - split; [|split].
    + rewrite load_options_returns. split; [by split|]. intros [_ H]. by apply H.
    + intros e He. right. split; [done|]. by eapply load_options_raises.
    + intros msg Hm. right. split; [done|]. by eapply load_options_invalid.
  - split; [|by split]. split; [by split|]. intros _. by eexists.
Qed.

Lemma load_options_keys config config' opts name :
  load_options repr_ parser section config opts = Got config' ->
  is_Some (config' !! name)
  <-> is_Some (config !! name) \/ ((exists ty, In (ty, name) opts) /\ present name).
Proof.
  revert config. induction opts as [|[ty n] opts IH]; intros config.
  { cbn. intros [= <-]. split; [by left|]. by intros [?|[[? []] _]]. }
  cbn [load_options]. rewrite load_option_cases.
  destruct (has_option parser section n) eqn:Hp.
  - destruct (loaded parser section ty n) as [v|m|e];
      [|by destruct (get parser section n)|done].
    intros Hl. rewrite (IH _ Hl). rewrite lookup_insert_is_Some. split.
    + intros [[->|[_ ?]]|[[ty' Hin] Hp']].
      * right. split; [|done]. exists ty. by left.
      * by left.
      * right. split; [|done]. exists ty'. by right.
    + intros [Hs|[[ty' [[= <- <-]|Hin]] Hp']].
      * left. destruct (decide (n = name)); [by left|by right].
      * left. by left.
      * right. split; [by exists ty'|done].
  - intros Hl. rewrite (IH _ Hl). split.
    + intros [?|[[ty' Hin] Hp']]; [by left|].
      right. split; [|done]. exists ty'. by right.
    + intros [?|[[ty' [[= <- <-]|Hin]] Hp']]; [by left| |].
      * by rewrite Hp in Hp'.
      * right. split; [by exists ty'|done].
Qed.

(** X2. The keys of the dictionary [load] returns are exactly the supported
    options that are present in the section: an option of the file that is
    not supported is ignored, and without the section there is no key. *)
Theorem load_keys opts config name :
  load repr_ parser section opts = Got config ->
  is_Some (config !! name)
  <-> has_section parser section = true
      /\ (exists ty, In (ty, name) opts) /\ present name.
Proof.
  unfold load. destruct (read parser) as [[]|m|e]; [|done|done].
  destruct (has_section parser section); cbn [negb].
  - intros Hl. rewrite (load_options_keys _ _ _ _ Hl), lookup_empty. split.
    + intros [[? ?]|?]; [done|by split].
    + intros [_ ?]. by right.
  - intros [= <-]. rewrite lookup_empty. split; [by intros [? ?]|by intros [? _]].
Qed.

Lemma load_options_other config config' opts name :
  load_options repr_ parser section config opts = Got config' ->
  ~ In name (map snd opts) ->
  config' !! name = config !! name.
Proof.
  revert config. induction opts as [|[ty n] opts IH]; intros config.
  { cbn. by intros [= <-]. }
  cbn [load_options map snd]. rewrite load_option_cases. intros Hl Hn.
  assert (n <> name /\ ~ In name (map snd opts)) as [Hne Hn'].
  { split; intros ?; apply Hn; [by left|by right]. }
  destruct (has_option parser section n).
  - destruct (loaded parser section ty n) as [v|m|e];
      [|by destruct (get parser section n)|done].
    rewrite (IH _ Hl Hn'). by apply lookup_insert_ne.
  - by apply IH.
Qed.

Lemma load_options_value config config' opts ty name :
  load_options repr_ parser section config opts = Got config' ->
  List.NoDup (map snd opts) ->
  In (ty, name) opts ->
  present name ->
  exists v, loaded parser section ty name = Got v /\ config' !! name = Some v.
Proof.
  revert config. induction opts as [|[ty' n] opts IH]; intros config; [done|].
  cbn [load_options map snd]. rewrite load_option_cases.
  intros Hl Hnd [[= -> ->]|Hin] Hp.
  - rewrite Hp in Hl.
    destruct (loaded parser section ty name) as [v|m|e];
      [|by destruct (get parser section name)|done].
    apply List.NoDup_cons_iff in Hnd as [Hnotin _].
    exists v. split; [done|].
    rewrite (load_options_other _ _ _ _ Hl Hnotin). apply lookup_insert_eq.
  - apply List.NoDup_cons_iff in Hnd as [_ Hnd].
    destruct (has_option parser section n).
    + destruct (loaded parser section ty' n) as [v|m|e];
        [|by destruct (get parser section n)|done].
      by eapply IH.
    + by eapply IH.
Qed.

(** X3. When [load] returns a dictionary for options with distinct names,
    the value under a supported option present in the file is the one its
    type reads: the boolean of [getboolean] for a [bool] option, the integer
    of [getint] for an [int] option, the raw string of [get] otherwise. *)
Theorem load_values opts config ty name :
  has_section parser section = true ->
  List.NoDup (map snd opts) ->
  load repr_ parser section opts = Got config ->
  In (ty, name) opts ->
  present name ->
  match ty with
  | TBool => exists b, getboolean parser section name = Got b
                       /\ config !! name = Some (VBool b)
  | TInt => exists n, getint parser section name = Got n
                      /\ config !! name = Some (VInt n)
  | TOther => exists v, get parser section name = Got v
                        /\ config !! name = Some (VStr v)
  end.
Proof.
  intros Hs Hnd Hl Hin Hp. unfold load in Hl.
  destruct (read parser) as [[]|m|e]; [|done|done].
  rewrite Hs in Hl. cbn [negb] in Hl.
  destruct (load_options_value _ _ _ _ _ Hl Hnd Hin Hp) as (v & Hv & Hsome).
  unfold loaded, dispatcher in Hv. destruct ty; cbn [fst] in Hv.
  - destruct (getboolean parser section name) as [b|m|e]; [|done|done].
    injection Hv as <-. by exists b.
  - destruct (getint parser section name) as [n|m|e]; [|done|done].
    injection Hv as <-. by exists n.
  - destruct (get parser section name) as [x|m|e]; [|done|done].
    injection Hv as <-. by exists x.
Qed.

(** X4. The error [load] itself raises is that of the first supported
    option, in the order of the parser, whose value is rejected, the ones
    before it being fetched: its message names the option and shows [repr]
    of the raw value; later options are not read. *)
Theorem load_first_error before ty name later value :
  read parser = Got tt ->
  has_section parser section = true ->
  Fetched parser section before ->
  present name ->
  Rejects parser section ty name ->
  get parser section name = Got value ->
  load repr_ parser section (before ++ (ty, name) :: later)
  = ValueError (load_error repr_ parser ty name value).
Proof.
  intros Hread Hs Hb Hp Hr Hg. unfold load. rewrite Hread, Hs. cbn [negb].
  by apply load_options_rejected.
Qed.
End LoadFacts.

(** ** _which *)

Section WhichFacts.
Variable P : Platform.

Lemma which_in_some dirs cmd r :
  _which_in P dirs cmd = Some r
  <-> exists before p later,
        dirs = before ++ p :: later
        /\ Forall (fun d => is_executable_file P (os_path_join d cmd) = false) before
        /\ is_executable_file P (os_path_join p cmd) = true
        /\ r = abspath P (os_path_join p cmd).
Proof.
  induction dirs as [|d dirs IH]; cbn [_which_in].
  { split; [done|]. intros (before & p & later & Hd & _). by destruct before. }
  destruct (is_executable_file P (os_path_join d cmd)) eqn:Hx.
  - split.
    + intros [= <-]. exists [], d, dirs. by repeat split.
    + intros (before & p & later & Hd & Hb & Hp & ->).
      destruct before as [|d' before]; simplify_eq/=; [done|].
      apply List.Forall_cons_iff in Hb as [Hb _]. congruence.
  - rewrite IH. split.
    + intros (before & p & later & -> & Hb & Hp & ->).
      exists (d :: before), p, later. split; [done|]. split; [|done].
      by apply List.Forall_cons.
    + intros (before & p & later & Hd & Hb & Hp & ->).
      destruct before as [|d' before]; simplify_eq/=; [congruence|].
      apply List.Forall_cons_iff in Hb as [_ Hb]. by exists before, p, later.
Qed.

Lemma which_in_none dirs cmd :
  _which_in P dirs cmd = None
  <-> Forall (fun d => is_executable_file P (os_path_join d cmd) = false) dirs.
Proof.
  induction dirs as [|d dirs IH]; cbn [_which_in]; [by split|].
  destruct (is_executable_file P (os_path_join d cmd)) eqn:Hx.
  - split; [done|]. intros [Hd _]%List.Forall_cons_iff. congruence.
  - rewrite IH. split; [by apply List.Forall_cons|by intros [_ ?]%List.Forall_cons_iff].
Qed.

(** X5. When PATH is set, [_which] answers with the first directory of
    PATH, in its order, under which the command is an executable file, and
    with the absolute path of that file; it answers [None] exactly when PATH
    is set and no directory of it has one. *)
Theorem which_first_match cmd :
  (forall r,
      _which P cmd = Got (Some r)
      <-> exists path before p later,
            environ_PATH P = Some path
            /\ PyStr.split ":" path = before ++ p :: later
            /\ Forall (fun d => is_executable_file P (os_path_join d cmd) = false) before
            /\ is_executable_file P (os_path_join p cmd) = true
            /\ r = abspath P (os_path_join p cmd))
  /\ (_which P cmd = Got None
      <-> exists path,
            environ_PATH P = Some path
            /\ Forall (fun d => is_executable_file P (os_path_join d cmd) = false)
                      (PyStr.split ":" path)).
Proof.
  unfold _which. destruct (environ_PATH P) as [path|].
  - split.
    + intros r. split.
      * intros [= Hw]. apply which_in_some in Hw as (before & p & later & H).
        by exists path, before, p, later.
      * intros (path' & before & p & later & [= <-] & H). f_equal.
        apply which_in_some. by exists before, p, later.
    + split.
      * intros [= Hw]. apply which_in_none in Hw. by exists path.
      * intros (path' & [= <-] & H). f_equal. by apply which_in_none.
  - split; [intros r|]; (split; [done|]).
    + by intros (? & ? & ? & ? & ? & _).
    + by intros (? & ? & _).
Qed.

Lemma split_not_nil sep s : PyStr.split sep s <> [].
Proof.
  destruct s as [|c s]; cbn [PyStr.split]; [done|].
  destruct (Ascii.eqb c sep); [done|]. by destruct (PyStr.split sep s).
Qed.

Lemma which_in_same dirs cmd file :
  dirs <> [] ->
  Forall (fun d => os_path_join d cmd = file) dirs ->
  _which_in P dirs cmd
  = if is_executable_file P file then Some (abspath P file) else None.
Proof.
  intros Hne Hall. destruct dirs as [|d dirs]; [done|]. clear Hne.
  revert d Hall. induction dirs as [|d' dirs IH]; intros d Hall.
  - apply List.Forall_cons_iff in Hall as [Hd _]. cbn [_which_in]. rewrite Hd.
    by destruct (is_executable_file P file).
  - apply List.Forall_cons_iff in Hall as [Hd Hall].
    change (_which_in P (d :: d' :: dirs) cmd)
      with (if is_executable_file P (os_path_join d cmd)
            then Some (abspath P (os_path_join d cmd))
            else _which_in P (d' :: dirs) cmd).
    rewrite Hd, (IH d' Hall). by destruct (is_executable_file P file).
Qed.

(** X6. PATH must be set, whatever the command: when it is not, [_which]
    raises [KeyError], also for a command given as an absolute path.  When
    PATH is set, its content does not matter for a command given as an
    absolute path: [_which] answers with that file when it is an executable
    file and with [None] otherwise.  With PATH set to the empty string any
    command is looked up as it stands, that is in the current directory. *)
Theorem which_without_path cmd :
  (environ_PATH P = None -> _which P cmd = Raised "KeyError")
  /\ (forall path,
        environ_PATH P = Some path ->
        PyStr.startswith cmd "/" = true ->
        _which P cmd
        = Got (if is_executable_file P cmd then Some (abspath P cmd) else None))
  /\ (environ_PATH P = Some "" ->
      _which P cmd
      = Got (if is_executable_file P cmd then Some (abspath P cmd) else None)).
Proof.
  unfold _which. split; [by intros ->|split].
  - intros path -> Habs. f_equal. apply which_in_same; [apply split_not_nil|].
    apply List.Forall_forall. intros d _. unfold os_path_join. by rewrite Habs.
  - intros ->. f_equal. cbn [PyStr.split _which_in].
    assert (os_path_join "" cmd = cmd) as ->.
    { unfold os_path_join. by destruct (PyStr.startswith cmd "/"). }
    by destruct (is_executable_file P cmd).
Qed.
End WhichFacts.

(** ** _conflicts *)

Lemma conflicts_none_yes_no st : _conflicts st = None -> yes st && no st = false.
Proof.
  unfold _conflicts. by destruct (yes st), (no st).
Qed.

(** X7. [_conflicts] answers [None] exactly when none of its six pairs of
    settings is set together: --yes with --no, --quiet with --interactive,
    and --debug with any of --quiet, --interactive, --verbose and a
    non-empty --xunit-file.  Otherwise it answers one of these six pairs of
    option names, and --yes with --no comes before every other clash. *)
Theorem conflicts_cases st :
  (_conflicts st = None
   <-> yes st && no st = false
       /\ quiet st && interactive st = false
       /\ debug st && (quiet st || interactive st || verbose st
                       || PyStr.truthy_opt (xunit_file st)) = false)
  /\ (forall a b,
        _conflicts st = Some (a, b) ->
        In (a, b) [("--yes", "--no"); ("--quiet", "--interactive");
                   ("--debug", "--quiet"); ("--debug", "--interactive");
                   ("--debug", "--verbose"); ("--debug", "--xunit-file")])
  /\ (yes st && no st = true -> _conflicts st = Some ("--yes", "--no")).
Proof.
  unfold _conflicts.
  destruct (yes st), (no st), (quiet st), (interactive st), (debug st), (verbose st),
    (PyStr.truthy_opt (xunit_file st));
    cbn [first_conflict andb orb];
    (split; [split; [try done; by intros (? & ? & ?)|try done; by intros (? & ? & ?)]|]);
    (split; [|done]); intros a b Hab; simplify_eq; cbn; tauto.
Qed.

(** ** _env_args *)

(** X8. [_env_args] reads the variable from the environment it is given,
    strips it and splits it: it gives what [shlex.split] gives, words or
    exception.  A variable that is not set gives the split of the empty
    string.  An empty environment counts as none: the process environment is
    read instead; a non-empty one hides the process environment altogether,
    also for a variable it does not set. *)
Theorem env_args_environment {R} (shlex_split_ : string -> R) os_environ var :
  _env_args shlex_split_ os_environ var (Some ∅)
  = _env_args shlex_split_ os_environ var None
  /\ (forall env,
        env <> ∅ -> env !! var = None ->
        _env_args shlex_split_ os_environ var (Some env) = shlex_split_ "")
  /\ (forall env value,
        env !! var = Some value ->
        _env_args shlex_split_ os_environ var (Some env)
        = shlex_split_ (PyStr.strip value))
  /\ (os_environ !! var = None ->
      _env_args shlex_split_ os_environ var None = shlex_split_ "").
Proof.
  unfold _env_args. split; [|split; [|split]].
  - by rewrite bool_decide_true.
  - intros env Hne Hv. rewrite bool_decide_false by done. by rewrite Hv.
  - intros env value Hv.
    rewrite bool_decide_false by (intros ->; by rewrite lookup_empty in Hv).
    by rewrite Hv.
  - by intros ->.
Qed.

(** ** _prompt *)

Lemma prompt_loop_eof question answers :
  _prompt_loop question answers None []
  = match PyStr.uppers answers with
    | d :: _ => Some (PyStr.of_char d, [], [Stdout (prompt_text question answers); Readline])
    | [] => None
    end.
Proof. reflexivity. Qed.

Lemma prompt_loop_step question answers line rest :
  _prompt_loop question answers None (line :: rest)
  = if acceptable answers line then
      Some (PyStr.lower (PyStr.strip line), rest,
            [Stdout (prompt_text question answers); Readline])
    else
      match (if PyStr.truthy (PyStr.lower (PyStr.strip line)) then None
             else head (PyStr.uppers answers)) with
      | Some d =>
          Some (PyStr.of_char d, rest, [Stdout (prompt_text question answers); Readline])
      | None =>
          match _prompt_loop question answers None rest with
          | Some (a, rest', t) =>
              Some (a, rest', Stdout (prompt_text question answers) :: Readline :: t)
          | None => None
          end
      end.
Proof.
  rewrite prompt_loop_line. cbv zeta. unfold acceptable.
  destruct (PyStr.truthy (PyStr.lower (PyStr.strip line))); cbn [negb andb].
  - by destruct (PyStr.contains _ _).
  - by destruct (head (PyStr.uppers answers)).
Qed.

(** X9. The prompt never returns exactly when no answer is given in
    advance, the accepted answers hold no upper-case letter (no default), and
    no line left on the standard input is an accepted answer: it then asks
    again for ever at end of file.  In every other case it returns. *)
Theorem prompt_hangs_iff question answers auto s :
  _prompt question answers auto s = Hang
  <-> auto = None
      /\ PyStr.uppers answers = []
      /\ Forall (fun line => acceptable answers line = false) (stdin s).
Proof.
  unfold _prompt. destruct auto as [a|].
  { rewrite prompt_loop_auto. split; [done|by intros [? _]]. }
  assert (_prompt_loop question answers None (stdin s) = None
          <-> PyStr.uppers answers = []
              /\ Forall (fun line => acceptable answers line = false) (stdin s)) as <-.
  { induction (stdin s) as [|line rest IH].
    - rewrite prompt_loop_eof. destruct (PyStr.uppers answers); [|by split; [|intros [? _]]].
      by split.
    - rewrite prompt_loop_step. destruct (acceptable answers line) eqn:Ha.
      { split; [done|]. intros [_ [? _]%List.Forall_cons_iff]. congruence. }
      destruct (PyStr.truthy _).
      + destruct (_prompt_loop question answers None rest) as [[[a r] t]|].
        * split; [done|]. intros [Hu [_ Hr]%List.Forall_cons_iff].
          by destruct IH as [_ IH]; specialize (IH (conj Hu Hr)).
        * destruct IH as [IH _]. destruct (IH eq_refl) as [Hu Hr].
          split; [|done]. intros _. split; [done|]. by apply List.Forall_cons.
      + destruct (PyStr.uppers answers) as [|d ds] eqn:Hu; cbn [head].
        * destruct (_prompt_loop question answers None rest) as [[[a r] t]|].
          -- split; [done|]. intros [_ [_ Hr]%List.Forall_cons_iff].
             by destruct IH as [_ IH]; specialize (IH (conj eq_refl Hr)).
          -- destruct IH as [IH _]. destruct (IH eq_refl) as [_ Hr].
             split; [|done]. intros _. split; [done|]. by apply List.Forall_cons.
        * split; [done|]. by intros [? _]. }
  destruct (_prompt_loop question answers None (stdin s)) as [[[a r] t]|].
  - split; [done|by intros [_ ?]].
  - by split.
Qed.

(** X10. What the prompt returns without an answer given in advance.  The
    lines it reads before the last one are all rejected (and empty ones only
    when there is no default); each question is followed by exactly one
    read.  The answer is the last line read, stripped and lower-cased, when
    that line is accepted; otherwise it is the first upper-case letter of the
    answers, returned for a line that is empty once stripped or at end of
    file.  The lines after the last one read are left on the input. *)
Theorem prompt_returns_valid question answers lines a rest t :
  _prompt_loop question answers None lines = Some (a, rest, t) ->
  exists before,
    t = List.concat (List.repeat [Stdout (prompt_text question answers); Readline]
                                 (S (length before)))
    /\ Forall (fun line =>
                 acceptable answers line = false
                 /\ (PyStr.truthy (PyStr.lower (PyStr.strip line)) = false ->
                     PyStr.uppers answers = [])) before
    /\ ((exists line,
           lines = before ++ line :: rest
           /\ acceptable answers line = true
           /\ a = PyStr.lower (PyStr.strip line))
        \/ (exists d line,
              head (PyStr.uppers answers) = Some d /\ a = PyStr.of_char d
              /\ lines = before ++ line :: rest
              /\ PyStr.truthy (PyStr.lower (PyStr.strip line)) = false)
        \/ (exists d,
              head (PyStr.uppers answers) = Some d /\ a = PyStr.of_char d
              /\ lines = before /\ rest = [])).
Proof.
  revert a rest t. induction lines as [|line lines IH]; intros a rest t.
  { rewrite prompt_loop_eof. destruct (PyStr.uppers answers) as [|d ds] eqn:Hu; [done|].
    intros [= <- <- <-]. exists []. split; [done|]. split; [done|].
    right. right. by exists d. }
  rewrite prompt_loop_step. destruct (acceptable answers line) eqn:Ha.
  { intros [= <- <- <-]. exists []. split; [done|]. split; [done|].
    left. by exists line. }
  destruct (PyStr.truthy (PyStr.lower (PyStr.strip line))) eqn:Ht.
  - destruct (_prompt_loop question answers None lines) as [[[a' r'] t']|] eqn:Hl; [|done].
    intros [= <- <- <-]. destruct (IH _ _ _ eq_refl) as (before & -> & Hb & Hend).
    exists (line :: before). split; [done|].
    split; [apply List.Forall_cons; [split; [exact Ha|intros ?; congruence]|done]|].
    destruct Hend as [(l & -> & ? & ?)|[(d & l & ? & ? & -> & ?)|(d & ? & ? & -> & ->)]].
    + left. by exists l.
    + right. left. by exists d, l.
    + right. right. by exists d.
  - destruct (head (PyStr.uppers answers)) as [d|] eqn:Hd.
    + intros [= <- <- <-]. exists []. split; [done|]. split; [done|].
      right. left. by exists d, line.
    + destruct (_prompt_loop question answers None lines) as [[[a' r'] t']|] eqn:Hl;
        [|done].
      intros [= <- <- <-]. destruct (IH _ _ _ eq_refl) as (before & -> & Hb & Hend).
      exists (line :: before). split; [done|].
      split.
      { apply List.Forall_cons; [|done]. split; [done|]. intros _.
        by destruct (PyStr.uppers answers). }
      destruct Hend as [(l & -> & ? & ?)|[(d & l & ? & ? & -> & ?)|(d & ? & ? & -> & ->)]].
      * left. by exists l.
      * right. left. by exists d, l.
      * right. right. by exists d.
Qed.

(** ** The run of main, unfolded *)

Lemma summary_exact v s : summary v s = Ret tt s (summary_events v (counters s)).
Proof.
  unfold summary, summary_events, summary_line.
  rewrite bind_run. unfold get_counters, when. cbn [after app].
  destruct (bool_decide _); [|done].
  rewrite bind_run, !log_run. cbn [after]. by rewrite app_nil_l.
Qed.

Section Unfolded.
Variable P : Platform.
Variables (st : Settings) (sh : list string) (pc ans : option string).

Local Abbreviation found :=
  (runtests P (tests st) (mkdtemp P) sh (indent st) (negb (preserve_env st)) (debug st)).

Lemma verdict_exact (r : bool * bool) s :
  (if negb (fst r)
   then (stderr_write ("no tests found" +:+ PyStr.LF);; mret 2 : M Z)
   else mret (if snd r then 1 else 0)) s
  = Ret (verdict r) s (no_tests_events (fst r)).
Proof. destruct r as [[] f]; reflexivity. Qed.

Lemma try_debug s :
  debug st = true ->
  main_try P st sh pc ans s
  = match main_loop (gen_items (tests_of found)) false false s with
    | Ret r s2 t2 => Ret (verdict r) s2 (t2 ++ no_tests_events (fst r))
    | Exc e s2 t2 => Exc e s2 t2
    | Hang => Hang
    end.
Proof.
  intros Hd. unfold main_try. cbv zeta. rewrite Hd. cbn [negb].
  rewrite bind_run. unfold iterate.
  change (gen_start (tests_of ?x)) with (mret tt : M unit).
  change (gen_finish (tests_of ?x)) with (mret tt : M unit).
  steps. destruct (main_loop _ false false s) as [r s2 t2|e s2 t2|]; [|done|done].
  steps. rewrite verdict_exact. cbn [after]. by rewrite !app_nil_r.
Qed.

Lemma try_wrapped s :
  debug st = false ->
  main_try P st sh pc ans s
  = match main_loop (gen_items (runcli P (quiet st) (verbose st) pc ans (tests_of found)))
                    false false (reset s) with
    | Ret r s2 t2 =>
        Ret (verdict r) s2
            (t2 ++ summary_events (verbose st) (counters s2) ++ xunit_events st
             ++ no_tests_events (fst r))
    | Exc e s2 t2 => Exc e s2 t2
    | Hang => Hang
    end.
Proof.
  intros Hd. unfold main_try. cbv zeta. rewrite Hd. cbn [negb].
  rewrite bind_run. unfold iterate.
  set (g := runcli P (quiet st) (verbose st) pc ans (tests_of _)).
  assert (gen_start match xunit_file st with Some f => runxunit g f | None => g end
          = gen_start g) as -> by (by destruct (xunit_file st)).
  assert (gen_items match xunit_file st with Some f => runxunit g f | None => g end
          = gen_items g) as -> by (by destruct (xunit_file st)).
  assert (forall s2,
    gen_finish match xunit_file st with Some f => runxunit g f | None => g end s2
    = Ret tt s2 (summary_events (verbose st) (counters s2) ++ xunit_events st)) as Hfin.
  { intros s2. unfold xunit_events. destruct (xunit_file st) as [file|].
    - cbn [runxunit gen_finish]. subst g. cbn [runcli gen_finish tests_of].
      steps. rewrite summary_exact. steps. unfold emit.
      by rewrite ?app_nil_l, ?app_nil_r.
    - subst g. cbn [runcli gen_finish tests_of]. steps. rewrite summary_exact.
      cbn [after]. by rewrite ?app_nil_l, ?app_nil_r. }
  subst g. cbn [runcli gen_start tests_of]. steps. unfold set_counters at 1.
  cbn [after]. steps. fold (reset s).
  destruct (main_loop _ false false (reset s)) as [r s2 t2|e s2 t2|]; [|done|done].
  steps. rewrite Hfin. steps. rewrite verdict_exact. cbn [after].
  by rewrite ?app_nil_l, ?app_nil_r, <- ?app_assoc.
Qed.

Lemma main_run_exact s :
  main_run P st sh pc ans s
  = match main_try P st sh pc ans s with
    | Ret code s' t => Ret code s' (sandbox_setup P ++ t ++ [sandbox_teardown P st])
    | Exc e s' t => Exc e s' (sandbox_setup P ++ t ++ [sandbox_teardown P st])
    | Hang => Hang
    end.
Proof.
  rewrite main_run_shape. unfold try_finally.
  destruct (main_try P st sh pc ans s) as [code s' t|e s' t|]; [| |done];
    by rewrite finally_run.
Qed.
End Unfolded.

(** ** Invariants of a run *)

Section Invariant.
Variable Q : Event -> bool.
Variable R : State -> State -> Prop.
Hypothesis R_refl : forall s, R s s.
Hypothesis R_trans : forall s1 s2 s3, R s1 s2 -> R s2 s3 -> R s1 s3.

Lemma kept_after {A} s s' t (r : Res A) :
  forallb Q t = true -> R s s' -> kept Q R s' r -> kept Q R s (after t r).
Proof.
  destruct r as [a s2 t2|e s2 t2|]; cbn [after kept]; [| |done];
    intros Ht Hs [Ht2 Hs2]; rewrite forallb_app, Ht, Ht2; eauto.
Qed.

Lemma kept_bind {A B} (m : M A) (f : A -> M B) s :
  kept Q R s (m s) -> (forall a s', kept Q R s' (f a s')) -> kept Q R s ((m ≫= f) s).
Proof.
  intros Hm Hf. rewrite bind_run. destruct (m s) as [a s' t|e s' t|]; [|done|done].
  destruct Hm as [Ht Hs]. by apply (kept_after s s').
Qed.

Lemma kept_loop items :
  Forall (fun it => forall s, kept Q R s (snd it s)) items ->
  forall h f s, kept Q R s (main_loop items h f s).
Proof.
  induction 1 as [|[path test] items Hit _ IH]; intros h f s; [by split|].
  cbn [main_loop]. apply kept_bind; [apply Hit|]. intros o s'. apply IH.
Qed.

Section Run.
Variable P : Platform.
Variables (st : Settings) (sh : list string) (pc ans : option string).
Hypothesis Q_stdout : forall m, Q (Stdout m) = true.
Hypothesis Q_stderr : forall m, Q (Stderr m) = true.
Hypothesis Q_xunit : forall file, Q (Xunit file) = true.
Hypothesis R_reset : forall s, R s (reset s).

Local Abbreviation found :=
  (runtests P (tests st) (mkdtemp P) sh (indent st) (negb (preserve_env st)) (debug st)).

Hypothesis tests_kept :
  Forall (fun pb =>
            forall s,
              kept Q R s
                (if debug st then call_test (fst pb) (snd pb) s
                 else testwrapper P (quiet st) (verbose st) pc ans (fst pb)
                        (call_test (fst pb) (snd pb)) s))
         found.

Lemma Q_shown msg : forallb Q (shown msg) = true.
Proof.
  destruct msg as [m|]; [|done]. cbn. destruct (PyStr.truthy m); [|done].
  cbn. by rewrite Q_stdout.
Qed.

Lemma Q_tail v c r :
  forallb Q (summary_events v c ++ xunit_events st ++ no_tests_events r) = true.
Proof.
  rewrite !forallb_app. unfold summary_events, xunit_events, no_tests_events.
  destruct (bool_decide _), (xunit_file st), r; cbn;
    rewrite ?forallb_app, ?Q_shown, ?Q_xunit, ?Q_stderr; cbn;
    by rewrite ?Q_stdout.
Qed.

Lemma try_kept s : kept Q R s (main_try P st sh pc ans s).
Proof.
  assert (debug st = true \/ debug st = false) as [Hd|Hd]
    by (destruct (debug st); auto).
  - rewrite try_debug by done.
    assert (kept Q R s (main_loop (gen_items (tests_of found)) false false s)) as Hl.
    { apply kept_loop. cbn [tests_of gen_items]. apply List.Forall_map.
      eapply List.Forall_impl; [|exact tests_kept].
      intros pb H s'. specialize (H s'). by rewrite Hd in H. }
    destruct (main_loop _ false false s) as [r s2 t2|e s2 t2|]; [|done|done].
    destruct Hl as [Ht Hs]. split; [|done]. rewrite forallb_app, Ht.
    unfold no_tests_events. destruct (fst r); [done|]. cbn. by rewrite Q_stderr.
  - rewrite try_wrapped by done.
    assert (kept Q R (reset s)
              (main_loop (gen_items (runcli P (quiet st) (verbose st) pc ans
                                            (tests_of found))) false false (reset s)))
      as Hl.
    { apply kept_loop. cbn [runcli tests_of gen_items]. rewrite List.map_map.
      apply List.Forall_map. eapply List.Forall_impl; [|exact tests_kept].
      intros pb H s'. specialize (H s'). by rewrite Hd in H. }
    destruct (main_loop _ false false (reset s)) as [r s2 t2|e s2 t2|]; [| |done].
    + destruct Hl as [Ht Hs].
      split; [|eapply R_trans; [apply R_reset|exact Hs]].
      by rewrite forallb_app, Ht, Q_tail.
    + destruct Hl as [Ht Hs].
      split; [done|eapply R_trans; [apply R_reset|exact Hs]].
Qed.

Lemma main_run_kept s :
  exists s' t,
    forallb Q t = true /\ R s s'
    /\ ((exists code,
           main_run P st sh pc ans s
           = Ret code s' (sandbox_setup P ++ t ++ [sandbox_teardown P st]))
        \/ (exists e,
           main_run P st sh pc ans s
           = Exc e s' (sandbox_setup P ++ t ++ [sandbox_teardown P st]))).
Proof.
  rewrite main_run_exact. pose proof (try_kept s) as Hk.
  destruct (main_try P st sh pc ans s) as [code s' t|e s' t|]; [| |done];
    destruct Hk as [Ht Hs]; exists s', t; eauto.
Qed.
End Run.
End Invariant.

(** ** The wrapper, case by case *)

Section WrapperShape.
Variable P : Platform.
Variables (q v : bool) (pc ans : option string).
Variable path : Path.

Local Abbreviation wrapper b := (testwrapper P q v pc ans path (call_test path b)).

Lemma shown_plain msg : forallb is_plain (shown msg) = true.
Proof. destruct msg as [m|]; [|done]. cbn. by destruct (PyStr.truthy m). Qed.

Lemma map_Stdout_plain d : forallb is_plain (map Stdout d) = true.
Proof. by induction d. Qed.

(** Either the wrapper ends without a merge, in [wrapped_state], or the
    test fails with [quiet] off and everything up to the merge is done. *)
Lemma wrapper_shape o s :
  exists pre,
    forallb is_plain pre = true
    /\ (wrapper (Returns o) s = Ret o (wrapped_state path o s) pre
        \/ (q = false /\ is_fail o = true
            /\ exists post,
                 postout o = Some post
                 /\ wrapped_state path o s = recorded path post s
                 /\ wrapper (Returns o) s
                    = after pre ((merge P v pc ans path (errpath_of path) (diff o);;
                                  mret o) (recorded path post s)))).
Proof.
  unfold wrapped_state, file_effect, is_fail, is_skip, has_diff.
  destruct (refout o) as [r|] eqn:Hr.
  2:{ rewrite wrapper_empty by done. eexists. split; [|by left].
      rewrite forallb_app, shown_plain. done. }
  destruct (postout o) as [post|] eqn:Hp.
  2:{ erewrite wrapper_skipped by done. eexists. split; [|by left].
      rewrite forallb_app, shown_plain. done. }
  destruct (diff o) as [|d ds] eqn:Hd.
  { erewrite wrapper_passed by done. eexists. split; [|by left].
    rewrite !forallb_app, shown_plain. cbn. by destruct (bool_decide _). }
  assert (diff o <> []) as Hne by (by rewrite Hd).
  assert (q = true \/ q = false) as [Hq|Hq] by (destruct q; auto).
  { erewrite wrapper_failed_quiet by done. eexists. split; [|by left].
    rewrite forallb_app, shown_plain. done. }
  erewrite wrapper_failed_loud by done. eexists. split; [|right].
  2:{ split; [done|]. split; [done|]. exists post. split; [done|].
      split; [done|]. by rewrite Hd. }
  rewrite ?Hd, !forallb_app, shown_plain. cbn [forallb is_plain andb].
  change (forallb is_plain (map Stdout ds))
    with (forallb is_plain (map Stdout ds)).
  rewrite ?forallb_app. cbn [forallb is_plain andb map].
  rewrite ?map_Stdout_plain. by destruct v.
Qed.

Lemma recorded_lookup post s :
  fs (recorded path post s) !! errpath_of path = Some (PyStr.join "" post).
Proof. apply lookup_insert_eq. Qed.

(** The counters after the wrapper, whatever the merge does. *)
Lemma wrapper_counts o s :
  exists s' t,
    wrapper (Returns o) s = Ret o s' t
    /\ counters s' = counters (wrapped_state path o s).
Proof.
  destruct (wrapper_shape o s) as (pre & _ & [->|(_ & _ & post & _ & Hst & ->)]);
    [by eexists _, _|].
  rewrite bind_run, (merge_run P v pc ans path _ _ _ _ (recorded_lookup post s)), Hst.
  destruct (PyStr.truthy_opt pc); [|by eexists _, _].
  destruct (prompt_yN_ends "Accept this change?" ans (stdin (recorded path post s)))
    as (a & rest & tp & -> & _).
  destruct (String.eqb a "y"); [destruct (snd _ =? 0)|]; by eexists _, _.
Qed.

(** Without a patch command there is no merge. *)
Lemma wrapper_plain o s :
  PyStr.truthy_opt pc = false ->
  exists t,
    wrapper (Returns o) s = Ret o (wrapped_state path o s) t
    /\ forallb is_plain t = true.
Proof.
  intros Hpc.
  destruct (wrapper_shape o s) as (pre & Hpre & [->|(_ & _ & post & _ & Hst & ->)]);
    [by eexists|].
  rewrite bind_run, (merge_run P v pc ans path _ _ _ _ (recorded_lookup post s)), Hpc.
  rewrite mret_run. cbn [after]. rewrite Hst, !app_nil_r. by eexists.
Qed.

(** With an answer given in advance nothing is read; with one other than
    "y" nothing is executed and the files are as without a merge. *)
Lemma wrapper_auto a o s :
  ans = Some a ->
  exists s' t,
    wrapper (Returns o) s = Ret o s' t
    /\ stdin s' = stdin s
    /\ forallb (fun e => negb (is_readline e)) t = true
    /\ (String.eqb a "y" = false ->
        forallb (fun e => negb (is_exec e)) t = true
        /\ fs s' = file_effect (fs s) (path, o)).
Proof.
  intros Ha.
  assert (forall t, forallb is_plain t = true ->
                    forallb (fun e => negb (is_readline e)) t = true
                    /\ forallb (fun e => negb (is_exec e)) t = true) as Hplain.
  { induction t as [|e t IH]; [done|]. destruct e; cbn; try done; exact IH. }
  destruct (wrapper_shape o s) as (pre & Hpre & [->|(_ & _ & post & _ & Hst & ->)]).
  { eexists _, _. split; [reflexivity|]. split; [done|].
    destruct (Hplain _ Hpre). by repeat split. }
  destruct (Hplain _ Hpre) as [Hr He].
  rewrite bind_run, (merge_run P v pc ans path _ _ _ _ (recorded_lookup post s)).
  destruct (PyStr.truthy_opt pc).
  2:{ rewrite mret_run. cbn [after]. rewrite !app_nil_r, <- Hst.
      eexists _, _. split; [reflexivity|]. by repeat split. }
  rewrite Ha, prompt_loop_auto.
  destruct (String.eqb a "y") eqn:Hy.
  - destruct (snd _ =? 0); rewrite mret_run; cbn [after]; eexists _, _;
      (split; [reflexivity|]); (split; [done|]); (split; [|done]);
      rewrite !forallb_app, Hr; cbn; rewrite ?forallb_app; cbn;
      rewrite ?(proj1 (Hplain _ (shown_plain _))); done.
  - rewrite mret_run. cbn [after]. eexists _, _. split; [reflexivity|].
    split; [done|]. split; [by rewrite !forallb_app, Hr|]. intros _.
    split; [by rewrite !forallb_app, He|]. cbn [fs]. by rewrite <- Hst.
Qed.

(** The wrapper changes no path but that of its [.err] file. *)
Lemma wrapper_frame o s :
  exists s' t,
    wrapper (Returns o) s = Ret o s' t
    /\ forall p, p <> errpath_of path -> fs s' !! p = fs s !! p.
Proof.
  assert (forall p, p <> errpath_of path ->
                    fs (wrapped_state path o s) !! p = fs s !! p) as Hw.
  { intros p Hp. unfold wrapped_state, file_effect. cbn [fs].
    destruct (refout o), (postout o); try done.
    destruct (has_diff o); [by apply lookup_insert_ne|by apply lookup_delete_ne]. }
  destruct (wrapper_shape o s) as (pre & _ & [->|(_ & _ & post & _ & Hst & ->)]);
    [by eexists _, _|].
  rewrite bind_run.
  destruct (merge_effects P v pc ans path (errpath_of path) (diff o)
              (recorded path post s) _ (recorded_lookup post s))
    as (s' & t & -> & _ & Hfs).
  rewrite mret_run. cbn [after]. eexists _, _. split; [reflexivity|].
  intros p Hp. rewrite <- Hst in Hfs. destruct Hfs as [[-> _]|[-> _]].
  - by apply Hw.
  - rewrite lookup_delete_ne by done. by apply Hw.
Qed.
End WrapperShape.

(** ** Runs of main *)

Lemma cli_body t : forallb is_cli t = true -> forallb is_body t = true.
Proof.
  induction t as [|e t IH]; [done|]. destruct e; cbn; try done; exact IH.
Qed.

Lemma plain_cli t : forallb is_plain t = true -> forallb is_body t = true.
Proof.
  induction t as [|e t IH]; [done|]. destruct e; cbn; try done; exact IH.
Qed.

(** Every test, wrapped or not, ends and stays within [is_body]. *)
Lemma tests_body P (dbg q v : bool) pc ans found :
  Forall (fun pb : Path * Behaviour =>
            forall s,
              kept is_body (fun _ _ => True) s
                (if dbg then call_test (fst pb) (snd pb) s
                 else testwrapper P q v pc ans (fst pb)
                        (call_test (fst pb) (snd pb)) s))
         found.
Proof.
  apply List.Forall_forall. intros [path b] _ s. cbn [fst snd]. destruct dbg.
  - by destruct b.
  - destruct b as [o|e].
    + destruct (wrapper_returns P q v pc ans path o s) as (s' & t & -> & Hcli).
      split; [|done]. rewrite forallb_app, (cli_body _ (shown_cli _)). cbn.
      by apply cli_body.
    + rewrite wrapper_raises. split; [|done].
      by rewrite forallb_app, (cli_body _ (shown_cli _)).
Qed.

Lemma try_code P st sh pc ans s code s' t :
  main_try P st sh pc ans s = Ret code s' t -> code = 0 \/ code = 1 \/ code = 2.
Proof.
  assert (forall r, verdict r = 0 \/ verdict r = 1 \/ verdict r = 2) as Hv.
  { intros [[] []]; cbn; auto. }
  destruct (debug st) eqn:Hd.
  - rewrite try_debug by done. destruct (main_loop _ _ _ _); [|done|done].
    intros [= <- _ _]. apply Hv.
  - rewrite try_wrapped by done. destruct (main_loop _ _ _ _); [|done|done].
    intros [= <- _ _]. apply Hv.
Qed.

(** X12. [main] always ends, by a return or by an exception: the prompt of
    the merge has a default, so it cannot ask for ever at the end of the
    standard input.  When [main] returns, it returns 0, 1 or 2. *)
Theorem main_ends P args s :
  main P args s <> Hang
  /\ (forall code s' t,
        main P args s = Ret code s' t -> code = 0 \/ code = 1 \/ code = 2).
Proof.
  rewrite main_cases.
  destruct (load _ _ _ _) as [config|ex|e];
    [|split; [done|by intros ??? [= <- _ _]; auto]|by split].
  cbv zeta. set (st := merge_settings P args (settings_from P config)).
  destruct (_conflicts st) as [[a b]|]; [split; [done|by intros ??? [= <- _ _]; auto]|].
  destruct (_which P (shell st)) as [shellcmd| |]; [|by split|by split].
  destruct (negb _); [split; [done|by intros ??? [= <- _ _]; auto]|].
  destruct (if PyStr.truthy_opt (shell_opts st) then _ else _) as [words| |];
    [|by split|by split].
  destruct (interactive st && _); [split; [done|by intros ??? [= <- _ _]; auto]|].
  destruct (missing s (tests st)); [|split; [done|by intros ??? [= <- _ _]; auto]].
  rewrite main_run_exact.
  pose proof (try_kept is_body (fun _ _ => True) (fun _ => I) (fun _ _ _ _ _ => I)
                P st (shell_of P st) (patchcmd_of P st) (answer_of st)
                (fun _ => eq_refl) (fun _ => eq_refl) (fun _ => eq_refl) (fun _ => I)
                (tests_body P _ _ _ _ _ _) s) as Hk.
  pose proof (try_code P st (shell_of P st) (patchcmd_of P st) (answer_of st) s) as Hc.
  destruct (main_try _ _ _ _ _ s) as [code s' t|e s' t|]; [| |done].
  - split; [done|]. intros c s2 t2 [= <- _ _]. by eapply Hc.
  - by split.
Qed.

(** ** The checks of main *)

(** X23. What [main] reports before a run, check by check.  (1) When a
    value of the configuration file is malformed in that its conversion
    raises [ValueError] (the file being read and the options before it
    fetched), [main] writes the usage and the error, with the name of the
    option and the raw value, to the standard error and returns 2.  (2) When
    two mutually exclusive settings are combined, it writes that these
    options exclude each other and returns 2.  (3) When the shell is not
    found on the PATH, it writes messages to the standard error only and
    returns 2; the message is "shell not found" unless settings clash.  In
    each of these cases the trace holds nothing but these writes: no sandbox
    directory is created, no test is called, no check is made twice, and the
    state is as before.  (4) An exception of [load] that is not a
    [ValueError] leaves [main] as it is; without a clash of settings, a PATH
    that is not set makes [main] raise [KeyError] and, once the shell is
    found, shell options that [shlex.split] rejects make it raise
    [ValueError]: [main] then writes nothing.  (5) Whatever check fails or
    call raises, [main] ends before it creates a sandbox or calls a test, the
    state being as before; it returns 2 whenever no call raises. *)
Theorem configuration_errors_abort P args s :
  (forall msg,
     Malformed P msg ->
     main P args s
     = Ret 2 s [Stderr (format_usage P +:+ PyStr.LF);
                Stderr ("prysk: error: " +:+ msg +:+ PyStr.LF)])
  /\ (forall st arg1 arg2,
        Settings_of P args st -> _conflicts st = Some (arg1, arg2) ->
        main P args s
        = Ret 2 s [Stderr ("options " +:+ arg1 +:+ " and " +:+ arg2
                           +:+ " are mutually exclusive" +:+ PyStr.LF)])
  /\ (forall st,
        Settings_of P args st -> _which P (shell st) = Got None ->
        exists t,
          main P args s = Ret 2 s t
          /\ t <> [] /\ forallb is_stderr t = true
          /\ calls t = [] /\ List.filter is_sandbox t = []
          /\ (_conflicts st = None ->
              t = [Stderr ("shell not found: " +:+ shell st +:+ PyStr.LF)]))
  /\ (forall e,
        load (repr P) (pryskrc P) "prysk" options = Raised e ->
        main P args s = Exc e s [])
  /\ (forall st,
        Settings_of P args st -> _conflicts st = None ->
        (environ_PATH P = None -> main P args s = Exc "KeyError" s [])
        /\ (Found P (shell st) ->
            PyStr.truthy_opt (shell_opts st) = true ->
            (exists msg, shlex_split P (default "" (shell_opts st)) = ValueError msg) ->
            main P args s = Exc "ValueError" s []))
  /\ (~ (exists st, Checks_pass P args s st) ->
      ((exists t,
          main P args s = Ret 2 s t
          /\ t <> [] /\ forallb is_stderr t = true
          /\ calls t = [] /\ List.filter is_sandbox t = [])
       \/ (exists e, main P args s = Exc e s []))
      /\ (Calls_return P args -> exists t, main P args s = Ret 2 s t)).
Proof.
  split; [|split; [|split; [|split; [|split]]]].
  - intros msg Hl%load_malformed. by rewrite main_cases, Hl.
  - intros st arg1 arg2 (config & Hl & ->) Hc. rewrite main_cases, Hl. cbv zeta.
    by rewrite Hc.
  - intros st (config & Hl & ->) Hw. rewrite main_cases, Hl. cbv zeta.
    destruct (_conflicts _) as [[arg1 arg2]|]; [by eexists|].
    rewrite Hw. by eexists.
  - intros e Hl. by rewrite main_cases, Hl.
  - intros st (config & Hl & ->) Hc. split.
    + intros Hpath. rewrite main_cases, Hl. cbv zeta. rewrite Hc.
      unfold _which. by rewrite Hpath.
    + intros (sh & Hw & Ht) Ho [msg Hs]. rewrite main_cases, Hl. cbv zeta.
      rewrite Hc, Hw. cbn [PyStr.truthy_opt]. rewrite Ht. cbn [negb].
      by rewrite Ho, Hs.
  - intros Hno. split.
    + destruct (main_early P args s Hno) as [(t & Hm & Hne & Ht)|He]; [|by right].
      left. exists t. destruct (stderr_only t Ht) as [Hcalls Hsand].
      split; [done|]. split; [done|]. split; [done|]. split; [done|].
      by apply no_sandbox_filter.
    + intros Hcalls. destruct (main_early_ret P args s Hcalls Hno) as (t & Hm & _).
      by exists t.
Qed.

Lemma configuration_errors_abort_witness :
  main (Demo.platform Demo.bad_rc [] 0) (Demo.args false false false false) (Demo.state [])
  = Ret 2 (Demo.state [])
        [Stderr ("usage: prysk [OPTIONS] TESTS..." +:+ PyStr.LF);
         Stderr ("prysk: error: --indent: invalid integer value: 'two'" +:+ PyStr.LF)]
  /\ main (Demo.platform Demo.rc [] 0) (Demo.args true false true false) (Demo.state [])
     = Ret 2 (Demo.state [])
           [Stderr ("options --quiet and --interactive are mutually exclusive" +:+ PyStr.LF)]
  /\ main (Demo.platform Demo.rc [] 0) Demo.no_shell (Demo.state [])
     = Ret 2 (Demo.state []) [Stderr ("shell not found: zsh" +:+ PyStr.LF)]
  /\ main (Demo.platform Demo.rc [] 0) Demo.open_quote (Demo.state [])
     = Exc "ValueError" (Demo.state []) [].
Proof.
  destruct (configuration_errors_abort (Demo.platform Demo.bad_rc [] 0)
              (Demo.args false false false false) (Demo.state [])) as (Hbad & _).
  destruct (configuration_errors_abort (Demo.platform Demo.rc [] 0)
              (Demo.args true false true false) (Demo.state [])) as (_ & Hclash & _).
  destruct (configuration_errors_abort (Demo.platform Demo.rc [] 0)
              Demo.no_shell (Demo.state [])) as (_ & _ & Hshell & _).
  destruct (configuration_errors_abort (Demo.platform Demo.rc [] 0)
              Demo.open_quote (Demo.state [])) as (_ & _ & _ & _ & Hraise & _).
  split; [|split; [|split]].
  - apply (Hbad "--indent: invalid integer value: 'two'").
    split; [reflexivity|]. split; [reflexivity|].
    exists [(TOther, "tests"); (TOther, "version"); (TBool, "quiet"); (TBool, "verbose");
            (TBool, "interactive"); (TBool, "debug"); (TBool, "yes"); (TBool, "no");
            (TBool, "preserve_env"); (TBool, "keep_tmpdir"); (TOther, "shell");
            (TOther, "shell_opts")],
           TInt, "indent", [(TOther, "xunit_file")], "two".
    split; [reflexivity|]. split.
    { repeat (apply List.Forall_cons; [intros [=]|]). apply List.Forall_nil. }
    split; [reflexivity|]. split; [by eexists|]. split; reflexivity.
  - apply (Hclash (Demo.args true false true false) "--quiet" "--interactive");
      [by exists ∅|reflexivity].
  - destruct (Hshell Demo.no_shell) as (t & Hm & _ & _ & _ & _ & Ht);
      [by exists ∅|reflexivity|].
    rewrite Hm. f_equal. by apply Ht.
  - destruct (Hraise Demo.open_quote) as [_ Hopts]; [by exists ∅|reflexivity|].
    apply Hopts; [by exists "/bin/sh"|reflexivity|by eexists].
Defined.

(** X11. The place of the check for [patch] among the checks of [main].
    Take settings that load without a clash of options and whose shell is
    found.  [main] writes "patch(1) required for -i" to the standard error
    and returns 2, the state being as before, exactly when the shell options
    (if any) can be split, --interactive is set and no [patch] is found on
    PATH.  So a missing [patch] is reported before the test paths are looked
    at, whether they exist or not; and shell options that cannot be split
    come first: [main] then ends by an exception and reports nothing. *)
Theorem patch_required P args s st :
  Settings_of P args st ->
  _conflicts st = None ->
  Found P (shell st) ->
  (main P args s = Ret 2 s [Stderr ("patch(1) required for -i" +:+ PyStr.LF)]
   <-> Opts_split P st /\ interactive st = true
       /\ PyStr.truthy_opt (got None (_which P "patch")) = false)
  /\ (~ Opts_split P st -> exists e, main P args s = Exc e s []).
Proof.
  intros (config & Hl & ->) Hc (sh & Hsh & Ht).
  set (st := merge_settings P args (settings_from P config)) in *.
  rewrite main_cases, Hl. cbv zeta. fold st.
  rewrite Hc, Hsh. cbn [PyStr.truthy_opt]. rewrite Ht. cbn [negb].
  unfold Opts_split.
  destruct (PyStr.truthy_opt (shell_opts st)) eqn:Ho.
  - destruct (shlex_split P (default "" (shell_opts st))) as [words|m|e] eqn:Hs.
    2:{ split; [|by eexists]. split; [done|]. intros [Hw _].
        by destruct (Hw eq_refl). }
    2:{ split; [|by eexists]. split; [done|]. intros [Hw _].
        by destruct (Hw eq_refl). }
    split; [|intros Hn; destruct Hn; by eexists].
    destruct (interactive st); cbn [andb].
    + destruct (PyStr.truthy_opt (got None (_which P "patch"))); cbn [negb].
      * split; [|by intros (_ & _ & ?)].
        destruct (missing s (tests st)); [|done].
        rewrite main_run_exact. by destruct (main_try _ _ _ _ _ s).
      * split; [|done]. intros _. split; [by eexists|done].
    + split; [|by intros (_ & ? & _)].
      destruct (missing s (tests st)); [|done].
      rewrite main_run_exact. by destruct (main_try _ _ _ _ _ s).
  - split; [|intros Hn; by destruct Hn].
    destruct (interactive st); cbn [andb].
    + destruct (PyStr.truthy_opt (got None (_which P "patch"))); cbn [negb].
      * split; [|by intros (_ & _ & ?)].
        destruct (missing s (tests st)); [|done].
        rewrite main_run_exact. by destruct (main_try _ _ _ _ _ s).
      * split; [|done]. intros _. by split.
    + split; [|by intros (_ & ? & _)].
      destruct (missing s (tests st)); [|done].
      rewrite main_run_exact. by destruct (main_try _ _ _ _ _ s).
Qed.

(** X20. In a run that passes the checks, everything happens between the
    set-up of the sandbox and its removal: the temporary directory is made
    and PRYSK_TEMP, TMPDIR, TEMP and TMP are set, once, before the first test
    is called, and what follows up to the last event is made of calls of
    tests, output, reads, [.err] files, patch and the report. *)
Theorem run_inside_sandbox P args s st :
  Checks_pass P args s st ->
  exists s' t,
    forallb is_body t = true
    /\ ((exists code,
           main P args s
           = Ret code s'
                 ([Mkdtemp (mkdtemp P); Setenv "PRYSK_TEMP" (mkdtemp P);
                   Setenv "TMPDIR" (os_path_join (mkdtemp P) "tmp");
                   Setenv "TEMP" (os_path_join (mkdtemp P) "tmp");
                   Setenv "TMP" (os_path_join (mkdtemp P) "tmp");
                   Mkdir (os_path_join (mkdtemp P) "tmp")]
                  ++ t ++ [sandbox_teardown P st]))
        \/ (exists e,
           main P args s
           = Exc e s'
                 ([Mkdtemp (mkdtemp P); Setenv "PRYSK_TEMP" (mkdtemp P);
                   Setenv "TMPDIR" (os_path_join (mkdtemp P) "tmp");
                   Setenv "TEMP" (os_path_join (mkdtemp P) "tmp");
                   Setenv "TMP" (os_path_join (mkdtemp P) "tmp");
                   Mkdir (os_path_join (mkdtemp P) "tmp")]
                  ++ t ++ [sandbox_teardown P st]))).
Proof.
  intros Hok. rewrite (main_ready P args s st Hok).
  destruct (main_run_kept is_body (fun _ _ => True) (fun _ => I) (fun _ _ _ _ _ => I)
              P st (shell_of P st) (patchcmd_of P st) (answer_of st)
              (fun _ => eq_refl) (fun _ => eq_refl) (fun _ => eq_refl) (fun _ => I)
              (tests_body P _ _ _ _ _ _) s) as (s' & t & Ht & _ & Hrun).
  by exists s', t.
Qed.

Lemma setup_quiet P st (Q : Event -> bool) t :
  (forall e, is_body e = false -> Q e = true) ->
  Q (sandbox_teardown P st) = true ->
  forallb Q t = true ->
  forallb Q (sandbox_setup P ++ t ++ [sandbox_teardown P st]) = true.
Proof.
  intros Hq Htd Ht. rewrite !forallb_app, Ht. cbn. rewrite Htd.
  by rewrite !Hq by done.
Qed.

(** X17. A run without --interactive that passes the checks never reads
    the standard input and never executes patch, whatever the tests do: no
    such event is in its trace, and the lines of the standard input are all
    left. *)
Theorem batch_run_reads_nothing P args s st :
  Checks_pass P args s st ->
  interactive st = false ->
  exists s' T,
    ((exists code, main P args s = Ret code s' T)
     \/ (exists e, main P args s = Exc e s' T))
    /\ forallb (fun e => negb (is_readline e) && negb (is_exec e)) T = true
    /\ stdin s' = stdin s.
Proof.
  intros Hok Hi. rewrite (main_ready P args s st Hok).
  set (Q := fun e => negb (is_readline e) && negb (is_exec e)).
  assert (forall t, forallb is_plain t = true -> forallb Q t = true) as Hplain.
  { induction t as [|e t IH]; [done|]. destruct e; cbn; try done; exact IH. }
  destruct (main_run_kept Q (fun s s' => stdin s' = stdin s)
              (fun _ => eq_refl) (fun _ _ _ H1 H2 => eq_trans H2 H1)
              P st (shell_of P st) (patchcmd_of P st) (answer_of st)
              (fun _ => eq_refl) (fun _ => eq_refl) (fun _ => eq_refl)
              (fun _ => eq_refl)) with (s := s) as (s' & t & Ht & Hs & Hrun).
  { apply List.Forall_forall. intros [path b] _ s0. cbn [fst snd].
    destruct (debug st); [by destruct b|].
    unfold patchcmd_of. rewrite Hi. destruct b as [o|e].
    - destruct (wrapper_plain P (quiet st) (verbose st) None (answer_of st) path o s0
                  eq_refl) as (t & -> & Ht).
      split; [by apply Hplain|done].
    - rewrite wrapper_raises. split; [|done].
      rewrite forallb_app, (Hplain _ (shown_plain _)). done. }
  exists s', (sandbox_setup P ++ t ++ [sandbox_teardown P st]).
  split; [exact Hrun|]. split; [|exact Hs].
  apply setup_quiet; [by intros []|by unfold sandbox_teardown; destruct (keep_tmpdir st)|done].
Qed.

(** X18. With --yes or --no a run that passes the checks never reads the
    standard input: the prompt answers itself.  With --no it never executes
    patch either. *)
Theorem auto_answer_reads_nothing P args s st :
  Checks_pass P args s st ->
  yes st = true \/ no st = true ->
  exists s' T,
    ((exists code, main P args s = Ret code s' T)
     \/ (exists e, main P args s = Exc e s' T))
    /\ forallb (fun e => negb (is_readline e)) T = true
    /\ stdin s' = stdin s
    /\ (no st = true -> forallb (fun e => negb (is_exec e)) T = true).
Proof.
  intros Hok Hyn. rewrite (main_ready P args s st Hok).
  assert (exists a, answer_of st = Some a /\ (no st = true -> String.eqb a "y" = false))
    as (a & Ha & Hno).
  { destruct Hok as (_ & Hc & _). unfold answer_of.
    apply conflicts_none_yes_no in Hc as Hyn'.
    destruct (yes st), (no st); try done; [by exists "y"|by exists "n"|by destruct Hyn]. }
  set (Q := fun e => negb (is_readline e) && (negb (no st) || negb (is_exec e))).
  assert (forall t, forallb is_plain t = true -> forallb Q t = true) as Hplain.
  { induction t as [|e t IH]; [done|]. subst Q. destruct e; cbn; try done;
      rewrite ?orb_true_r; try done; exact IH. }
  destruct (main_run_kept Q (fun s s' => stdin s' = stdin s)
              (fun _ => eq_refl) (fun _ _ _ H1 H2 => eq_trans H2 H1)
              P st (shell_of P st) (patchcmd_of P st) (answer_of st))
    with (s := s) as (s' & t & Ht & Hs & Hrun).
  { intros m. subst Q. cbn. by rewrite orb_true_r. }
  { intros m. subst Q. cbn. by rewrite orb_true_r. }
  { intros m. subst Q. cbn. by rewrite orb_true_r. }
  { done. }
  { apply List.Forall_forall. intros [path b] _ s0. cbn [fst snd].
    destruct (debug st).
    { destruct b; (split; [|done]); subst Q; cbn; by rewrite orb_true_r. }
    destruct b as [o|e].
    - destruct (wrapper_auto P (quiet st) (verbose st) (patchcmd_of P st) (answer_of st)
                  path a o s0 Ha) as (s1 & t & -> & Hs & Hr & He).
      split; [|done]. subst Q. cbn beta.
      destruct (no st) eqn:Hn; cbn [negb orb].
      + destruct (He (Hno eq_refl)) as [Hx _].
        apply List.forallb_forall. intros e' He'.
        apply (proj1 (List.forallb_forall _ _) Hr) in He' as Hr'.
        apply (proj1 (List.forallb_forall _ _) Hx) in He' as Hx'.
        by rewrite Hr', Hx'.
      + apply List.forallb_forall. intros e' He'.
        apply (proj1 (List.forallb_forall _ _) Hr) in He' as Hr'.
        by rewrite Hr'.
    - rewrite wrapper_raises. split; [|done].
      rewrite forallb_app, (Hplain _ (shown_plain _)). subst Q. cbn.
      by rewrite orb_true_r. }
  exists s', (sandbox_setup P ++ t ++ [sandbox_teardown P st]).
  assert (forallb Q (sandbox_setup P ++ t ++ [sandbox_teardown P st]) = true) as HT.
  { apply setup_quiet; [| |done].
    - intros []; subst Q; cbn; try done; by rewrite orb_true_r.
    - subst Q. unfold sandbox_teardown. destruct (keep_tmpdir st); cbn;
        by rewrite orb_true_r. }
  split; [exact Hrun|]. split; [|split; [exact Hs|]].
  - apply List.forallb_forall. intros e He.
    apply (proj1 (List.forallb_forall _ _) HT) in He. subst Q. cbn beta in He.
    by destruct (is_readline e).
  - intros Hn. apply List.forallb_forall. intros e He.
    apply (proj1 (List.forallb_forall _ _) HT) in He. subst Q. cbn beta in He.
    rewrite Hn in He. by destruct (is_readline e), (is_exec e).
Qed.



(** ** Runs whose tests return *)

Lemma verdict_status os :
  verdict (false || bool_decide (os <> []),
           false || existsb (fun po => has_diff (snd po)) os) = status_of os.
Proof.
  unfold verdict, status_of. cbn [fst snd orb]. destruct os; [done|].
  rewrite bool_decide_true by done. by rewrite bool_decide_false by done.
Qed.

(** X13. In debug mode a run that passes the checks and whose tests return
    does nothing but call every test, in order, between the set-up and the
    removal of the sandbox: it prints no status, no diff and no summary,
    writes no [.err] file, asks nothing, and leaves the state as it was.  Its
    status is computed from the diffs as in any other run. *)
Theorem debug_run_is_bare P args s st os :
  Checks_pass P args s st ->
  debug st = true ->
  discovered P st = map returning os ->
  main P args s
  = Ret (status_of os) s
        (sandbox_setup P ++ map Call (map fst os)
         ++ (if bool_decide (os = []) then [Stderr ("no tests found" +:+ PyStr.LF)]
             else [])
         ++ [sandbox_teardown P st]).
Proof.
  intros Hok Hd Hf. rewrite (main_ready P args s st Hok), main_run_exact.
  rewrite try_debug by done. fold (discovered P st). rewrite Hf, loop_raw_returns.
  rewrite verdict_status. cbn [fst orb]. unfold no_tests_events.
  destruct os; [done|]. rewrite bool_decide_true, bool_decide_false by done.
  by rewrite <- !app_assoc.
Qed.

Section Returning.
Variable P : Platform.
Variables (q v : bool) (pc ans : option string).

Local Abbreviation wrapped ds := (gen_items (runcli P q v pc ans (tests_of ds))).

Lemma loop_wrapped_counts os : forall h f s,
  exists r s' t,
    main_loop (wrapped (map returning os)) h f s = Ret r s' t
    /\ counters s'
       = mkCounters (total (tally os) + total (counters s))
                    (skipped (tally os) + skipped (counters s))
                    (failed (tally os) + failed (counters s)).
Proof.
  induction os as [|[path o] os IH]; intros h f s.
  { eexists _, _, _. split; [reflexivity|]. by destruct (counters s). }
  cbn [map]. rewrite wrapped_cons. cbn [main_loop fst snd returning]. rewrite bind_run.
  destruct (wrapper_counts P q v pc ans path o s) as (s1 & t1 & -> & Hc1).
  destruct (IH true (if diff o is [] then f else true) s1) as (r & s2 & t2 & -> & Hc2).
  eexists _, _, _. split; [reflexivity|]. rewrite Hc2, Hc1.
  unfold wrapped_state, tally. cbn [counters counted total skipped failed List.filter snd length].
  destruct (is_skip o), (is_fail o); cbn [length]; f_equal; lia.
Qed.


Lemma loop_wrapped_raises os p e rest : forall h f s,
  exists s' t,
    main_loop (wrapped (map returning os ++ (p, Raises e) :: rest)) h f s
    = Exc e s' (t ++ [Call p])
    /\ calls t = map fst os.
Proof.
  induction os as [|[path o] os IH]; intros h f s.
  - cbn [map app]. rewrite wrapped_cons. cbn [main_loop fst snd]. rewrite bind_run.
    rewrite wrapper_raises. eexists _, _. split; [reflexivity|].
    apply calls_cli, shown_cli.
  - cbn [map app]. rewrite wrapped_cons. cbn [main_loop fst snd returning].
    rewrite bind_run.
    destruct (wrapper_returns P q v pc ans path o s) as (s1 & t1 & -> & Hcli).
    destruct (IH true (if diff o is [] then f else true) s1) as (s2 & t2 & -> & Hc).
    cbn [after]. eexists _, _. split; [by rewrite app_assoc|].
    rewrite !calls_app. cbn [calls]. rewrite Hc, (calls_cli _ Hcli).
    by rewrite (calls_cli _ (shown_cli _)).
Qed.
End Returning.

Lemma loop_raw_raises os p e rest : forall h f s,
  main_loop (gen_items (tests_of (map returning os ++ (p, Raises e) :: rest))) h f s
  = Exc e s (map Call (map fst os) ++ [Call p]).
Proof.
  induction os as [|[path o] os IH]; intros h f s; [done|].
  cbn [map app tests_of gen_items main_loop fst snd returning].
  rewrite bind_run. unfold call_test at 1. unfold_m. cbn [after app].
  change (map _ (map returning os ++ (p, Raises e) :: rest))
    with (gen_items (tests_of (map returning os ++ (p, Raises e) :: rest))).
  by rewrite IH.
Qed.

(** X14. When a test raises, the run stops there: the exception leaves
    [main], the tests before it were called, in order, those after it never
    are, nothing follows the call of the raising test but the [finally]
    clause (no summary is written), and the sandbox is still torn down. *)
Theorem exception_stops_run P args s st os p e rest :
  Checks_pass P args s st ->
  discovered P st = map returning os ++ (p, Raises e) :: rest ->
  exists s' t,
    main P args s
    = Exc e s' (sandbox_setup P ++ (t ++ [Call p]) ++ [sandbox_teardown P st])
    /\ calls t = map fst os.
Proof.
  intros Hok Hf. rewrite (main_ready P args s st Hok), main_run_exact.
  assert (debug st = true \/ debug st = false) as [Hd|Hd]
    by (destruct (debug st); auto).
  - rewrite try_debug by done. fold (discovered P st).
    rewrite Hf, loop_raw_raises. eexists _, _. split; [reflexivity|].
    clear. induction os; cbn; congruence.
  - rewrite try_wrapped by done. fold (discovered P st). rewrite Hf.
    destruct (loop_wrapped_raises P (quiet st) (verbose st) (patchcmd_of P st)
                (answer_of st) os p e rest false false (reset s))
      as (s' & t & -> & Hc).
    by eexists _, _.
Qed.

(** X15. In a run outside debug mode that passes the checks and whose tests
    all return, with at least one test, the counters end as the tally of the
    results: every test counted once, as skipped when its reference or
    actual output is absent, as failed when both are present and the diff is
    not empty.  The last thing [runcli] writes is the line "# Ran n tests, s
    skipped, f failed." with these numbers, after an empty line unless
    verbose. *)
Theorem summary_reports_tally P args s st os :
  Checks_pass P args s st ->
  debug st = false ->
  discovered P st = map returning os ->
  os <> [] ->
  exists s' t,
    main P args s
    = Ret (status_of os) s'
          (sandbox_setup P
           ++ (t ++ (if verbose st then [] else [Stdout PyStr.LF])
               ++ [Stdout (summary_line (tally os))] ++ xunit_events st)
           ++ [sandbox_teardown P st])
    /\ counters s' = tally os
    /\ (skipped (tally os) + failed (tally os) <= total (tally os))%nat.
Proof.
  intros Hok Hd Hf Hne. rewrite (main_ready P args s st Hok), main_run_exact.
  rewrite try_wrapped by done. fold (discovered P st). rewrite Hf.
  destruct (loop_wrapped_counts P (quiet st) (verbose st) (patchcmd_of P st)
              (answer_of st) os false false (reset s)) as (r & s' & t & Hl & Hc).
  destruct (loop_wrapped_returns P (quiet st) (verbose st) (patchcmd_of P st)
              (answer_of st) os false false (reset s)) as (s2 & t2 & Hl2 & _).
  rewrite Hl in Hl2. injection Hl2 as -> _ _. rewrite Hl. cbv beta iota.
  assert (counters s' = tally os) as Hc'.
  { rewrite Hc. cbn. unfold tally. f_equal; lia. }
  rewrite <- verdict_status, Hc'. cbn [fst orb]. rewrite bool_decide_true by done.
  unfold no_tests_events, summary_events.
  rewrite bool_decide_true by (destruct os; [done|cbn; lia]).
  exists s', t. split; [|split; [done|]].
  - rewrite !app_nil_r, <- !app_assoc. by destruct (verbose st).
  - unfold tally. cbn [total skipped failed]. clear.
    induction os as [|[p o] os IH]; [done|]. cbn [List.filter snd length].
    unfold is_fail at 1. destruct (is_skip o), (has_diff o); cbn; lia.
Qed.


(** ** The name of a test in verbose output *)

(** X21. In verbose output a test is named by the last two components of
    its path, joined by a slash, whatever comes before them; a path of one
    component is named by that component alone. *)
Theorem short_name_last_two :
  (forall root_ before a b,
      PyStr.truthy a = true -> PyStr.truthy b = true ->
      short_name (mkPath root_ (before ++ [a; b])) = a +:+ "/" +:+ b)
  /\ (forall root_ b,
      PyStr.truthy b = true -> short_name (mkPath root_ [b]) = b).
Proof.
  split.
  - intros root_ before a b Ha Hb. unfold short_name, PurePath.name, PurePath.parent.
    cbn [parts root].
    assert (List.last (before ++ [a; b]) "" = b) as ->.
    { change (before ++ [a; b]) with (before ++ [a] ++ [b]).
      by rewrite app_assoc, List.last_last. }
    assert (List.removelast (before ++ [a; b]) = before ++ [a]) as ->.
    { change (before ++ [a; b]) with (before ++ [a] ++ [b]).
      by rewrite app_assoc, List.removelast_last. }
    rewrite List.last_last. unfold PurePath.of_names. cbn [List.filter].
    by rewrite Ha, Hb.
  - intros root_ b Hb. unfold short_name, PurePath.name, PurePath.parent,
      PurePath.of_names. cbn. by rewrite Hb.
Qed.

(** ** The wrapper of runcli *)

(** X22. The wrapper of [runcli] is transparent.  It calls its test exactly
    once and gives back what the test gave: the same three values when the
    test returns, whatever is printed, asked or merged on the way (the diff
    rebuilt while it is printed is the diff of the test), and the same
    exception when the test raises.  The test is counted once in the total
    before it is called, so a raising test is counted too, and counted as
    skipped or failed as its result says. *)
Theorem wrapper_transparent P q v pc ans path b s :
  match b with
  | Returns o =>
      exists s' t,
        testwrapper P q v pc ans path (call_test path b) s = Ret o s' t
        /\ calls t = [path]
        /\ counters s'
           = counters (counted 1 (if is_skip o then 1 else 0)
                               (if is_fail o then 1 else 0) s)
  | Raises e =>
      testwrapper P q v pc ans path (call_test path b) s
      = Exc e (counted 1 0 0 s)
            (shown (if v then Some (short_name path +:+ ": ") else None)
             ++ [Call path])
  end.
Proof.
  destruct b as [o|e]; [|apply wrapper_raises].
  destruct (wrapper_returns P q v pc ans path o s) as (s' & t & Hrun & Hcli).
  destruct (wrapper_counts P q v pc ans path o s) as (s2 & t2 & Hrun2 & Hc).
  rewrite Hrun in Hrun2. injection Hrun2 as <- _.
  exists s', (shown (if v then Some (short_name path +:+ ": ") else None)
              ++ Call path :: t).
  split; [exact Hrun|]. split; [|exact Hc].
  rewrite calls_app, (calls_cli _ (shown_cli _)). cbn. by rewrite (calls_cli _ Hcli).
Qed.

(** ** Examples of the further properties *)

Lemma load_fails_iff_witness :
  (exists config, load (fun s => s) Sample.rc "prysk" options = Got config)
  /\ load (fun s => s) Sample.interpolated_rc "prysk" options
     = Raised "InterpolationMissingOptionError".
Proof.
  split; [|reflexivity].
  apply (load_fails_iff (fun s => s) Sample.rc "prysk" options).
  split; [reflexivity|]. intros _.
  repeat (apply List.Forall_cons; [cbn; intros H; try discriminate H; by eexists|]).
  apply List.Forall_nil.
Defined.

Lemma load_keys_witness :
  load (fun s => s) Sample.rc "prysk" options = Got Sample.config
  /\ is_Some (Sample.config !! "indent")
  /\ Sample.config !! "color" = None.
Proof.
  assert (load (fun s => s) Sample.rc "prysk" options = Got Sample.config) as Hl
    by (by vm_compute).
  split; [exact Hl|]. split.
  - apply (load_keys (fun s => s) Sample.rc "prysk" options Sample.config "indent" Hl).
    split; [reflexivity|]. split; [|reflexivity]. exists TInt. cbn. tauto.
  - destruct (Sample.config !! "color") as [v|] eqn:Hc; [|done]. exfalso.
    assert (is_Some (Sample.config !! "color")) as Hs by (by rewrite Hc).
    apply (load_keys (fun s => s) Sample.rc "prysk" options Sample.config "color" Hl)
      in Hs as (_ & [ty Hin] & _).
    cbn in Hin. repeat (destruct Hin as [[=]|Hin]); done.
Defined.

Lemma load_values_witness :
  exists n, getint Sample.rc "prysk" "indent" = Got n
            /\ Sample.config !! "indent" = Some (VInt n).
Proof.
  apply (load_values (fun s => s) Sample.rc "prysk" options Sample.config TInt "indent").
  - reflexivity.
  - cbn. repeat (apply List.NoDup_cons; [cbn; intuition discriminate|]).
    apply List.NoDup_nil.
  - by vm_compute.
  - cbn. tauto.
  - reflexivity.
Defined.

Lemma load_first_error_witness :
  load (fun s => "'" +:+ s +:+ "'") Sample.two_bad_rc "prysk" options
  = ValueError "--quiet: invalid boolean value: 'maybe'".
Proof.
  apply (load_first_error (fun s => "'" +:+ s +:+ "'") Sample.two_bad_rc "prysk"
           [(TOther, "tests"); (TOther, "version")] TBool "quiet"
           [(TBool, "verbose"); (TBool, "interactive"); (TBool, "debug"); (TBool, "yes");
            (TBool, "no"); (TBool, "preserve_env"); (TBool, "keep_tmpdir");
            (TOther, "shell"); (TOther, "shell_opts"); (TInt, "indent");
            (TOther, "xunit_file")]
           "maybe").
  - reflexivity.
  - reflexivity.
  - repeat (apply List.Forall_cons; [intros [=]|]). apply List.Forall_nil.
  - reflexivity.
  - by eexists.
  - reflexivity.
Defined.

Lemma which_without_path_witness :
  _which (Demo.platform Demo.rc [] 0) "/bin/sh" = Got (Some "/bin/sh")
  /\ _which (Demo.platform Demo.rc [] 0) "/opt/sh" = Got None
  /\ _which Demo.no_PATH "/bin/sh" = Raised "KeyError".
Proof.
  destruct (which_without_path (Demo.platform Demo.rc [] 0) "/bin/sh") as (_ & H1 & _).
  destruct (which_without_path (Demo.platform Demo.rc [] 0) "/opt/sh") as (_ & H2 & _).
  destruct (which_without_path Demo.no_PATH "/bin/sh") as (H3 & _).
  split; [by apply (H1 "/usr/bin:/bin")|]. split; [by apply (H2 "/usr/bin:/bin")|].
  by apply H3.
Defined.

Lemma env_args_environment_witness :
  _env_args (PyStr.split " ") (<["PRYSK" := " -v -q "]> ∅) "PRYSK"
            (Some (<["HOME" := "/root"]> ∅))
  = [""]
  /\ _env_args (PyStr.split " ") ∅ "PRYSK" (Some (<["PRYSK" := " -v -q "]> ∅))
     = ["-v"; "-q"].
Proof.
  destruct (env_args_environment (PyStr.split " ") (<["PRYSK" := " -v -q "]> ∅) "PRYSK")
    as (_ & Hunset & _).
  destruct (env_args_environment (PyStr.split " ") ∅ "PRYSK") as (_ & _ & Hset & _).
  split.
  - apply (Hunset (<["HOME" := "/root"]> ∅)); [|by vm_compute].
    intros He. by apply (f_equal (fun m : gmap string string => m !! "HOME")) in He.
  - apply (Hset (<["PRYSK" := " -v -q "]> ∅) " -v -q "). by vm_compute.
Defined.

Lemma prompt_returns_valid_witness :
  exists before,
    [Stdout "Go? [yN] "; Readline; Stdout "Go? [yN] "; Readline]
    = List.concat (List.repeat [Stdout (prompt_text "Go?" "yN"); Readline]
                               (S (length before)))
    /\ Forall (fun line =>
                 acceptable "yN" line = false
                 /\ (PyStr.truthy (PyStr.lower (PyStr.strip line)) = false ->
                     PyStr.uppers "yN" = [])) before.
Proof.
  destruct (prompt_returns_valid "Go?" "yN" ["what"; " Y "; "n"] "y" ["n"]
              [Stdout "Go? [yN] "; Readline; Stdout "Go? [yN] "; Readline] eq_refl)
    as (before & Ht & Hb & _).
  by exists before.
Defined.

Lemma patch_required_witness :
  main Sample.no_patch (Demo.args false false true false) (Demo.state [])
  = Ret 2 (Demo.state []) [Stderr ("patch(1) required for -i" +:+ PyStr.LF)]
  /\ exists e, main Sample.no_patch Sample.open_quote_i (Demo.state [])
               = Exc e (Demo.state []) [].
Proof.
  destruct (patch_required Sample.no_patch (Demo.args false false true false)
              (Demo.state []) (Demo.args false false true false))
    as [[_ Hreport] _]; [by exists ∅|reflexivity|by exists "/bin/sh"|].
  destruct (patch_required Sample.no_patch Sample.open_quote_i
              (Demo.state []) Sample.open_quote_i)
    as [_ Hraise]; [by exists ∅|reflexivity|by exists "/bin/sh"|].
  split.
  - apply Hreport. split; [discriminate|]. split; reflexivity.
  - apply Hraise. intros Ho. by destruct (Ho eq_refl).
Defined.

Lemma run_inside_sandbox_witness :
  exists s' t,
    forallb is_body t = true
    /\ ((exists code,
           main (Demo.platform Demo.rc [(Demo.a_t, Returns Demo.failing)] 0)
                (Demo.args false false false false) (Demo.state [])
           = Ret code s'
                 ([Mkdtemp "/tmp/prysk-tests-0"; Setenv "PRYSK_TEMP" "/tmp/prysk-tests-0";
                   Setenv "TMPDIR" "/tmp/prysk-tests-0/tmp";
                   Setenv "TEMP" "/tmp/prysk-tests-0/tmp";
                   Setenv "TMP" "/tmp/prysk-tests-0/tmp";
                   Mkdir "/tmp/prysk-tests-0/tmp"]
                  ++ t ++ [Rmtree "/tmp/prysk-tests-0"]))
        \/ (exists e,
           main (Demo.platform Demo.rc [(Demo.a_t, Returns Demo.failing)] 0)
                (Demo.args false false false false) (Demo.state [])
           = Exc e s'
                 ([Mkdtemp "/tmp/prysk-tests-0"; Setenv "PRYSK_TEMP" "/tmp/prysk-tests-0";
                   Setenv "TMPDIR" "/tmp/prysk-tests-0/tmp";
                   Setenv "TEMP" "/tmp/prysk-tests-0/tmp";
                   Setenv "TMP" "/tmp/prysk-tests-0/tmp";
                   Mkdir "/tmp/prysk-tests-0/tmp"]
                  ++ t ++ [Rmtree "/tmp/prysk-tests-0"]))).
Proof.
  apply (run_inside_sandbox (Demo.platform Demo.rc [(Demo.a_t, Returns Demo.failing)] 0)
           (Demo.args false false false false) (Demo.state [])
           (Demo.args false false false false)).
  demo_checks.
Defined.

Lemma batch_run_reads_nothing_witness :
  exists s' T,
    ((exists code,
        main (Demo.platform Demo.rc [(Demo.a_t, Returns Demo.failing);
                                     (Demo.b_t, Raises "OSError")] 0)
             (Demo.args false true false false) (Demo.state ["y"]) = Ret code s' T)
     \/ (exists e,
        main (Demo.platform Demo.rc [(Demo.a_t, Returns Demo.failing);
                                     (Demo.b_t, Raises "OSError")] 0)
             (Demo.args false true false false) (Demo.state ["y"]) = Exc e s' T))
    /\ forallb (fun e => negb (is_readline e) && negb (is_exec e)) T = true
    /\ stdin s' = ["y"].
Proof.
  apply (batch_run_reads_nothing
           (Demo.platform Demo.rc [(Demo.a_t, Returns Demo.failing);
                                   (Demo.b_t, Raises "OSError")] 0)
           (Demo.args false true false false) (Demo.state ["y"])
           (Demo.args false true false false)); [demo_checks|reflexivity].
Defined.

Lemma auto_answer_reads_nothing_witness :
  exists s' T,
    ((exists code,
        main (Demo.platform Demo.rc [(Demo.a_t, Returns Demo.failing)] 0)
             Sample.no_args (Demo.state ["y"]) = Ret code s' T)
     \/ (exists e,
        main (Demo.platform Demo.rc [(Demo.a_t, Returns Demo.failing)] 0)
             Sample.no_args (Demo.state ["y"]) = Exc e s' T))
    /\ forallb (fun e => negb (is_readline e)) T = true
    /\ stdin s' = ["y"]
    /\ forallb (fun e => negb (is_exec e)) T = true.
Proof.
  destruct (auto_answer_reads_nothing
              (Demo.platform Demo.rc [(Demo.a_t, Returns Demo.failing)] 0)
              Sample.no_args (Demo.state ["y"]) Sample.no_args)
    as (s' & T & Hrun & Hr & Hs & He); [demo_checks|by right|].
  exists s', T. split; [exact Hrun|]. split; [exact Hr|]. split; [exact Hs|].
  by apply He.
Defined.


Lemma debug_run_is_bare_witness :
  main (Demo.platform Demo.rc [(Demo.a_t, Returns Demo.failing);
                               (Demo.b_t, Returns Demo.passing)] 0)
       Sample.debug_args (Demo.state ["y"])
  = Ret 1 (Demo.state ["y"])
        (sandbox_setup (Demo.platform Demo.rc [] 0)
         ++ [Call Demo.a_t; Call Demo.b_t] ++ [Rmtree "/tmp/prysk-tests-0"]).
Proof.
  apply (debug_run_is_bare
           (Demo.platform Demo.rc [(Demo.a_t, Returns Demo.failing);
                                   (Demo.b_t, Returns Demo.passing)] 0)
           Sample.debug_args (Demo.state ["y"]) Sample.debug_args
           [(Demo.a_t, Demo.failing); (Demo.b_t, Demo.passing)]);
    [demo_checks|reflexivity|reflexivity].
Defined.

Lemma exception_stops_run_witness :
  exists s' t,
    main (Demo.platform Demo.rc [(Demo.a_t, Returns Demo.passing);
                                 (Demo.b_t, Raises "OSError");
                                 (Sample.c_t, Returns Demo.passing)] 0)
         (Demo.args false false false false) (Demo.state [])
    = Exc "OSError" s'
          (sandbox_setup (Demo.platform Demo.rc [] 0) ++ (t ++ [Call Demo.b_t])
           ++ [Rmtree "/tmp/prysk-tests-0"])
    /\ calls t = [Demo.a_t].
Proof.
  apply (exception_stops_run
           (Demo.platform Demo.rc [(Demo.a_t, Returns Demo.passing);
                                   (Demo.b_t, Raises "OSError");
                                   (Sample.c_t, Returns Demo.passing)] 0)
           (Demo.args false false false false) (Demo.state [])
           (Demo.args false false false false)
           [(Demo.a_t, Demo.passing)] Demo.b_t "OSError"
           [(Sample.c_t, Returns Demo.passing)]); [demo_checks|reflexivity].
Defined.

Lemma summary_reports_tally_witness :
  exists s' t,
    main (Demo.platform Demo.rc [(Demo.a_t, Returns Demo.failing);
                                 (Demo.b_t, Returns Demo.skipping);
                                 (Sample.c_t, Returns Demo.passing)] 0)
         (Demo.args false false false false) (Demo.state [])
    = Ret 1 s'
          (sandbox_setup (Demo.platform Demo.rc [] 0)
           ++ (t ++ [Stdout PyStr.LF]
               ++ [Stdout ("# Ran 3 tests, 1 skipped, 1 failed." +:+ PyStr.LF)] ++ [])
           ++ [Rmtree "/tmp/prysk-tests-0"])
    /\ counters s' = mkCounters 3 1 1.
Proof.
  destruct (summary_reports_tally
              (Demo.platform Demo.rc [(Demo.a_t, Returns Demo.failing);
                                      (Demo.b_t, Returns Demo.skipping);
                                      (Sample.c_t, Returns Demo.passing)] 0)
              (Demo.args false false false false) (Demo.state [])
              (Demo.args false false false false)
              [(Demo.a_t, Demo.failing); (Demo.b_t, Demo.skipping);
               (Sample.c_t, Demo.passing)])
    as (s' & t & Hrun & Hc & _); [demo_checks|reflexivity|reflexivity|discriminate|].
  by exists s', t.
Defined.


Lemma short_name_last_two_witness :
  short_name (mkPath "/" ["home"; "u"; "tests"; "a.t"]) = "tests/a.t"
  /\ short_name (mkPath "" ["a.t"]) = "a.t".
Proof.
  destruct short_name_last_two as [H2 H1].
  split; [by apply (H2 "/" ["home"; "u"] "tests" "a.t")|by apply (H1 "" "a.t")].
Defined.
